(** * midnight-devkit CLI: a shallow embedding of the command actions

  The development follows the sources of the command-line tool:
  - [commands/init.ts]          (project initializer),
  - [commands/contract.ts]      (contract compiler adapter),
  - [commands/proof-server.ts]  (proof-server process manager),
  - [commands/deploy.ts]        (deployment orchestrator).

  Command actions are written in a small state-and-exception monad over a
  [world] that holds the file system, the state of the container runtime
  and the trace of observable actions.  Values the commands receive from
  [commander] are strings, as they are at run time. *)

From Stdlib Require Import Ascii String ZArith Lia.
From stdpp Require Import base option list strings gmap.

Local Open Scope Z_scope.

(** ** JavaScript primitives used by the commands *)
Module Js.

(** Truthiness of a string value: only the empty string is falsy. *)
Definition truthy (s : string) : bool :=
  match s with EmptyString => false | String _ _ => true end.

(** [a || b] where [a] may be [undefined]. *)
Definition or_else (a : option string) (b : option string) : option string :=
  match a with
  | Some s => if truthy s then Some s else b
  | None => b
  end.

(** [a ?? b]: only [undefined] falls through. *)
Definition nullish {A : Type} (a : option A) (b : option A) : option A :=
  match a with Some x => Some x | None => b end.

(** [String.prototype.startsWith] and [String.prototype.endsWith]. *)
Fixpoint startsWith (p s : string) : bool :=
  match p, s with
  | EmptyString, _ => true
  | String a p', String b s' => if Ascii.eqb a b then startsWith p' s' else false
  | String _ _, EmptyString => false
  end.

Definition endsWith (s suffix : string) : bool :=
  startsWith (String.rev suffix) (String.rev s).

(** [String.prototype.trim]: white space is removed at both ends. *)
Fixpoint trimStart (s : string) : string :=
  match s with
  | String a s' => if Ascii.is_space a then trimStart s' else s
  | EmptyString => EmptyString
  end.

Definition trimEnd (s : string) : string := String.rev (trimStart (String.rev s)).

Definition trim (s : string) : string := trimEnd (trimStart s).

(** [s] consists of characters that satisfy [p]. *)
Fixpoint every (p : ascii → bool) (s : string) : bool :=
  match s with
  | EmptyString => true
  | String a s' => p a && every p s'
  end.

(** The double quote, for template texts that contain it. *)
Definition dq : string := String (ascii_of_nat 34) EmptyString.

(** Decimal rendering of a number inside a template literal. *)
Fixpoint digits_of (fuel : nat) (n : nat) (acc : string) : string :=
  match fuel with
  | O => acc
  | S fuel' =>
      let d := String (ascii_of_nat (48 + Nat.modulo n 10)) acc in
      if Nat.ltb n 10 then d else digits_of fuel' (Nat.div n 10) d
  end.

Definition show_nat (n : nat) : string := digits_of (S n) n EmptyString.

(** Reading a decimal numeral, as the tools that receive a port do. *)
Fixpoint read_digits (s : string) (acc : N) : option N :=
  match s with
  | EmptyString => Some acc
  | String a s' =>
      match Ascii.is_nat a with
      | Some d => read_digits s' (10 * acc + N.of_nat d)%N
      | None => None
      end
  end.

Definition read_nat (s : string) : option N :=
  match s with
  | EmptyString => None
  | _ => read_digits s 0%N
  end.

(** An integer that is a number of JavaScript, a finite double: it has at
    most 53 significant bits and lies below [2 ^ 1024]. *)
Definition is_double (n : Z) : bool :=
  let a := Z.abs n in
  if a <? 2 ^ 53 then true
  else (Z.log2 a <? 1024) && (a mod 2 ^ (Z.log2 a - 52) =? 0).

End Js.

(** ** Regular expressions, for the one pattern of the initializer *)
Module Regex.

Inductive regex : Type :=
| Void
| Eps
| Class (p : ascii → bool)
| Cat (r1 r2 : regex)
| Alt (r1 r2 : regex)
| Star (r : regex).

(** [r+] *)
Definition Plus (r : regex) : regex := Cat r (Star r).

Fixpoint nullable (r : regex) : bool :=
  match r with
  | Void => false
  | Eps => true
  | Class _ => false
  | Cat r1 r2 => nullable r1 && nullable r2
  | Alt r1 r2 => nullable r1 || nullable r2
  | Star _ => true
  end.

Fixpoint deriv (a : ascii) (r : regex) : regex :=
  match r with
  | Void => Void
  | Eps => Void
  | Class p => if p a then Eps else Void
  | Cat r1 r2 =>
      if nullable r1
      then Alt (Cat (deriv a r1) r2) (deriv a r2)
      else Cat (deriv a r1) r2
  | Alt r1 r2 => Alt (deriv a r1) (deriv a r2)
  | Star r1 => Cat (deriv a r1) (Star r1)
  end.

Fixpoint accepts (r : regex) (s : string) : bool :=
  match s with
  | EmptyString => nullable r
  | String a s' => accepts (deriv a r) s'
  end.

(** [/^r$/.test(s)]: without the [m] flag both anchors are those of the
    whole input, so the test is a match of the whole string. *)
Definition test_anchored (r : regex) (s : string) : bool := accepts r s.

(** The language of a regular expression. *)
Inductive Matches : regex → string → Prop :=
| MEps : Matches Eps EmptyString
| MClass p a : p a = true → Matches (Class p) (String a EmptyString)
| MCat r1 r2 s1 s2 : Matches r1 s1 → Matches r2 s2 → Matches (Cat r1 r2) (s1 +:+ s2)
| MAltL r1 r2 s : Matches r1 s → Matches (Alt r1 r2) s
| MAltR r1 r2 s : Matches r2 s → Matches (Alt r1 r2) s
| MStarNil r : Matches (Star r) EmptyString
| MStarCons r s1 s2 : Matches r s1 → Matches (Star r) s2 → Matches (Star r) (s1 +:+ s2).

End Regex.

(** ** JSON documents, as [readJsonSync] returns and [writeJsonSync] takes them *)
Module Json.

(** The values [JSON.parse] returns.  The model is restricted to documents
    without arrays whose numbers are integers; a number stands for the
    double it is read as (see [exact]). *)
#[warnings="-register-all"] Inductive json : Type :=
| JNull
| JBool (b : bool)
| JNum (n : Z)
| JStr (s : string)
| JObj (fields : gmap string json).

(** A JavaScript value read from a document: [None] is [undefined]. *)
Definition value : Type := option json.

Definition truthy (j : json) : bool :=
  match j with
  | JNull => false
  | JBool b => b
  | JNum n => negb (n =? 0)
  | JStr s => Js.truthy s
  | JObj _ => true
  end.

Definition truthy_value (v : value) : bool :=
  match v with Some j => truthy j | None => false end.

(** [a || b] *)
Definition or_else (a b : value) : value := if truthy_value a then a else b.

(** [ToString], as a template literal and a property key apply it; for a
    number, below [10 ^ 21] in size. *)
Definition to_string (j : json) : string :=
  match j with
  | JNull => "null"
  | JBool true => "true"
  | JBool false => "false"
  | JNum n => if n <? 0 then "-" +:+ Js.show_nat (Z.to_nat (- n)) else Js.show_nat (Z.to_nat n)
  | JStr s => s
  | JObj _ => "[object Object]"
  end.

(** [typeof j], with [null] for [null]. *)
Definition typeof (j : json) : string :=
  match j with
  | JNull => "null"
  | JBool _ => "boolean"
  | JNum _ => "number"
  | JStr _ => "string"
  | JObj _ => "object"
  end.

(** [j[k]] for a document that is not [null]. *)
Definition get (k : string) (j : json) : option json :=
  match j with
  | JObj m => m !! k
  | _ => None
  end.

(** An object literal. *)
Definition obj (l : list (string * json)) : json := JObj (list_to_map l).

(** The own property names of an object. *)
Definition keys (j : json) : gset string :=
  match j with JObj m => dom m | _ => ∅ end.

(** Every number of the value is a double: such a value is what
    [JSON.parse] returns for the text [JSON.stringify] makes of it. *)
Fixpoint exact (j : json) : bool :=
  match j with
  | JNum n => Js.is_double n
  | JObj m => map_fold (λ _ v acc, exact v && acc) true m
  | _ => true
  end.

(** [o[k] = v] for an ordinary object [o] with the own properties [m]: the
    value becomes the own property [k].  The one exception is the key
    [__proto__] where [o] has no own property of that name: the assignment
    reaches the setter of [Object.prototype], which changes the prototype
    of [o] at most and adds no own property, so that [JSON.stringify] writes
    [o] without it. *)
Definition set (k : string) (v : json) (m : gmap string json) : gmap string json :=
  if String.eqb k "__proto__" && bool_decide (m !! k = None) then m
  else <[k := v]> m.

End Json.

(** ** The file system *)
Module Fs.

(** A file holds a JSON document, given by the value [JSON.parse] reads
    from it, or a text that is not one. *)
Inductive content : Type :=
| Text (s : string)
| Doc (j : Json.json).

Inductive node : Type :=
| Dir
| File (c : content).

(** Paths with their nodes, in the order in which the operating system
    enumerates them: [readdirSync] lists a directory in that order. *)
Definition fs : Type := list (string * node).

Fixpoint lookup (p : string) (f : fs) : option node :=
  match f with
  | [] => None
  | (q, n) :: f' => if String.eqb p q then Some n else lookup p f'
  end.

(** A new path is enumerated last, an existing one keeps its place. *)
Fixpoint put (p : string) (n : node) (f : fs) : fs :=
  match f with
  | [] => [(p, n)]
  | (q, m) :: f' => if String.eqb p q then (q, n) :: f' else (q, m) :: put p n f'
  end.

Definition put_all (l : list (string * node)) (f : fs) : fs :=
  fold_left (λ f pn, put pn.1 pn.2 f) l f.

Definition exists_ (p : string) (f : fs) : bool :=
  match lookup p f with Some _ => true | None => false end.

(** [path.join(a, b)] where [a] is a path in normal form and [b] a relative
    one: nothing is to be normalised.  This is the case wherever a command
    joins the working directory, or the directory of a project, with a name
    of its own. *)
Definition join (a b : string) : string := a +:+ "/" +:+ b.

(** [path.resolve(p)] for a path [p] in normal form; it is also the path
    the operating system follows for such a [p] in the working directory
    [cwd]. *)
Definition resolve (cwd p : string) : string :=
  if Js.startsWith "/" p then p else join cwd p.

Fixpoint has_slash (s : string) : bool :=
  match s with
  | EmptyString => false
  | String a s' => if Ascii.eqb a "/" then true else has_slash s'
  end.

Fixpoint strip_prefix (p s : string) : option string :=
  match p, s with
  | EmptyString, _ => Some s
  | String a p', String b s' => if Ascii.eqb a b then strip_prefix p' s' else None
  | String _ _, EmptyString => None
  end.

(** The name under which [p] is an entry of directory [dir], if it is one. *)
Definition entry_of (dir p : string) : option string :=
  match strip_prefix (dir +:+ "/") p with
  | Some name => if Js.truthy name && negb (has_slash name) then Some name else None
  | None => None
  end.

(** [path.basename] *)
Fixpoint basename_go (s acc : string) : string :=
  match s with
  | EmptyString => acc
  | String a s' =>
      if Ascii.eqb a "/" then basename_go s' EmptyString
      else basename_go s' (acc +:+ String a EmptyString)
  end.

Definition basename (p : string) : string := basename_go p EmptyString.

Definition entries (dir : string) (f : fs) : list string :=
  omap (λ pn, entry_of dir (fst pn)) f.

(** *** Paths as [path] computes them *)

(** The segments of a path, between its slashes. *)
Fixpoint segments_go (s cur : string) : list string :=
  match s with
  | EmptyString => [cur]
  | String a s' =>
      if Ascii.eqb a "/" then cur :: segments_go s' EmptyString
      else segments_go s' (cur +:+ String a EmptyString)
  end.

Definition segments (p : string) : list string := segments_go p EmptyString.

(** One step of [normalizeString]: the segments kept so far, the last one
    first, and the next segment. *)
Definition keep (allowAboveRoot : bool) (kept : list string) (seg : string) : list string :=
  if String.eqb seg "" || String.eqb seg "." then kept
  else if String.eqb seg ".." then
    match kept with
    | top :: rest => if String.eqb top ".." then seg :: kept else rest
    | [] => if allowAboveRoot then [seg] else []
    end
  else seg :: kept.

Fixpoint unsplit (segs : list string) : string :=
  match segs with
  | [] => EmptyString
  | [seg] => seg
  | seg :: rest => seg +:+ "/" +:+ unsplit rest
  end.

(** [normalizeString(path, allowAboveRoot)]: empty segments and [.] are
    dropped, [..] takes the segment before it away. *)
Definition normalizeString (p : string) (allowAboveRoot : bool) : string :=
  unsplit (rev (fold_left (keep allowAboveRoot) (segments p) [])).

(** [path.normalize] *)
Definition normalize (p : string) : string :=
  match p with
  | EmptyString => "."
  | _ =>
      let isAbsolute := Js.startsWith "/" p in
      let trailingSeparator := Js.endsWith p "/" in
      match normalizeString p (negb isAbsolute) with
      | EmptyString =>
          if isAbsolute then "/" else if trailingSeparator then "./" else "."
      | body =>
          (if isAbsolute then "/" else "") +:+ body
          +:+ (if trailingSeparator then "/" else "")
      end
  end.

(** [path.join(a, b)] of two texts that are not empty. *)
Definition path_join (a b : string) : string := normalize (a +:+ "/" +:+ b).

(** [path.resolve(p)] of a text that is not empty, in the working directory
    [cwd], which is an absolute path. *)
Definition path_resolve (cwd p : string) : string :=
  "/" +:+ normalizeString (if Js.startsWith "/" p then p else cwd +:+ "/" +:+ p) false.

(** The directories above a path, the outermost first; the root is not
    among them. *)
Fixpoint above_go (s before : string) : list string :=
  match s with
  | EmptyString => []
  | String a s' =>
      (if Ascii.eqb a "/" && Js.truthy before then [before] else [])
      ++ above_go s' (before +:+ String a EmptyString)
  end.

Definition above (p : string) : list string := above_go p EmptyString.

(** [mkdir -p]: the directories [qs], each below the one before it, are
    made where they are missing; a file among them is in the way. *)
Fixpoint mkdirs (qs : list string) (f : fs) : option fs :=
  match qs with
  | [] => Some f
  | q :: rest =>
      match lookup q f with
      | Some (File _) => None
      | Some Dir => mkdirs rest f
      | None => mkdirs rest (put q Dir f)
      end
  end.

End Fs.

(** ** Processes: the world a command runs in, and the monad of its actions *)
Module Proc.

Inductive spin : Type := Start | Status | Succeed | Fail | Warn | Info.

(** Observable actions.  Colours and pictographs of the messages are left
    out of the texts. *)
Inductive event : Type :=
| Console (s : string)
| ConsoleError (s : string)
| Spinner (k : spin) (s : string)
| Exec (cmd : string)
| Spawn (cmd : string) (args : list string)
| EnsureDir (p : string)
| WriteFile (p : string) (c : Fs.content)
| WatchFile (p : string)
| Sleep (ms : nat).

Record world : Type := World {
  cwd : string;
  files : Fs.fs;
  (** [process.env.COMPACT_HOME] *)
  compact_home : option string;
  (** shell commands that exit with a non-zero status *)
  failing : gset string;
  docker_installed : bool;
  docker_daemon : bool;
  (** the host port published by the running container
      [midnight-proof-server], if it runs *)
  container : option N;
  (** the server inside the container answers its health endpoint *)
  server_healthy : bool;
  (** host ports on which another process answers [/health] *)
  listeners : gset N;
  (** the host port the runtime picks when asked for port 0 *)
  ephemeral_port : N;
  (** the draws of [Math.random] to come, each as an integer that
      [Math.floor(Math.random() * n)] reduces modulo [n] *)
  random : list Z;
  (** [new Date().toISOString()] *)
  clock : string;
  trace : list event
}.

Definition set_files (f : Fs.fs) (w : world) : world :=
  World (cwd w) f (compact_home w) (failing w) (docker_installed w)
    (docker_daemon w) (container w) (server_healthy w) (listeners w)
    (ephemeral_port w) (random w) (clock w) (trace w).

Definition set_container (c : option N) (w : world) : world :=
  World (cwd w) (files w) (compact_home w) (failing w) (docker_installed w)
    (docker_daemon w) c (server_healthy w) (listeners w)
    (ephemeral_port w) (random w) (clock w) (trace w).

Definition set_random (r : list Z) (w : world) : world :=
  World (cwd w) (files w) (compact_home w) (failing w) (docker_installed w)
    (docker_daemon w) (container w) (server_healthy w) (listeners w)
    (ephemeral_port w) r (clock w) (trace w).

Definition set_trace (t : list event) (w : world) : world :=
  World (cwd w) (files w) (compact_home w) (failing w) (docker_installed w)
    (docker_daemon w) (container w) (server_healthy w) (listeners w)
    (ephemeral_port w) (random w) (clock w) t.

(** How a piece of a command ends: it returns, throws an [Error] with a
    message, ends the process with [process.exit], or waits for input that
    never comes. *)
Inductive outcome (A : Type) : Type :=
| Ret (a : A)
| Throw (msg : string)
| Exit (code : Z)
| Stalled.
Arguments Ret {A} a.
Arguments Throw {A} msg.
Arguments Exit {A} code.
Arguments Stalled {A}.

Definition M (A : Type) : Type := world → outcome A * world.

Definition ret {A : Type} (a : A) : M A := λ w, (Ret a, w).

Definition bind {A B : Type} (m : M A) (k : A → M B) : M B :=
  λ w, match m w with
       | (Ret a, w') => k a w'
       | (Throw e, w') => (Throw e, w')
       | (Exit c, w') => (Exit c, w')
       | (Stalled, w') => (Stalled, w')
       end.

Definition throw {A : Type} (msg : string) : M A := λ w, (Throw msg, w).

(** [process.exit(code)]: no handler runs after it. *)
Definition exit {A : Type} (code : Z) : M A := λ w, (Exit code, w).

Definition stall {A : Type} : M A := λ w, (Stalled, w).

(** [try { m } catch (error) { h error.message }] *)
Definition try_catch {A : Type} (m : M A) (h : string → M A) : M A :=
  λ w, match m w with
       | (Throw e, w') => h e w'
       | r => r
       end.

Definition get : M world := λ w, (Ret w, w).

(** A computation that touches nothing and may throw. *)
Inductive result (A : Type) : Type :=
| Ok (a : A)
| Err (msg : string).
Arguments Ok {A} a.
Arguments Err {A} msg.

Definition lift {A : Type} (r : result A) : M A :=
  match r with
  | Ok a => ret a
  | Err msg => throw msg
  end.

Definition emit (e : event) : M unit :=
  λ w, (Ret tt, set_trace (trace w ++ [e]) w).

Definition when (b : bool) (m : M unit) : M unit := if b then m else ret tt.

(** The exit status of the process once the action of a command is over:
    falling off the end is status 0, an uncaught error is status 1. *)
Definition status {A : Type} (o : outcome A) : option Z :=
  match o with
  | Ret _ => Some 0
  | Throw _ => Some 1
  | Exit c => Some c
  | Stalled => None
  end.

(** *** [fs-extra] *)

Definition existsSync (p : string) : M bool :=
  λ w, (Ret (Fs.exists_ p (files w)), w).

(** [ensureDirSync(p)] where the directory above [p] exists: so it is where
    [init] and [test] call it, for a name in the working directory and for
    the directories of a project, each after the one above it. *)
Definition ensureDirSync (p : string) : M unit :=
  λ w, let w1 := set_trace (trace w ++ [EnsureDir p]) w in
       match Fs.lookup p (files w) with
       | Some (Fs.File _) => (Throw ("EEXIST: file already exists, mkdir " +:+ p), w1)
       | Some Fs.Dir => (Ret tt, w1)
       | None => (Ret tt, set_files (Fs.put p Fs.Dir (files w)) w1)
       end.

(** [ensureDirSync(p)] for any absolute path [p], under the name
    [fs-extra] also gives it: the directories above [p] that are missing are
    made as well; a file at [p] or above it makes the call throw, and then
    nothing has been made. *)
Definition mkdirsSync (p : string) : M unit :=
  λ w, let w1 := set_trace (trace w ++ [EnsureDir p]) w in
       match Fs.mkdirs (Fs.above p ++ [p]) (files w) with
       | Some f => (Ret tt, set_files f w1)
       | None =>
           match Fs.lookup p (files w) with
           | Some (Fs.File _) => (Throw ("EEXIST: file already exists, mkdir " +:+ p), w1)
           | _ => (Throw ("ENOTDIR: not a directory, mkdir " +:+ p), w1)
           end
       end.

Definition writeFileSync (p : string) (c : Fs.content) : M unit :=
  λ w, let w1 := set_trace (trace w ++ [WriteFile p c]) w in
       match Fs.lookup p (files w) with
       | Some Fs.Dir => (Throw ("EISDIR: illegal operation on a directory, open " +:+ p), w1)
       | _ => (Ret tt, set_files (Fs.put p (Fs.File c) (files w)) w1)
       end.

Definition writeJsonSync (p : string) (j : Json.json) : M unit :=
  writeFileSync p (Fs.Doc j).

Definition readJsonSync (p : string) : M Json.json :=
  λ w, match Fs.lookup p (files w) with
       | Some (Fs.File (Fs.Doc j)) => (Ret j, w)
       | Some (Fs.File (Fs.Text _)) => (Throw (p +:+ ": Unexpected token in JSON"), w)
       | Some Fs.Dir => (Throw ("EISDIR: illegal operation on a directory, read " +:+ p), w)
       | None => (Throw ("ENOENT: no such file or directory, open " +:+ p), w)
       end.

Definition readdirSync (p : string) : M (list string) :=
  λ w, match Fs.lookup p (files w) with
       | Some Fs.Dir => (Ret (Fs.entries p (files w)), w)
       | Some (Fs.File _) => (Throw ("ENOTDIR: not a directory, scandir " +:+ p), w)
       | None => (Throw ("ENOENT: no such file or directory, scandir " +:+ p), w)
       end.

(** *** [child_process] *)

(** [execSync(cmd)]: the command runs to its end, and the call throws when
    it exits with a non-zero status.  What the command itself does is not
    followed: [files] holds the nodes that were there when the tool started
    and those the tool has written, not what [npm install], the compiler or
    the test runner write; the properties of runs that reach such a command
    are stated on the calls the tool makes. *)
Definition execSync (cmd : string) : M unit :=
  λ w, let w1 := set_trace (trace w ++ [Exec cmd]) w in
       if bool_decide (cmd ∈ failing w)
       then (Throw ("Command failed: " +:+ cmd), w1)
       else (Ret tt, w1).

(** [Math.floor(Math.random() * n)] *)
Definition random_below (n : Z) : M Z :=
  λ w, match random w with
       | [] => (Ret 0, w)
       | r :: rest => (Ret (r mod n), set_random rest w)
       end.

(** Which events change the file system. *)
Definition mutates (e : event) : bool :=
  match e with
  | EnsureDir _ | WriteFile _ _ => true
  | _ => false
  end.

(** Which events reach outside the process: subprocesses and waits. *)
Definition external (e : event) : bool :=
  match e with
  | Exec _ | Spawn _ _ | Sleep _ => true
  | _ => false
  end.

End Proc.

#[global] Instance proc_ret : MRet Proc.M := @Proc.ret.
#[global] Instance proc_bind : MBind Proc.M := λ A B k m, Proc.bind m k.

(** ** [commands/init.ts] *)
Module Init.
Import Proc.

Record ProjectOptions : Type := {
  name : string;
  template : string;
  useTypeScript : bool;
  installDependencies : bool
}.

(** The options object [commander] hands to the action ([options?: any]). *)
Record Flags : Type := {
  flag_template : option string;
  flag_typescript : option bool;
  flag_install : option bool
}.

(** What the user does at the prompts: the lines entered at the name
    prompt, the template picked from the list, the two confirmations. *)
Record User : Type := {
  typed : list string;
  picked : string;
  confirm_typescript : bool;
  confirm_install : bool
}.

Definition templates : list (string * (string * string)) :=
  [ ("basic-dapp", ("Basic DApp", "Simple DApp with smart contract and UI"));
    ("zk-game", ("ZK Game", "Privacy-preserving game using zero-knowledge proofs"));
    ("defi-app", ("DeFi Application", "Decentralized finance application with privacy features"));
    ("identity", ("Identity Verification", "Privacy-preserving identity verification system")) ].

(** The character class [[a-z0-9-]]. *)
Definition name_char (c : ascii) : bool :=
  let n := nat_of_ascii c in
  (Nat.leb 97 n && Nat.leb n 122) || (Nat.leb 48 n && Nat.leb n 57) || Nat.eqb n 45.

(** [/^[a-z0-9-]+$/] *)
Definition name_pattern : Regex.regex := Regex.Plus (Regex.Class name_char).

Inductive verdict : Type :=
| Valid
| Invalid (msg : string).

Definition validate (input : string) : verdict :=
  if Regex.test_anchored name_pattern input then Valid
  else Invalid "Project name must contain only lowercase letters, numbers, and hyphens".

Definition accepted (v : verdict) : bool :=
  match v with Valid => true | Invalid _ => false end.

(** The input prompt of [inquirer]: an empty line stands for the default
    answer, and the question is asked again, with the message of [validate],
    until [validate] returns [true]. *)
Definition filterInput (default line : string) : string :=
  if Js.truthy line then line else default.

Fixpoint ask_input (default : string) (check : string → verdict)
    (lines : list string) : M string :=
  match lines with
  | [] => stall
  | l :: rest =>
      match check (filterInput default l) with
      | Valid => ret (filterInput default l)
      | Invalid msg => emit (Console msg);; ask_input default check rest
      end
  end.

(** [default: name || 'my-midnight-app'] *)
Definition defaultName (arg : option string) : string :=
  default "my-midnight-app" (Js.or_else arg None).

Definition nl : string := String (ascii_of_nat 10) EmptyString.

(** A template literal that opens with a line break and holds these lines. *)
Definition template_text (lines : list string) : string :=
  nl +:+ foldr (λ l acc, l +:+ nl +:+ acc) EmptyString lines.

Definition packageJson (options : ProjectOptions) : Json.json :=
  Json.obj [
    ("name", Json.JStr (name options));
    ("version", Json.JStr "0.1.0");
    ("description", Json.JStr "A Midnight Network DApp");
    ("scripts", Json.obj [
      ("dev", Json.JStr "vite");
      ("build", Json.JStr "vite build");
      ("test", Json.JStr "jest");
      ("compile-contract", Json.JStr "compactc src/contracts/main.compact -o build/");
      ("deploy", Json.JStr "midnight deploy") ]);
    ("dependencies", Json.obj [
      ("@midnight-ntwrk/midnight-js-sdk", Json.JStr "latest");
      ("@midnight-ntwrk/compact-runtime", Json.JStr "latest");
      ("react", Json.JStr "^18.2.0");
      ("react-dom", Json.JStr "^18.2.0");
      ("vite", Json.JStr "^4.4.0") ]);
    ("devDependencies",
      if useTypeScript options then
        Json.obj [
          ("@types/react", Json.JStr "^18.2.0");
          ("@types/react-dom", Json.JStr "^18.2.0");
          ("typescript", Json.JStr "^5.0.0");
          ("@vitejs/plugin-react", Json.JStr "^4.0.0") ]
      else
        Json.obj [ ("@vitejs/plugin-react", Json.JStr "^4.0.0") ]);
    ("license", Json.JStr "Apache-2.0") ].

Definition contractContent : string :=
  template_text [
    "// Basic Midnight smart contract";
    "contract Counter {";
    "  secret counter: Field;";
    "  ";
    "  export function increment(): Void {";
    "    counter = counter + 1;";
    "  }";
    "  ";
    "  export function getCount(): Field {";
    "    return counter;";
    "  }";
    "}" ].

(** The two starter components differ in the line of [useState]. *)
Definition appLines (useStateLine : string) : list string :=
  [ "import React, { useState, useEffect } from 'react';";
    "import { MidnightProvider, useMidnight } from '@midnight-ntwrk/midnight-js-sdk';";
    "";
    "function App() {";
    useStateLine;
    "  const { contract, isConnected } = useMidnight();";
    "";
    "  const handleIncrement = async () => {";
    "    if (contract) {";
    "      await contract.increment();";
    "      const newCount = await contract.getCount();";
    "      setCount(newCount);";
    "    }";
    "  };";
    "";
    "  return (";
    "    <div className=" +:+ Js.dq +:+ "app" +:+ Js.dq +:+ ">";
    "      <h1>Midnight Counter DApp</h1>";
    "      <p>Count: {count}</p>";
    "      <button onClick={handleIncrement}>Increment</button>";
    "      <p>Connected: {isConnected ? 'Yes' : 'No'}</p>";
    "    </div>";
    "  );";
    "}";
    "";
    "export default App;" ].

Definition appContent (options : ProjectOptions) : string :=
  if useTypeScript options
  then template_text (appLines "  const [count, setCount] = useState<number>(0);")
  else template_text (appLines "  const [count, setCount] = useState(0);").

Definition fileExtension (options : ProjectOptions) : string :=
  if useTypeScript options then "tsx" else "jsx".

Definition readmeContent (options : ProjectOptions) : string :=
  template_text [
    "# " +:+ name options;
    "";
    "A Midnight Network DApp built with Midnight DevKit.";
    "";
    "## Getting Started";
    "";
    "### Prerequisites";
    "";
    "- Node.js 18+";
    "- Midnight Compact compiler";
    "- Docker (for proof server)";
    "";
    "### Installation";
    "";
    "```bash";
    "npm install";
    "```";
    "";
    "### Development";
    "";
    "1. Start the proof server:";
    "```bash";
    "midnight proof-server start";
    "```";
    "";
    "2. Compile contracts:";
    "```bash";
    "npm run compile-contract";
    "```";
    "";
    "3. Start development server:";
    "```bash";
    "npm run dev";
    "```";
    "";
    "### Deployment";
    "";
    "```bash";
    "midnight deploy --network testnet";
    "```";
    "";
    "## License";
    "";
    "Apache-2.0" ].

Definition gitignoreContent : string :=
  template_text [
    "node_modules/"; "dist/"; "build/"; ".env"; ".env.local"; "*.log"; ".DS_Store" ].

Definition midnightConfig : Json.json :=
  Json.obj [
    ("network", Json.JStr "testnet");
    ("compiler", Json.obj [
      ("version", Json.JStr "0.8.11");
      ("outputDir", Json.JStr "build") ]);
    ("proofServer", Json.obj [
      ("port", Json.JNum 6300);
      ("docker", Json.JBool true) ]) ].

Definition dirs : list string :=
  [ "src"; "src/contracts"; "src/components"; "src/utils"; "tests"; "public" ].

(** [dirs.forEach(dir => fs.ensureDirSync(path.join(projectPath, dir)))] *)
Fixpoint ensureDirs (projectPath : string) (ds : list string) : M unit :=
  match ds with
  | [] => ret tt
  | d :: rest => ensureDirSync (Fs.join projectPath d);; ensureDirs projectPath rest
  end.

Definition createProjectStructure (projectPath : string) (options : ProjectOptions) : M unit :=
  ensureDirs projectPath dirs;;
  writeJsonSync (Fs.join projectPath "package.json") (packageJson options);;
  writeFileSync (Fs.join projectPath "src/contracts/Counter.compact")
    (Fs.Text (Js.trim contractContent));;
  writeFileSync (Fs.join projectPath ("src/App." +:+ fileExtension options))
    (Fs.Text (Js.trim (appContent options)));;
  writeFileSync (Fs.join projectPath "README.md")
    (Fs.Text (Js.trim (readmeContent options)));;
  writeFileSync (Fs.join projectPath ".gitignore")
    (Fs.Text (Js.trim gitignoreContent));;
  writeJsonSync (Fs.join projectPath "midnight.config.json") midnightConfig.

(** The nodes a run of [createProjectStructure] that returns has put, in
    the order of the calls. *)
Definition scaffold (projectPath : string) (options : ProjectOptions)
    : list (string * Fs.node) :=
  map (λ d, (Fs.join projectPath d, Fs.Dir)) dirs
  ++ [ (Fs.join projectPath "package.json", Fs.File (Fs.Doc (packageJson options)));
       (Fs.join projectPath "src/contracts/Counter.compact",
        Fs.File (Fs.Text (Js.trim contractContent)));
       (Fs.join projectPath ("src/App." +:+ fileExtension options),
        Fs.File (Fs.Text (Js.trim (appContent options))));
       (Fs.join projectPath "README.md", Fs.File (Fs.Text (Js.trim (readmeContent options))));
       (Fs.join projectPath ".gitignore", Fs.File (Fs.Text (Js.trim gitignoreContent)));
       (Fs.join projectPath "midnight.config.json", Fs.File (Fs.Doc midnightConfig)) ].

(** The same options with another TypeScript flag. *)
Definition with_typescript (b : bool) (options : ProjectOptions) : ProjectOptions := {|
  name := name options;
  template := template options;
  useTypeScript := b;
  installDependencies := installDependencies options
|}.

(** The packages a manifest depends on. *)
Definition dependencySet (manifest : Json.json) : gset string :=
  Json.keys (default Json.JNull (Json.get "dependencies" manifest))
  ∪ Json.keys (default Json.JNull (Json.get "devDependencies" manifest)).

(** The answers of the prompts after the name: a question whose [when] is
    false leaves its answer [undefined]. *)
Definition answer_template (options : Flags) (user : User) : option string :=
  if negb (Js.truthy (default EmptyString (flag_template options)))
  then Some (picked user) else None.

Definition answer_typescript (options : Flags) (user : User) : option bool :=
  match flag_typescript options with
  | None => Some (confirm_typescript user)
  | Some _ => None
  end.

Definition answer_install (options : Flags) (user : User) : option bool :=
  match flag_install options with
  | None => Some (confirm_install user)
  | Some _ => None
  end.

(** The options of the project, from the answers, the flags and the
    defaults. *)
Definition projectOptions (project_name : string) (options : Flags) (user : User)
    : ProjectOptions := {|
  name := project_name;
  template :=
    default "basic-dapp"
      (Js.or_else (answer_template options user)
         (Js.or_else (flag_template options) (Some "basic-dapp")));
  useTypeScript :=
    default true
      (Js.nullish (answer_typescript options user)
         (Js.nullish (flag_typescript options) (Some true)));
  installDependencies :=
    default true
      (Js.nullish (answer_install options user)
         (Js.nullish (flag_install options) (Some true)))
|}.

(** The action from the check of the target directory on. *)
Definition createProject (options : ProjectOptions) : M unit :=
  w ← get;
  let projectPath := Fs.join (cwd w) (name options) in
  found ← existsSync projectPath;
  (if found : bool then
     emit (Console ("Directory " +:+ name options +:+ " already exists!"));;
     exit 1
   else ret tt);;
  emit (Spinner Start "Creating project structure...");;
  try_catch
    (ensureDirSync projectPath;;
     createProjectStructure projectPath options;;
     emit (Spinner Succeed "Project structure created");;
     when (installDependencies options)
       (emit (Spinner Start "Installing dependencies...");;
        execSync "npm install";;
        emit (Spinner Succeed "Dependencies installed"));;
     emit (Console "Project created successfully!");;
     emit (Console "To get started:");;
     emit (Console ("  cd " +:+ name options));;
     when (negb (installDependencies options))
       (emit (Console "  npm install"));;
     emit (Console "  npm run dev");;
     emit (Console "Happy building!"))
    (λ error,
       emit (Spinner Fail "Failed to create project");;
       emit (ConsoleError ("Error: " +:+ error));;
       exit 1).

Definition initCommand (arg : option string) (options : Flags) (user : User) : M unit :=
  emit (Console "Initializing new Midnight project...");;
  answer_name ← ask_input (defaultName arg) validate (typed user);
  match Js.or_else (Some answer_name) arg with
  | None => throw "TypeError: The path argument must be of type string"
  | Some project_name => createProject (projectOptions project_name options user)
  end.

End Init.

(** ** [commands/contract.ts] *)
Module Contract.
Import Proc.

Record CompileOptions : Type := {
  output : option string;
  watch : option bool;
  verbose : option bool
}.

Definition flag (b : option bool) : bool := default false b.

(** The contract to compile when no file is given: the first [.compact]
    entry of [src/contracts]. *)
Definition findContract (contractsDir : string) : M string :=
  found ← existsSync contractsDir;
  if found : bool then
    listing ← readdirSync contractsDir;
    let files := List.filter (λ f, Js.endsWith f ".compact") listing in
    match files with
    | [] => throw "No .compact files found in src/contracts/"
    | first :: _ =>
        when (Nat.ltb 1 (length files))
          (emit (Spinner Info ("Found " +:+ Js.show_nat (length files)
                               +:+ " contracts, compiling " +:+ first)));;
        ret (Fs.join contractsDir first)
    end
  else
    throw ("No contracts directory found. Run " +:+ Js.dq +:+ "midnight init"
           +:+ Js.dq +:+ " first.").

(** [compactHome ? path.join(compactHome, 'compactc') : 'compactc'] *)
Definition compactc (w : world) : string :=
  match Js.or_else (compact_home w) None with
  | Some home => Fs.path_join home "compactc"
  | None => "compactc"
  end.

Definition compileCmd (w : world) (contractFile outputDir : string) : string :=
  compactc w +:+ " " +:+ contractFile +:+ " -o " +:+ outputDir.

(** [outputFiles.forEach(...)]; the sizes of the files are not followed. *)
Fixpoint listOutput (names : list string) : M unit :=
  match names with
  | [] => ret tt
  | f :: rest => emit (Console ("  " +:+ f));; listOutput rest
  end.

Definition compileContract (file : option string) (options : CompileOptions) : M unit :=
  emit (Spinner Start "Compiling Midnight contract...");;
  try_catch
    (w ← get;
     let contractsDir := Fs.join (cwd w) "src/contracts" in
     contractFile ←
       match Js.or_else file None with
       | Some f => ret f
       | None => findContract contractsDir
       end;
     found ← existsSync (Fs.resolve (cwd w) contractFile);
     (if found : bool then ret tt
      else throw ("Contract file not found: " +:+ contractFile));;
     emit (Spinner Status ("Compiling " +:+ Fs.basename contractFile +:+ "..."));;
     try_catch (execSync (compactc w +:+ " --version"))
       (λ _, throw "Compact compiler not found. Please install it and set COMPACT_HOME environment variable.");;
     let outputDir :=
       Fs.path_resolve (cwd w) (default "build" (Js.or_else (output options) None)) in
     mkdirsSync outputDir;;
     if flag (watch options) then
       emit (Spinner Succeed "Watching for changes...");;
       emit (Console ("Compiling " +:+ contractFile +:+ " -> " +:+ outputDir));;
       emit (WatchFile contractFile);;
       emit (Console "Press Ctrl+C to stop watching")
     else
       execSync (compileCmd w contractFile outputDir);;
       emit (Spinner Succeed "Contract compiled successfully!");;
       outputFiles ← readdirSync outputDir;
       emit (Console "Output files:");;
       listOutput outputFiles)
    (λ error,
       emit (Spinner Fail "Compilation failed");;
       emit (ConsoleError ("Error: " +:+ error));;
       exit 1).

(** *** Watch mode *)





(** *** [contract verify] *)
Definition verifyContract (address : string) : M unit :=
  emit (Spinner Start "Verifying contract...");;
  try_catch
    (emit (Spinner Status "Fetching contract bytecode...");;
     emit (Sleep 1000);;
     emit (Spinner Status "Comparing with source...");;
     emit (Sleep 1000);;
     emit (Spinner Succeed "Contract verified successfully!");;
     emit (Console "Verification Details:");;
     emit (Console ("  Contract: " +:+ address));;
     emit (Console "  Compiler: compactc v0.8.11");;
     emit (Console "  Optimization: Enabled");;
     emit (Console "  Status: Verified"))
    (λ error,
       emit (Spinner Fail "Verification failed");;
       emit (ConsoleError ("Error: " +:+ error))).

End Contract.

(** ** [commands/proof-server.ts] *)
Module ProofServer.
Import Proc.

Record ProofServerOptions : Type := {
  port : option string;
  detached : option bool;
  verbose : option bool
}.

Definition flag (b : option bool) : bool := default false b.

Definition healthUrl (p : string) : string :=
  "http://localhost:" +:+ p +:+ "/health".

(** Whether a health probe of host port [p] is answered: by another process
    listening there, or by the proof server when its container publishes
    that port.  A port that is not a decimal numeral is not answered. *)
Definition answering (p : string) (w : world) : bool :=
  match Js.read_nat p with
  | Some n =>
      bool_decide (n ∈ listeners w)
      || (bool_decide (container w = Some n) && server_healthy w)
  | None => false
  end.

(** [execSync(`curl -s http://localhost:${p}/health`)] *)
Definition curlHealth (p : string) : M unit :=
  λ w, let cmd := "curl -s " +:+ healthUrl p in
       let w1 := set_trace (trace w ++ [Exec cmd]) w in
       if answering p w && negb (bool_decide (cmd ∈ failing w))
       then (Ret tt, w1)
       else (Throw ("Command failed: " +:+ cmd), w1).

Definition dockerUp (w : world) : bool := docker_installed w && docker_daemon w.

(** [execSync('docker --version')] and [execSync('docker info')] *)
Definition dockerVersion : M unit :=
  λ w, let w1 := set_trace (trace w ++ [Exec "docker --version"]) w in
       if docker_installed w then (Ret tt, w1)
       else (Throw "Command failed: docker --version", w1).

Definition dockerInfo : M unit :=
  λ w, let w1 := set_trace (trace w ++ [Exec "docker info"]) w in
       if dockerUp w then (Ret tt, w1)
       else (Throw "Command failed: docker info", w1).

(** The host port a [-p <p>:6300] publishes: port 0 asks the runtime for
    a free one. *)
Definition published (n : N) (w : world) : N :=
  if N.eqb n 0 then ephemeral_port w else n.

(** The container runtime starts [midnight-proof-server] publishing [p]:
    it needs the daemon, no container of that name, and a port that is a
    numeral, in range and free. *)
Definition launch (p : string) (w : world) : option world :=
  match Js.read_nat p with
  | Some n =>
      if dockerUp w
         && bool_decide (container w = None)
         && N.leb n 65535
         && negb (bool_decide (published n w ∈ listeners w))
      then Some (set_container (Some (published n w)) w)
      else None
  | None => None
  end.

Definition dockerCmd (isDetached : bool) (p : string) : string :=
  "docker run " +:+ (if isDetached then "-d" else "")
  +:+ " --rm --name midnight-proof-server -p " +:+ p
  +:+ ":6300 midnightnetwork/proof-server -- 'midnight-proof-server --network testnet'".

(** [execSync(dockerCmd)] *)
Definition dockerRun (isDetached : bool) (p : string) : M unit :=
  λ w, let cmd := dockerCmd isDetached p in
       let w1 := set_trace (trace w ++ [Exec cmd]) w in
       if bool_decide (cmd ∈ failing w)
       then (Throw ("Command failed: " +:+ cmd), w1)
       else match launch p w1 with
            | Some w2 => (Ret tt, w2)
            | None => (Throw ("Command failed: " +:+ cmd), w1)
            end.

(** [spawn('docker', ['run', ...])] with the listener of the child's
    [exit]: a child that cannot start the container exits at once. *)
Definition spawnRun (p : string) : M unit :=
  λ w, let args := [ "run"; "--rm"; "--name"; "midnight-proof-server";
                     "-p"; p +:+ ":6300"; "midnightnetwork/proof-server";
                     "--"; "midnight-proof-server --network testnet" ] in
       let w1 := set_trace (trace w ++ [Spawn "docker" args]) w in
       match launch p w1 with
       | Some w2 => (Ret tt, w2)
       | None => (Ret tt, set_trace (trace w1 ++ [Console "Proof server stopped"]) w1)
       end.

Definition startProofServer (options : ProofServerOptions) : M unit :=
  emit (Spinner Start "Starting proof server...");;
  try_catch
    (try_catch dockerVersion
       (λ _, throw "Docker is not installed. Please install Docker Desktop first.");;
     try_catch dockerInfo
       (λ _, throw "Docker is not running. Please start Docker Desktop.");;
     let p := default "6300" (Js.or_else (port options) None) in
     running ← try_catch
       (curlHealth p;;
        emit (Spinner Warn ("Proof server is already running on port " +:+ p));;
        ret true)
       (λ _, ret false);
     if running : bool then ret tt
     else
       emit (Spinner Status "Pulling latest proof server image...");;
       try_catch (execSync "docker pull midnightnetwork/proof-server:latest")
         (λ _, emit (Spinner Warn "Could not pull latest image, using local version"));;
       emit (Spinner Status "Starting proof server container...");;
       if flag (detached options) then
         dockerRun true p;;
         emit (Spinner Succeed ("Proof server started on port " +:+ p +:+ " (detached)"));;
         emit (Console "Server Info:");;
         emit (Console ("  URL: http://localhost:" +:+ p));;
         emit (Console "  Container: midnight-proof-server");;
         emit (Console ("  Run " +:+ Js.dq +:+ "midnight proof-server logs" +:+ Js.dq +:+ " to view logs"));;
         emit (Console ("  Run " +:+ Js.dq +:+ "midnight proof-server stop" +:+ Js.dq +:+ " to stop the server"))
       else
         emit (Spinner Succeed ("Proof server starting on port " +:+ p +:+ "..."));;
         emit (Console ("Server running at http://localhost:" +:+ p));;
         emit (Console "Press Ctrl+C to stop the server");;
         spawnRun p)
    (λ error,
       emit (Spinner Fail "Failed to start proof server");;
       emit (ConsoleError ("Error: " +:+ error));;
       exit 1).

(** [execSync('docker stop midnight-proof-server')] *)
Definition dockerStop : M unit :=
  λ w, let w1 := set_trace (trace w ++ [Exec "docker stop midnight-proof-server"]) w in
       if dockerUp w && bool_decide (container w ≠ None)
       then (Ret tt, set_container None w1)
       else (Throw "Command failed: docker stop midnight-proof-server", w1).

Definition stopProofServer : M unit :=
  emit (Spinner Start "Stopping proof server...");;
  try_catch
    (dockerStop;; emit (Spinner Succeed "Proof server stopped"))
    (λ _, emit (Spinner Warn "Proof server is not running")).

(** [execSync('docker ps --filter name=midnight-proof-server --format ...')] *)
Definition dockerPs (format result : string) : M string :=
  λ w, let cmd := "docker ps --filter name=midnight-proof-server --format "
                  +:+ Js.dq +:+ format +:+ Js.dq in
       let w1 := set_trace (trace w ++ [Exec cmd]) w in
       if dockerUp w
       then (Ret (match container w with
                 | Some _ => result +:+ Init.nl
                 | None => EmptyString
                 end), w1)
       else (Throw ("Command failed: " +:+ cmd), w1).

Definition portsColumn (w : world) : string :=
  match container w with
  | Some n => "0.0.0.0:" +:+ Js.show_nat (N.to_nat n) +:+ "->6300/tcp"
  | None => EmptyString
  end.

Definition checkStatus : M unit :=
  emit (Spinner Start "Checking proof server status...");;
  try_catch
    (names ← dockerPs "{{.Names}}" "midnight-proof-server";
     let containerRunning := Js.trim names in
     if Js.truthy containerRunning then
       try_catch
         (curlHealth "6300";;
          emit (Spinner Succeed "Proof server is running and healthy");;
          w ← get;
          info ← dockerPs "table {{.Status}}\t{{.Ports}}" ("Up  " +:+ portsColumn w);
          emit (Console "Server Details:");;
          emit (Console info))
         (λ _, emit (Spinner Warn "Proof server container is running but not responding"))
     else
       emit (Spinner Info "Proof server is not running");;
       emit (Console ("Run " +:+ Js.dq +:+ "midnight proof-server start" +:+ Js.dq +:+ " to start the server")))
    (λ error,
       emit (Spinner Fail "Failed to check status");;
       emit (ConsoleError ("Error: " +:+ error))).

Definition viewLogs (follow : option bool) : M unit :=
  emit (Console "Proof server logs:");;
  try_catch
    (emit (Spawn "docker"
             (["logs"] ++ (if flag follow then ["-f"] else []) ++ ["midnight-proof-server"]));;
     w ← get;
     when (negb (docker_installed w))
       (emit (ConsoleError "No logs available. Is the proof server running?")))
    (λ error, emit (ConsoleError ("Failed to retrieve logs: " +:+ error))).

End ProofServer.

(** ** [commands/deploy.ts] *)
Module Deploy.
Import Proc.

(** The options object the action reads.  [network] is the string
    [commander] stores for [--network]. *)
Record DeployOptions : Type := {
  network : string;
  contractPath : option string;
  configPath : option string;
  verbose : option bool
}.

(** What is given on the command line. *)
Record CommandLine : Type := {
  arg_network : option string;
  arg_contract : option string;
  arg_config : option string;
  arg_verbose : bool
}.

(** The options [commander] builds: [--network] has the default
    ["testnet"]; [--contract] and [--config] are stored under the names
    [contract] and [config], which the action does not read. *)
Definition parse (args : CommandLine) : DeployOptions := {|
  network := default "testnet" (arg_network args);
  contractPath := None;
  configPath := None;
  verbose := if arg_verbose args then Some true else None
|}.

(** [j.k]: a property of [null] throws, a property of any other primitive
    is [undefined]. *)
Definition prop (j : Json.json) (k : string) : result Json.value :=
  match j with
  | Json.JNull => Err ("TypeError: Cannot read properties of null (reading '" +:+ k +:+ "')")
  | Json.JObj m => Ok (m !! k)
  | _ => Ok None
  end.

(** [v?.k] *)
Definition optProp (v : Json.value) (k : string) : result Json.value :=
  match v with
  | None | Some Json.JNull => Ok None
  | Some j => prop j k
  end.

(** [options.network || config.network || 'testnet']: [config.network] is
    evaluated only when the first operand is falsy. *)
Definition resolveNetwork (options : DeployOptions) (config : Json.json) : result Json.json :=
  if Js.truthy (network options) then Ok (Json.JStr (network options))
  else
    match prop config "network" with
    | Ok configNetwork =>
        Ok (default (Json.JStr "testnet")
              (Json.or_else configNetwork (Some (Json.JStr "testnet"))))
    | Err e => Err e
    end.

(** [path.join(dir, 'contract.wasm')]: a segment that is not a string is a
    [TypeError]. *)
Definition joinWasm (dir : Json.json) : result string :=
  match dir with
  | Json.JStr d => Ok (Fs.join d "contract.wasm")
  | _ => Err "TypeError: The path argument must be of type string"
  end.

(** [options.contractPath || path.join(config.compiler?.outputDir || 'build', 'contract.wasm')] *)
Definition resolveContract (options : DeployOptions) (config : Json.json) : result string :=
  match Js.or_else (contractPath options) None with
  | Some f => Ok f
  | None =>
      match prop config "compiler" with
      | Ok compiler =>
          match optProp compiler "outputDir" with
          | Ok outputDir =>
              joinWasm (default (Json.JStr "build")
                          (Json.or_else outputDir (Some (Json.JStr "build"))))
          | Err e => Err e
          end
      | Err e => Err e
      end
  end.

(** The checks before anything is deployed: the configuration is loaded
    and the compiled contract is found. *)
Definition prepare (options : DeployOptions) : M (Json.json * string) :=
  w ← get;
  let configFile :=
    Fs.resolve (cwd w) (default "midnight.config.json" (Js.or_else (configPath options) None)) in
  found ← existsSync configFile;
  (if found : bool then ret tt
   else throw ("Configuration file not found: " +:+ configFile));;
  config ← readJsonSync configFile;
  net ← lift (resolveNetwork options config);
  emit (Spinner Status "Checking contract...");;
  contractFile ← lift (resolveContract options config);
  present ← existsSync (Fs.resolve (cwd w) contractFile);
  (if present : bool then ret tt
   else throw ("Compiled contract not found at " +:+ contractFile
               +:+ ". Run 'npm run compile-contract' first."));;
  ret (net, contractFile).

(** The proof server is probed, and started when the probe fails. *)
Definition connect : M unit :=
  try_catch (ProofServer.curlHealth "6300")
    (λ _,
       emit (Spinner Warn "Proof server not running. Starting it now...");;
       execSync "midnight proof-server start").

Definition simulateDeployment (contractFile : string) (net : Json.json) : M unit :=
  emit (Sleep 3000).

Definition hexChars : string := "0123456789abcdef".

(** [for (i = 0; i < n; i++) acc += chars[Math.floor(Math.random() * chars.length)]] *)
Fixpoint randomHex (n : nat) (acc : string) : M string :=
  match n with
  | O => ret acc
  | S n' =>
      i ← random_below (Z.of_nat (String.length hexChars));
      randomHex n' (acc +:+ match String.get (Z.to_nat i) hexChars with
                            | Some c => String c EmptyString
                            | None => "undefined"
                            end)
  end.

Definition generateMockAddress : M string := randomHex 40 "mn_contract_".

Definition generateMockTxHash : M string := randomHex 64 "0x".

Definition deploymentInfo (net : Json.json) : M Json.json :=
  contractAddress ← generateMockAddress;
  transactionHash ← generateMockTxHash;
  blockNumber ← random_below 1000000;
  w ← get;
  ret (Json.obj [
    ("network", net);
    ("contractAddress", Json.JStr contractAddress);
    ("transactionHash", Json.JStr transactionHash);
    ("blockNumber", Json.JNum blockNumber);
    ("timestamp", Json.JStr (clock w)) ]).

(** [console.log] of a field of the record. *)
Definition field (info : Json.json) (k : string) : string :=
  match info with
  | Json.JObj m => match m !! k with Some j => Json.to_string j | None => "undefined" end
  | _ => "undefined"
  end.

Definition display (info : Json.json) : M unit :=
  emit (Console "Deployment Details:");;
  emit (Console ("  Network: " +:+ field info "network"));;
  emit (Console ("  Contract Address: " +:+ field info "contractAddress"));;
  emit (Console ("  Transaction Hash: " +:+ field info "transactionHash"));;
  emit (Console ("  Block Number: " +:+ field info "blockNumber"));;
  emit (Console ("  Timestamp: " +:+ field info "timestamp")).

(** [deployments[network] = deploymentInfo], where the value assigned is an
    object.  The module is strict code, so the assignment throws on a value
    that is not an object; but for the key [__proto__] a number, a string or
    a boolean is handed to the setter of [Object.prototype], which returns
    without doing anything. *)
Definition assign (deployments : Json.json) (key : string) (v : Json.json) : result Json.json :=
  match deployments with
  | Json.JObj m => Ok (Json.JObj (Json.set key v m))
  | Json.JNull =>
      Err ("TypeError: Cannot set properties of null (setting '" +:+ key +:+ "')")
  | _ =>
      if String.eqb key "__proto__" then Ok deployments
      else Err ("TypeError: Cannot create property '" +:+ key +:+ "' on "
                +:+ Json.typeof deployments +:+ " '" +:+ Json.to_string deployments +:+ "'")
  end.

Definition deploymentsPath (w : world) : string := Fs.join (cwd w) "deployments.json".

Definition save (net info : Json.json) : M unit :=
  w ← get;
  ledgerThere ← existsSync (deploymentsPath w);
  deployments ← (if ledgerThere : bool then readJsonSync (deploymentsPath w)
                 else ret (Json.obj []));
  deployments' ← lift (assign deployments (Json.to_string net) info);
  writeJsonSync (deploymentsPath w) deployments'.

Definition deployCommand (options : DeployOptions) : M unit :=
  emit (Console "Deploying Midnight contract...");;
  emit (Spinner Start "Preparing deployment...");;
  try_catch
    ('(net, contractFile) ← prepare options;
     emit (Spinner Status "Connecting to network...");;
     connect;;
     emit (Spinner Status ("Deploying to " +:+ Json.to_string net +:+ "..."));;
     simulateDeployment contractFile net;;
     emit (Spinner Succeed ("Contract deployed successfully to " +:+ Json.to_string net +:+ "!"));;
     info ← deploymentInfo net;
     display info;;
     save net info;;
     emit (Console "Deployment info saved to deployments.json"))
    (λ error,
       emit (Spinner Fail "Deployment failed");;
       emit (ConsoleError ("Error: " +:+ error));;
       when (default false (verbose options)) (emit (ConsoleError error));;
       exit 1).

(** The ledger a deploy starts from: the mapping in [deployments.json], or
    the empty one when the file is absent; there is none when the path holds
    anything but a JSON object. *)
Definition ledger (w : world) : option (gmap string Json.json) :=
  match Fs.lookup (deploymentsPath w) (files w) with
  | None => Some ∅
  | Some (Fs.File (Fs.Doc (Json.JObj m))) => Some m
  | Some _ => None
  end.


(** What the handler of the action reports for an error. *)
Definition failure_report (options : DeployOptions) (msg : string) : list event :=
  [ Spinner Fail "Deployment failed"; ConsoleError ("Error: " +:+ msg) ]
  ++ (if default false (verbose options) then [ConsoleError msg] else []).

(** The file the action loads the configuration from. *)
Definition configFile (options : DeployOptions) (w : world) : string :=
  Fs.resolve (cwd w) (default "midnight.config.json" (Js.or_else (configPath options) None)).

End Deploy.

(** ** Reading runs *)
Module Run.
Import Proc.

(** The events a run from [w] to [w'] has added. *)
Definition news (w w' : world) : list event := drop (length (trace w)) (trace w').

(** The path a file-system event changes. *)
Definition target (e : event) : option string :=
  match e with
  | EnsureDir p | WriteFile p _ => Some p
  | _ => None
  end.

(** [p] is [dir] or lies below it. *)
Definition under (dir p : string) : Prop :=
  p = dir ∨ Js.startsWith (dir +:+ "/") p = true.

(** Events that change nothing outside [dir]. *)
Definition confined (dir : string) (e : event) : Prop :=
  ∀ p, target e = Some p → under dir p.

(** The trace grows by events that satisfy [P]; the working directory stays. *)
Definition grows (P : event → Prop) (w w' : world) : Prop :=
  cwd w' = cwd w ∧ ∃ t, trace w' = trace w ++ t ∧ Forall P t.

(** The file system is the same outside [dir]. *)
Definition outside (dir : string) (w w' : world) : Prop :=
  cwd w' = cwd w
  ∧ ∀ p, ¬ under dir p → Fs.lookup p (files w') = Fs.lookup p (files w).

(** The piece of a command has returned: it has not thrown, ended the
    process or stalled. *)
Definition returns {A : Type} (o : outcome A) : Prop :=
  match o with Ret _ => True | _ => False end.

(** A run of [m] that returns has put the nodes [l], in this order, and
    changed nothing else in the file system. *)
Definition puts (l : list (string * Fs.node)) {A : Type} (m : M A) : Prop :=
  ∀ w, returns (m w).1 → files (m w).2 = Fs.put_all l (files w).

(** What a command can do to the container runtime: the listeners and the
    runtime stay, and the container changes only where the daemon runs and
    the port [p] is published. *)
Definition runtime (p : string) (w w' : world) : Prop :=
  listeners w' = listeners w
  ∧ docker_installed w' = docker_installed w
  ∧ docker_daemon w' = docker_daemon w
  ∧ ephemeral_port w' = ephemeral_port w
  ∧ (container w' = container w
     ∨ (docker_installed w && docker_daemon w = true
        ∧ ∃ n, Js.read_nat p = Some n
               ∧ container w' = Some (ProofServer.published n w))).

(** The commands [status] can run. *)
Definition status_commands : list string :=
  [ "docker ps --filter name=midnight-proof-server --format "
      +:+ Js.dq +:+ "{{.Names}}" +:+ Js.dq;
    "curl -s http://localhost:6300/health";
    "docker ps --filter name=midnight-proof-server --format "
      +:+ Js.dq +:+ "table {{.Status}}\t{{.Ports}}" +:+ Js.dq ].

(** The file system and the working directory are the same. *)
Definition untouched (w w' : world) : Prop :=
  files w' = files w ∧ cwd w' = cwd w.

(** Every run of [m] relates the world it starts in to the one it leaves. *)
Definition keeps (R : world → world → Prop) {A : Type} (m : M A) : Prop :=
  ∀ w, R w (m w).2.

(** The call of [fs-extra] that puts a node. *)
Definition call_of (pn : string * Fs.node) : event :=
  match pn.2 with
  | Fs.Dir => EnsureDir pn.1
  | Fs.File c => WriteFile pn.1 c
  end.

(** The commands run with [execSync], in order. *)
Definition execs (t : list event) : list string :=
  omap (λ e, match e with Exec cmd => Some cmd | _ => None end) t.

(** An event that neither changes the file system nor reaches outside. *)
Definition silent (e : event) : Prop := mutates e = false ∧ external e = false.

(** A piece of a command that only reports: nothing but the trace changes,
    and it grows by silent events. *)
Definition reports (w w' : world) : Prop :=
  ∃ t, w' = set_trace (trace w ++ t) w ∧ Forall silent t.

End Run.

(** ** Sample worlds and inputs *)
Module Sample.
Import Proc.

(** A working directory without a project, a healthy container runtime. *)
Definition empty_dir : world := {|
  cwd := "/work";
  files := [("/work", Fs.Dir)];
  compact_home := None;
  failing := ∅;
  docker_installed := true;
  docker_daemon := true;
  container := None;
  server_healthy := true;
  listeners := ∅;
  ephemeral_port := 49153%N;
  random := [3; 17; 255; 123456789];
  clock := "2024-05-01T12:00:00.000Z";
  trace := []
|}.

Definition flags : Init.Flags := {|
  Init.flag_template := None;
  Init.flag_typescript := Some true;
  Init.flag_install := Some false
|}.

(** A user who insists on a name with a capital and a space. *)
Definition stubborn : Init.User := {|
  Init.typed := ["My App"; ""; "My App"];
  Init.picked := "zk-game";
  Init.confirm_typescript := true;
  Init.confirm_install := false
|}.

(** A user who enters a good name at the second attempt. *)
Definition careful : Init.User := {|
  Init.typed := ["My App"; "my-app-1"];
  Init.picked := "zk-game";
  Init.confirm_typescript := true;
  Init.confirm_install := false
|}.

(** The working directory once [my-app-1] has been created in it. *)
Definition with_project : world :=
  set_trace [] (Init.initCommand None flags careful empty_dir).2.

(** Inside the project, where [contract compile] and [deploy] are run. *)
Definition in_project : world := {|
  cwd := "/work/my-app-1";
  files := files with_project;
  compact_home := None;
  failing := ∅;
  docker_installed := true;
  docker_daemon := true;
  container := None;
  server_healthy := true;
  listeners := ∅;
  ephemeral_port := 49153%N;
  random := [3; 17; 255; 123456789];
  clock := "2024-05-01T12:00:00.000Z";
  trace := []
|}.

(** The proof server started on another port than the default. *)
Definition start_options : ProofServer.ProofServerOptions := {|
  ProofServer.port := Some "7000";
  ProofServer.detached := Some true;
  ProofServer.verbose := None
|}.

(** A machine without a container runtime. *)
Definition no_docker : world := {|
  cwd := "/work";
  files := [("/work", Fs.Dir)];
  compact_home := None;
  failing := ∅;
  docker_installed := false;
  docker_daemon := false;
  container := None;
  server_healthy := false;
  listeners := ∅;
  ephemeral_port := 49153%N;
  random := [];
  clock := "2024-05-01T12:00:00.000Z";
  trace := []
|}.

(** The project with its contract compiled to [build/contract.wasm]. *)
Definition compiled : world := {|
  cwd := "/work/my-app-1";
  files := files with_project
           ++ [ ("/work/my-app-1/build", Fs.Dir);
                ("/work/my-app-1/build/contract.wasm", Fs.File (Fs.Text "wasm")) ];
  compact_home := None;
  failing := ∅;
  docker_installed := true;
  docker_daemon := true;
  container := Some 6300%N;
  server_healthy := true;
  listeners := ∅;
  ephemeral_port := 49153%N;
  random := [3; 17; 255; 123456789];
  clock := "2024-05-01T12:00:00.000Z";
  trace := []
|}.

Definition to_testnet : Deploy.DeployOptions := {|
  Deploy.network := "testnet";
  Deploy.contractPath := None;
  Deploy.configPath := None;
  Deploy.verbose := None
|}.



(** [deploy --network mainnet] *)
Definition mainnet_given : Deploy.CommandLine := {|
  Deploy.arg_network := Some "mainnet";
  Deploy.arg_contract := None;
  Deploy.arg_config := None;
  Deploy.arg_verbose := false
|}.


Definition compile_options : Contract.CompileOptions := {|
  Contract.output := Some "build";
  Contract.watch := None;
  Contract.verbose := None
|}.

End Sample.

(** ** [commands/init.ts]: the options of the command line *)
Module InitCli.

(** What is given on the command line of [init]. *)
Record CommandLine : Type := {
  arg_name : option string;
  opt_template : option string;
  opt_typescript : bool;
  opt_no_install : bool
}.

(** The options [commander] builds: [--template] has no default;
    [--typescript] is a boolean option with the default [true], so it is
    [true] with and without the flag; [--no-install] clears [install], which
    is [true] without it. *)
Definition parse (args : CommandLine) : Init.Flags := {|
  Init.flag_template := opt_template args;
  Init.flag_typescript := Some (if opt_typescript args then true else true);
  Init.flag_install := Some (negb (opt_no_install args))
|}.

End InitCli.

(** ** [commands/contract.ts]: the sizes of the output files *)
Module Format.

(** Two decimal digits. *)
Definition two_digits (n : N) : string :=
  Js.show_nat (N.to_nat (n / 10)) +:+ Js.show_nat (N.to_nat (n mod 10)).

(** The numeral of [n / 100] with two fraction digits. *)
Definition fixed2 (n : N) : string :=
  Js.show_nat (N.to_nat (n / 100)) +:+ "." +:+ two_digits (n mod 100).

(** [(bytes / unit).toFixed(2)] for a size in bytes and a unit that is a power
    of two: the quotient is exact as a double, and [toFixed] takes the
    integer [n] with [n / 100] nearest to it, the larger one of two. *)
Definition hundredths (bytes unit : N) : N :=
  (200 * bytes + unit) / (2 * unit).

Definition formatBytes (bytes : N) : string :=
  if (bytes <? 1024)%N then Js.show_nat (N.to_nat bytes) +:+ " B"
  else if (bytes <? 1024 * 1024)%N then fixed2 (hundredths bytes 1024) +:+ " KB"
  else fixed2 (hundredths bytes (1024 * 1024)) +:+ " MB".

End Format.

(** ** [commands/test.ts] *)
Module Test.
Import Proc.

Record TestOptions : Type := {
  watch : option bool;
  coverage : option bool;
  verbose : option bool
}.

Definition flag (b : option bool) : bool := default false b.

Definition sampleTest : string :=
  Init.template_text [
    "import { describe, it, expect } from '@jest/globals';";
    "import { Contract } from '../src/contracts/Counter';";
    "";
    "describe('Counter Contract', () => {";
    "  let contract: Contract;";
    "";
    "  beforeEach(() => {";
    "    contract = new Contract();";
    "  });";
    "";
    "  it('should increment counter', async () => {";
    "    const initialCount = await contract.getCount();";
    "    await contract.increment();";
    "    const newCount = await contract.getCount();";
    "    expect(newCount).toBe(initialCount + 1);";
    "  });";
    "";
    "  it('should return correct count', async () => {";
    "    const count = await contract.getCount();";
    "    expect(count).toBeGreaterThanOrEqual(0);";
    "  });";
    "});" ].

Definition testCmd (options : TestOptions) : string :=
  "npx jest"
  +:+ (if flag (watch options) then " --watch" else "")
  +:+ (if flag (coverage options) then " --coverage" else "")
  +:+ (if flag (verbose options) then " --verbose" else "").

(** The tests directory is made, with a sample test, when it is absent. *)
Definition ensureTests (testDir : string) : M unit :=
  found ← existsSync testDir;
  if found : bool then ret tt
  else
    emit (Spinner Warn "No tests directory found. Creating one...");;
    ensureDirSync testDir;;
    writeFileSync (Fs.join testDir "Counter.test.ts") (Fs.Text (Js.trim sampleTest)).

(** The action; the text the runner prints is not followed. *)
Definition testCommand (options : TestOptions) : M unit :=
  emit (Console "Running Midnight tests...");;
  emit (Spinner Start "Preparing test environment...");;
  try_catch
    (w ← get;
     ensureTests (Fs.join (cwd w) "tests");;
     emit (Spinner Status "Running contract tests...");;
     try_catch
       (execSync (testCmd options);;
        emit (Spinner Succeed "All tests passed!");;
        emit (Console "Test Summary:");;
        emit (Console "  Test Suites: 1 passed, 1 total");;
        emit (Console "  Tests: 2 passed, 2 total");;
        emit (Console "  Time: 2.345s");;
        when (flag (coverage options))
          (emit (Console "Coverage Report:");;
           emit (Console "  Statements: 95.5%");;
           emit (Console "  Branches: 88.2%");;
           emit (Console "  Functions: 100%");;
           emit (Console "  Lines: 94.8%");;
           emit (Console "  Coverage report saved to coverage/")))
       (λ _,
          emit (Spinner Fail "Some tests failed");;
          when (negb (flag (verbose options)))
            (emit (ConsoleError "Test failures detected. Run with --verbose for details."));;
          exit 1))
    (λ error,
       emit (Spinner Fail "Test execution failed");;
       emit (ConsoleError ("Error: " +:+ error));;
       exit 1).

End Test.

(** ** Reading runs, continued *)
Module More.
Import Proc.

(** A hexadecimal digit of [Deploy.hexChars]. *)
Definition is_hex (c : ascii) : bool :=
  let n := nat_of_ascii c in
  (Nat.leb 48 n && Nat.leb n 57) || (Nat.leb 97 n && Nat.leb n 102).

(** Nothing exists at [dir] or below it. *)
Definition fresh (dir : string) (w : world) : Prop :=
  ∀ p, Run.under dir p → Fs.lookup p (files w) = None.

(** The same, as a check of the paths of the file system. *)
Definition underb (dir p : string) : bool :=
  String.eqb p dir || Js.startsWith (dir +:+ "/") p.

Definition vacant (dir : string) (f : Fs.fs) : bool :=
  forallb (λ pn, negb (underb dir pn.1)) f.

(** A run of [m] where none of the paths of [l] exists returns, and has put
    the nodes [l], in this order, each with its call, and done nothing
    else. *)
Definition creates (l : list (string * Fs.node)) {A : Type} (m : M A) : Prop :=
  ∀ w, (∀ p, p ∈ l.*1 → Fs.lookup p (files w) = None) →
       Run.returns (m w).1
       ∧ (m w).2 = set_files (Fs.put_all l (files w))
                     (set_trace (trace w ++ map Run.call_of l) w).

(** The piece of a command has returned or thrown: it has neither ended the
    process nor stalled. *)
Definition settled {A : Type} (o : outcome A) : Prop :=
  match o with Ret _ | Throw _ => True | _ => False end.

Definition settles {A : Type} (m : M A) : Prop := ∀ w, settled (m w).1.

(** A run of [m] leaves the file system as it was unless it returns. *)
Definition all_or_nothing {A : Type} (m : M A) : Prop :=
  ∀ w, Run.returns (m w).1 ∨ Run.untouched w (m w).2.

(** The health probe of the default port that a deploy makes succeeds. *)
Definition probed (w : world) : bool :=
  ProofServer.answering "6300" w
  && negb (bool_decide ("curl -s " +:+ ProofServer.healthUrl "6300" ∈ failing w)).

(** [info] is the record of a deployment to [net], made at the time of the
    clock of [w]. *)
Definition record (net : Json.json) (w : world) (info : Json.json) : Prop :=
  ∃ a h b,
    info = Json.obj [ ("network", net);
                      ("contractAddress", Json.JStr ("mn_contract_" +:+ a));
                      ("transactionHash", Json.JStr ("0x" +:+ h));
                      ("blockNumber", Json.JNum b);
                      ("timestamp", Json.JStr (clock w)) ]
    ∧ String.length a = 40%nat ∧ Js.every is_hex a = true
    ∧ String.length h = 64%nat ∧ Js.every is_hex h = true
    ∧ 0 <= b < 1000000.

(** The value a deploy reads as its ledger: the document in
    [deployments.json], or the empty object when the file is absent; none
    when the path holds something that cannot be read as JSON. *)
Definition stored (w : world) : option Json.json :=
  match Fs.lookup (Deploy.deploymentsPath w) (files w) with
  | None => Some (Json.obj [])
  | Some (Fs.File (Fs.Doc j)) => Some j
  | Some _ => None
  end.

(** The value a deploy writes as its ledger when it files [info] under
    [key]: none when the ledger cannot be read or the assignment throws. *)
Definition filed (key : string) (info : Json.json) (w : world) : option Json.json :=
  d ← stored w;
  match Deploy.assign d key info with
  | Ok d' => Some d'
  | Err _ => None
  end.

(** No file lies at one of the paths [qs]. *)
Definition no_file (qs : list string) (f : Fs.fs) : bool :=
  forallb (λ q, match Fs.lookup q f with Some (Fs.File _) => false | _ => true end) qs.

(** No file lies at [p] or above it. *)
Definition unobstructed (p : string) (f : Fs.fs) : bool :=
  no_file (Fs.above p ++ [p]) f.

(** The container runtime is as it was. *)
Definition same_runtime (w w' : world) : Prop :=
  container w' = container w
  ∧ listeners w' = listeners w
  ∧ docker_installed w' = docker_installed w
  ∧ docker_daemon w' = docker_daemon w
  ∧ server_healthy w' = server_healthy w.

End More.

(** ** More sample worlds *)
Module Sample2.
Import Proc.

(** The proof server already runs on the default port. *)
Definition serving : world := Sample.compiled.

Definition default_start : ProofServer.ProofServerOptions := {|
  ProofServer.port := Some "6300";
  ProofServer.detached := Some true;
  ProofServer.verbose := None
|}.

(** Docker is installed and its daemon is not running. *)
Definition daemon_down : world := {|
  cwd := "/work";
  files := [("/work", Fs.Dir)];
  compact_home := None;
  failing := ∅;
  docker_installed := true;
  docker_daemon := false;
  container := None;
  server_healthy := false;
  listeners := ∅;
  ephemeral_port := 49153%N;
  random := [];
  clock := "2024-05-01T12:00:00.000Z";
  trace := []
|}.

(** The image cannot be pulled. *)
Definition offline : world := {|
  cwd := "/work";
  files := [("/work", Fs.Dir)];
  compact_home := None;
  failing := {[ "docker pull midnightnetwork/proof-server:latest" ]};
  docker_installed := true;
  docker_daemon := true;
  container := None;
  server_healthy := true;
  listeners := ∅;
  ephemeral_port := 49153%N;
  random := [];
  clock := "2024-05-01T12:00:00.000Z";
  trace := []
|}.

Definition test_options : Test.TestOptions := {|
  Test.watch := None;
  Test.coverage := Some true;
  Test.verbose := None
|}.

Definition plain_line : InitCli.CommandLine := {|
  InitCli.arg_name := Some "my-app-1";
  InitCli.opt_template := None;
  InitCli.opt_typescript := false;
  InitCli.opt_no_install := true
|}.

(** The world [w] where the shell commands [cmds] fail. *)
Definition with_failing (cmds : gset string) (w : world) : world :=
  World (cwd w) (files w) (compact_home w) cmds (docker_installed w)
    (docker_daemon w) (container w) (server_healthy w) (listeners w)
    (ephemeral_port w) (random w) (clock w) (trace w).

(** [deploy --network mainnet --contract out/contract.wasm --config other.config.json] *)
Definition paths_given : Deploy.CommandLine := {|
  Deploy.arg_network := Some "mainnet";
  Deploy.arg_contract := Some "out/contract.wasm";
  Deploy.arg_config := Some "other.config.json";
  Deploy.arg_verbose := false
|}.

(** The compiled project with no proof server running. *)
Definition stopped : world := set_container None Sample.compiled.

(** The same, where the proof server cannot be started. *)
Definition unstartable : world :=
  with_failing {[ "midnight proof-server start" ]} stopped.

(** The compiled project with a ledger that is not JSON. *)
Definition broken_ledger : world :=
  set_files (files Sample.compiled
             ++ [("/work/my-app-1/deployments.json", Fs.File (Fs.Text "{"))])
    Sample.compiled.

(** [deploy --network __proto__] *)
Definition to_proto : Deploy.DeployOptions := {|
  Deploy.network := "__proto__";
  Deploy.contractPath := None;
  Deploy.configPath := None;
  Deploy.verbose := None
|}.

(** The compiled project with the ledger [5]. *)
Definition number_ledger : world :=
  set_files (files Sample.compiled
             ++ [("/work/my-app-1/deployments.json", Fs.File (Fs.Doc (Json.JNum 5)))])
    Sample.compiled.

(** [contract compile --output out/wasm/] *)
Definition nested_output : Contract.CompileOptions := {|
  Contract.output := Some "out/wasm/";
  Contract.watch := Some true;
  Contract.verbose := None
|}.

End Sample2.

(** * Properties *)

(** ** Strings *)

Lemma string_app_nil_r (s : string) : s +:+ "" = s.
Proof. induction s as [|a s IH]; [reflexivity|]. change (String a (s +:+ "") = String a s). by rewrite IH. Qed.

Lemma string_app_cons (a : ascii) (s t : string) : String a s +:+ t = String a (s +:+ t).
Proof. reflexivity. Qed.

Lemma string_app_nil_l (s : string) : "" +:+ s = s.
Proof. reflexivity. Qed.

Lemma string_app_eq_nil (s t : string) : s +:+ t = "" → s = "" ∧ t = "".
Proof.
  destruct s as [|a s].
  - change ("" +:+ t) with t. by intros ->.
  - rewrite string_app_cons. discriminate.
Qed.

Lemma string_eqb_true (s t : string) : String.eqb s t = true ↔ s = t.
Proof. apply String.eqb_eq. Qed.

Lemma string_eqb_false (s t : string) : String.eqb s t = false ↔ s ≠ t.
Proof. apply String.eqb_neq. Qed.

(** ** Regular expressions: the matcher decides the language *)

Lemma matches_nil_nullable (r : Regex.regex) (s : string) :
  Regex.Matches r s → s = "" → Regex.nullable r = true.
Proof.
  induction 1 as [| | r1 r2 s1 s2 _ IH1 _ IH2 | r1 r2 s _ IH | r1 r2 s _ IH | |];
    intros Hs; simpl; try discriminate; try reflexivity.
  - apply string_app_eq_nil in Hs as [-> ->]. by rewrite IH1, IH2.
  - by rewrite IH.
  - rewrite IH by done. by destruct (Regex.nullable r1).
Qed.

Lemma nullable_matches_nil (r : Regex.regex) :
  Regex.nullable r = true → Regex.Matches r "".
Proof.
  induction r as [| | p | r1 IH1 r2 IH2 | r1 IH1 r2 IH2 | r IH]; simpl; intros H;
    try discriminate.
  - constructor.
  - apply andb_true_iff in H as [H1 H2].
    change "" with ("" +:+ ""). constructor; auto.
  - apply orb_true_iff in H as [H|H]; [apply Regex.MAltL | apply Regex.MAltR]; auto.
  - constructor.
Qed.

Lemma deriv_sound (a : ascii) (r : Regex.regex) (s : string) :
  Regex.Matches (Regex.deriv a r) s → Regex.Matches r (String a s).
Proof.
  revert s.
  induction r as [| | p | r1 IH1 r2 IH2 | r1 IH1 r2 IH2 | r IH]; simpl; intros s H.
  - inversion H.
  - inversion H.
  - destruct (p a) eqn:Hp; inversion H; subst. by constructor.
  - assert (Hcat : ∀ t, Regex.Matches (Regex.Cat (Regex.deriv a r1) r2) t →
                        Regex.Matches (Regex.Cat r1 r2) (String a t)).
    { intros t Ht. inversion Ht; subst. rewrite <- string_app_cons.
      constructor; auto. }
    destruct (Regex.nullable r1) eqn:Hn; [|by apply Hcat].
    inversion H; subst; [by apply Hcat|].
    change (String a s) with ("" +:+ String a s).
    constructor; [by apply nullable_matches_nil | auto].
  - inversion H; subst; [apply Regex.MAltL | apply Regex.MAltR]; auto.
  - inversion H; subst. rewrite <- string_app_cons. constructor; auto.
Qed.

Lemma deriv_complete (r : Regex.regex) (s' : string) :
  Regex.Matches r s' → ∀ a s, s' = String a s → Regex.Matches (Regex.deriv a r) s.
Proof.
  induction 1 as [| p b Hp | r1 r2 s1 s2 H1 IH1 H2 IH2 | r1 r2 s0 _ IH
                 | r1 r2 s0 _ IH | | r s1 s2 H1 IH1 H2 IH2];
    intros a s Hs; simpl; try discriminate.
  - injection Hs as -> <-. rewrite Hp. constructor.
  - destruct s1 as [|b s1].
    + rewrite string_app_nil_l in Hs. subst s2.
      rewrite (matches_nil_nullable _ _ H1 eq_refl).
      apply Regex.MAltR. by apply IH2.
    + rewrite string_app_cons in Hs. injection Hs as -> <-.
      assert (Regex.Matches (Regex.Cat (Regex.deriv a r1) r2) (s1 +:+ s2))
        by (constructor; auto).
      destruct (Regex.nullable r1); [by apply Regex.MAltL | done].
  - apply Regex.MAltL. by apply IH.
  - apply Regex.MAltR. by apply IH.
  - destruct s1 as [|b s1].
    + rewrite string_app_nil_l in Hs. by apply IH2.
    + rewrite string_app_cons in Hs. injection Hs as -> <-.
      constructor; auto.
Qed.

Lemma accepts_matches (r : Regex.regex) (s : string) :
  Regex.accepts r s = true ↔ Regex.Matches r s.
Proof.
  revert r. induction s as [|a s IH]; intros r; simpl.
  - split; [apply nullable_matches_nil | intros H; by eapply matches_nil_nullable].
  - rewrite IH. split; [apply deriv_sound | intros H; by eapply deriv_complete].
Qed.

Lemma string_app_assoc (s t u : string) : (s +:+ t) +:+ u = s +:+ (t +:+ u).
Proof.
  induction s as [|a s IH]; [reflexivity|].
  rewrite !string_app_cons. by rewrite IH.
Qed.

Lemma startsWith_app (p s : string) : Js.startsWith p (p +:+ s) = true.
Proof.
  induction p as [|a p IH]; [reflexivity|].
  rewrite string_app_cons. simpl. by rewrite Ascii.eqb_refl.
Qed.

Lemma every_app (p : ascii → bool) (s t : string) :
  Js.every p (s +:+ t) = Js.every p s && Js.every p t.
Proof.
  induction s as [|a s IH]; [reflexivity|].
  rewrite string_app_cons. simpl. rewrite IH. by rewrite andb_assoc.
Qed.

Lemma star_class_every (p : ascii → bool) (r : Regex.regex) (s : string) :
  Regex.Matches r s → r = Regex.Star (Regex.Class p) → Js.every p s = true.
Proof.
  induction 1 as [| | | | | | r0 s1 s2 H1 _ _ IH2]; intros Hr; try discriminate.
  - reflexivity.
  - injection Hr as ->. rewrite every_app, IH2 by done.
    inversion H1; subst. simpl. by rewrite H0.
Qed.

Lemma every_star_class (p : ascii → bool) (s : string) :
  Js.every p s = true → Regex.Matches (Regex.Star (Regex.Class p)) s.
Proof.
  induction s as [|a s IH]; simpl; intros H; [constructor|].
  apply andb_true_iff in H as [Ha Hs].
  change (String a s) with (String a "" +:+ s).
  constructor; [by constructor | auto].
Qed.

(** The language of [/^[a-z0-9-]+$/]: the non-empty strings of lower-case
    letters, digits and hyphens. *)
Lemma name_pattern_language (s : string) :
  Regex.Matches Init.name_pattern s ↔ s ≠ "" ∧ Js.every Init.name_char s = true.
Proof.
  unfold Init.name_pattern, Regex.Plus. split.
  - intros H. inversion H as [| | r1 r2 s1 s2 H1 H2 | | | |]; subst.
    inversion H1; subst. rewrite string_app_cons. split; [discriminate|].
    simpl. rewrite H3. simpl. by eapply star_class_every.
  - intros [Hne H]. destruct s as [|a s]; [done|].
    simpl in H. apply andb_true_iff in H as [Ha Hs].
    change (String a s) with (String a "" +:+ s).
    constructor; [by constructor | by apply every_star_class].
Qed.

Lemma validate_accepts (input : string) :
  Init.accepted (Init.validate input) = true ↔ Regex.Matches Init.name_pattern input.
Proof.
  unfold Init.validate, Regex.test_anchored. rewrite <- accepts_matches.
  by destruct (Regex.accepts _ _).
Qed.

Lemma validate_valid (input : string) :
  Init.validate input = Init.Valid ↔ Init.accepted (Init.validate input) = true.
Proof. unfold Init.validate. by destruct (Regex.test_anchored _ _). Qed.

Lemma valid_truthy (n : string) : Init.validate n = Init.Valid → Js.truthy n = true.
Proof. by destruct n. Qed.

(** ** The file system *)

Lemma lookup_put (p q : string) (n : Fs.node) (f : Fs.fs) :
  Fs.lookup p (Fs.put q n f) = if String.eqb p q then Some n else Fs.lookup p f.
Proof.
  induction f as [|[r m] f IH]; simpl.
  - reflexivity.
  - destruct (String.eqb q r) eqn:Hqr; simpl.
    + apply string_eqb_true in Hqr as ->. by destruct (String.eqb p r).
    + destruct (String.eqb p r) eqn:Hpr; [|done].
      apply string_eqb_true in Hpr as ->.
      rewrite String.eqb_sym in Hqr. by rewrite Hqr.
Qed.

Lemma lookup_put_eq (p : string) (n : Fs.node) (f : Fs.fs) :
  Fs.lookup p (Fs.put p n f) = Some n.
Proof. by rewrite lookup_put, String.eqb_refl. Qed.

Lemma lookup_put_ne (p q : string) (n : Fs.node) (f : Fs.fs) :
  p ≠ q → Fs.lookup p (Fs.put q n f) = Fs.lookup p f.
Proof. intros H. rewrite lookup_put. by apply string_eqb_false in H as ->. Qed.

(** ** Runs *)

Lemma news_app (w w' : Proc.world) (t : list Proc.event) :
  Proc.trace w' = Proc.trace w ++ t → Run.news w w' = t.
Proof. unfold Run.news. intros ->. apply drop_app_length. Qed.

Ltac munfold :=
  unfold mbind, mret, proc_bind, proc_ret, Proc.bind, Proc.ret, Proc.throw,
    Proc.exit, Proc.stall, Proc.try_catch, Proc.get, Proc.emit, Proc.when,
    Proc.lift, Proc.existsSync, Proc.readJsonSync, Proc.writeJsonSync,
    Proc.writeFileSync, Proc.ensureDirSync, Proc.execSync, Proc.readdirSync,
    Proc.random_below in *.

Ltac mrun :=
  repeat (first [ progress munfold | progress (cbn in *) | case_match; simplify_eq ]).

Lemma reports_refl (w : Proc.world) : Run.reports w w.
Proof. exists []. split; [|constructor]. destruct w. unfold Proc.set_trace. cbn. by rewrite app_nil_r. Qed.

Lemma reports_trans (w1 w2 w3 : Proc.world) :
  Run.reports w1 w2 → Run.reports w2 w3 → Run.reports w1 w3.
Proof.
  intros (t & -> & Ht) (t' & -> & Ht'). exists (t ++ t'). split.
  - unfold Proc.set_trace. cbn. by rewrite app_assoc.
  - by apply Forall_app.
Qed.

Lemma reports_emit (e : Proc.event) (w : Proc.world) :
  Run.silent e → Run.reports w (Proc.set_trace (Proc.trace w ++ [e]) w).
Proof. intros He. exists [e]. split; [done | by constructor]. Qed.

Lemma reports_files (w w' : Proc.world) :
  Run.reports w w' → Proc.files w' = Proc.files w ∧ Proc.cwd w' = Proc.cwd w.
Proof. by intros (t & -> & _). Qed.

Lemma reports_news (w w' : Proc.world) :
  Run.reports w w' → Forall Run.silent (Run.news w w').
Proof. intros (t & -> & Ht). by rewrite (news_app _ _ t). Qed.

(** ** The name prompt *)

Lemma ask_input_spec (d : string) (lines : list string) (w : Proc.world) :
  let r := Init.ask_input d Init.validate lines w in
  Run.reports w r.2
  ∧ (r.1 = Proc.Stalled ∨ ∃ n, r.1 = Proc.Ret n ∧ Init.validate n = Init.Valid).
Proof.
  revert w. induction lines as [|l lines IH]; intros w; cbn.
  - split; [apply reports_refl | by left].
  - destruct (Init.validate (Init.filterInput d l)) eqn:Hv; cbn.
    + split; [apply reports_refl | right; eauto].
    + munfold. cbn.
      destruct (IH (Proc.set_trace (Proc.trace w ++ [Proc.Console msg]) w)) as [Hr Ho].
      split; [|done]. eapply reports_trans; [|exact Hr].
      by apply reports_emit.
Qed.

Lemma ask_input_rejected (d : string) (lines : list string) (w : Proc.world) :
  Forall (λ l, Init.accepted (Init.validate (Init.filterInput d l)) = false) lines →
  (Init.ask_input d Init.validate lines w).1 = Proc.Stalled.
Proof.
  intros H. revert w. induction H as [|l lines Hl _ IH]; intros w; cbn; [done|].
  destruct (Init.validate (Init.filterInput d l)); [done|]. munfold. cbn. apply IH.
Qed.

Lemma ask_input_outcome (d : string) (lines : list string) (w w' : Proc.world) :
  (Init.ask_input d Init.validate lines w).1 = (Init.ask_input d Init.validate lines w').1.
Proof.
  revert w w'. induction lines as [|l lines IH]; intros w w'; cbn; [done|].
  destruct (Init.validate (Init.filterInput d l)); [done|]. munfold. cbn. apply IH.
Qed.

(** ** Traces that grow *)

Lemma grows_refl (P : Proc.event → Prop) (w : Proc.world) : Run.grows P w w.
Proof. split; [done|]. exists []. by rewrite app_nil_r. Qed.

Lemma grows_trans (P : Proc.event → Prop) (w1 w2 w3 : Proc.world) :
  Run.grows P w1 w2 → Run.grows P w2 w3 → Run.grows P w1 w3.
Proof.
  intros (Hc & t & Ht & HP) (Hc' & t' & Ht' & HP'). split; [congruence|].
  exists (t ++ t'). split; [by rewrite Ht', Ht, app_assoc | by apply Forall_app].
Qed.

Lemma grows_news (P : Proc.event → Prop) (w w' : Proc.world) :
  Run.grows P w w' → Forall P (Run.news w w').
Proof. intros (_ & t & Ht & HP). by rewrite (news_app _ _ t). Qed.

Lemma reports_grows (P : Proc.event → Prop) (w w' : Proc.world) :
  (∀ e, Run.silent e → P e) → Run.reports w w' → Run.grows P w w'.
Proof.
  intros HP (t & -> & Ht). split; [done|]. exists t. split; [done|].
  eapply Forall_impl; eauto.
Qed.

(** *** Relations kept by the combinators *)
Section Keeps.
Context (R : Proc.world → Proc.world → Prop).
Context (R_refl : ∀ w, R w w).
Context (R_trans : ∀ w1 w2 w3, R w1 w2 → R w2 w3 → R w1 w3).

Lemma keeps_ret {A : Type} (a : A) : Run.keeps R (mret a).
Proof. intros w. apply R_refl. Qed.

Lemma keeps_throw {A : Type} (msg : string) : Run.keeps R (@Proc.throw A msg).
Proof. intros w. apply R_refl. Qed.

Lemma keeps_exit {A : Type} (code : Z) : Run.keeps R (@Proc.exit A code).
Proof. intros w. apply R_refl. Qed.

Lemma keeps_stall {A : Type} : Run.keeps R (@Proc.stall A).
Proof. intros w. apply R_refl. Qed.

Lemma keeps_lift {A : Type} (r : Proc.result A) : Run.keeps R (Proc.lift r).
Proof. intros w. destruct r; apply R_refl. Qed.

Lemma keeps_existsSync (p : string) : Run.keeps R (Proc.existsSync p).
Proof. intros w. apply R_refl. Qed.

Lemma keeps_readJsonSync (p : string) : Run.keeps R (Proc.readJsonSync p).
Proof. intros w. unfold Proc.readJsonSync. repeat case_match; apply R_refl. Qed.

Lemma keeps_readdirSync (p : string) : Run.keeps R (Proc.readdirSync p).
Proof. intros w. unfold Proc.readdirSync. repeat case_match; apply R_refl. Qed.

Lemma keeps_bind {A B : Type} (m : Proc.M A) (k : A → Proc.M B) :
  Run.keeps R m → (∀ a, Run.keeps R (k a)) → Run.keeps R (m ≫= k).
Proof.
  intros Hm Hk w. specialize (Hm w).
  unfold mbind, proc_bind, Proc.bind. destruct (m w) as [[a|e|c|] w']; cbn in *; try done.
  eapply R_trans; [exact Hm | apply Hk].
Qed.

Lemma keeps_try_catch {A : Type} (m : Proc.M A) (h : string → Proc.M A) :
  Run.keeps R m → (∀ e, Run.keeps R (h e)) → Run.keeps R (Proc.try_catch m h).
Proof.
  intros Hm Hh w. specialize (Hm w).
  unfold Proc.try_catch. destruct (m w) as [[a|e|c|] w']; cbn in *; try done.
  eapply R_trans; [exact Hm | apply Hh].
Qed.

Lemma keeps_when (b : bool) (m : Proc.M unit) :
  Run.keeps R m → Run.keeps R (Proc.when b m).
Proof. intros Hm. destruct b; [done | apply keeps_ret]. Qed.

(** The continuation of [get] is run in the world that [get] returns. *)
Lemma keeps_get_bind {A : Type} (k : Proc.world → Proc.M A) (w : Proc.world) :
  Run.keeps R (k w) → R w ((Proc.get ≫= k) w).2.
Proof. intros Hk. apply Hk. Qed.

End Keeps.

(** *** The primitives, for a trace that grows *)
Section Grows.
Context (P : Proc.event → Prop).

Lemma grows_emit (e : Proc.event) : P e → Run.keeps (Run.grows P) (Proc.emit e).
Proof. intros He w. split; [done|]. exists [e]. split; [done | by constructor]. Qed.

Lemma grows_ensureDirSync (p : string) :
  P (Proc.EnsureDir p) → Run.keeps (Run.grows P) (Proc.ensureDirSync p).
Proof.
  intros He w. unfold Proc.ensureDirSync.
  repeat case_match; (split; [done|]; exists [Proc.EnsureDir p]; split; [done | by constructor]).
Qed.

Lemma grows_writeFileSync (p : string) (c : Fs.content) :
  P (Proc.WriteFile p c) → Run.keeps (Run.grows P) (Proc.writeFileSync p c).
Proof.
  intros He w. unfold Proc.writeFileSync.
  repeat case_match; (split; [done|]; exists [Proc.WriteFile p c]; split; [done | by constructor]).
Qed.

Lemma grows_execSync (cmd : string) :
  P (Proc.Exec cmd) → Run.keeps (Run.grows P) (Proc.execSync cmd).
Proof.
  intros He w. unfold Proc.execSync.
  repeat case_match; (split; [done|]; exists [Proc.Exec cmd]; split; [done | by constructor]).
Qed.

End Grows.

Lemma under_join (dir x : string) : Run.under dir (Fs.join dir x).
Proof.
  right. unfold Fs.join. rewrite <- string_app_assoc. apply startsWith_app.
Qed.

(** Taking a command apart along its combinators; [tac] settles the
    primitives. *)
Ltac keeps_with refl trans tac :=
  repeat first
    [ tac
    | apply (keeps_bind _ trans); [|intros ?]
    | apply (keeps_try_catch _ trans); [|intros ?]
    | apply (keeps_when _ refl)
    | apply (keeps_ret _ refl)
    | apply (keeps_throw _ refl)
    | apply (keeps_exit _ refl)
    | apply (keeps_stall _ refl)
    | apply (keeps_lift _ refl)
    | apply (keeps_existsSync _ refl)
    | apply (keeps_readJsonSync _ refl)
    | apply (keeps_readdirSync _ refl)
    | match goal with |- Run.keeps _ (if ?b then _ else _) => destruct b end
    | match goal with |- Run.keeps _ (match ?x with _ => _ end) => destruct x end ].

Ltac grows_prim :=
  first [ apply grows_emit | apply grows_ensureDirSync
        | apply grows_writeFileSync | apply grows_execSync ].

Ltac confined_tac :=
  first [ by (intros ? [= <-]; first [ apply under_join | by left ])
        | by intros ? [=] ].

(** ** The initializer *)

Lemma createProjectStructure_confined (dir : string) (options : Init.ProjectOptions) :
  Run.keeps (Run.grows (Run.confined dir)) (Init.createProjectStructure dir options).
Proof.
  unfold Init.createProjectStructure, Init.dirs, Init.ensureDirs, Proc.writeJsonSync.
  keeps_with (grows_refl (Run.confined dir)) (grows_trans (Run.confined dir))
    ltac:(grows_prim; confined_tac).
Qed.

Lemma createProject_confined (options : Init.ProjectOptions) (w : Proc.world) :
  Run.grows (Run.confined (Fs.join (Proc.cwd w) (Init.name options))) w
    (Init.createProject options w).2.
Proof.
  set (dir := Fs.join (Proc.cwd w) (Init.name options)).
  pose proof (createProjectStructure_confined dir options) as Hs.
  unfold Init.createProject. apply (keeps_get_bind (Run.grows (Run.confined dir))).
  fold dir.
  keeps_with (grows_refl (Run.confined dir)) (grows_trans (Run.confined dir))
    ltac:(first [ exact Hs | grows_prim; confined_tac ]).
Qed.

(** *** The primitives, for a file system that is the same outside [dir] *)
Section Outside.
Context (dir : string).

Lemma outside_refl (w : Proc.world) : Run.outside dir w w.
Proof. by split. Qed.

Lemma outside_trans (w1 w2 w3 : Proc.world) :
  Run.outside dir w1 w2 → Run.outside dir w2 w3 → Run.outside dir w1 w3.
Proof.
  intros [Hc H] [Hc' H']. split; [congruence|].
  intros p Hp. by rewrite H', H.
Qed.

Lemma outside_emit (e : Proc.event) : Run.keeps (Run.outside dir) (Proc.emit e).
Proof. intros w. by split. Qed.

Lemma outside_execSync (cmd : string) : Run.keeps (Run.outside dir) (Proc.execSync cmd).
Proof. intros w. unfold Proc.execSync. by case_match. Qed.

Lemma outside_ensureDirSync (p : string) :
  Run.under dir p → Run.keeps (Run.outside dir) (Proc.ensureDirSync p).
Proof.
  intros Hp w. unfold Proc.ensureDirSync. repeat case_match; split; try done.
  cbn. intros q Hq. apply lookup_put_ne. by intros ->.
Qed.

Lemma outside_writeFileSync (p : string) (c : Fs.content) :
  Run.under dir p → Run.keeps (Run.outside dir) (Proc.writeFileSync p c).
Proof.
  intros Hp w. unfold Proc.writeFileSync.
  repeat case_match; split; try done; cbn; intros q Hq; apply lookup_put_ne; by intros ->.
Qed.

End Outside.

Lemma reports_outside (dir : string) (w w' : Proc.world) :
  Run.reports w w' → Run.outside dir w w'.
Proof. by intros (t & -> & _). Qed.

Ltac outside_prim :=
  first [ apply outside_emit | apply outside_execSync
        | apply outside_ensureDirSync; first [ apply under_join | by left ]
        | apply outside_writeFileSync; first [ apply under_join | by left ] ].

Lemma createProjectStructure_outside (dir : string) (options : Init.ProjectOptions) :
  Run.keeps (Run.outside dir) (Init.createProjectStructure dir options).
Proof.
  unfold Init.createProjectStructure, Init.dirs, Init.ensureDirs, Proc.writeJsonSync.
  keeps_with (outside_refl dir) (outside_trans dir) outside_prim.
Qed.

Lemma createProject_outside (options : Init.ProjectOptions) (w : Proc.world) :
  Run.outside (Fs.join (Proc.cwd w) (Init.name options)) w
    (Init.createProject options w).2.
Proof.
  set (dir := Fs.join (Proc.cwd w) (Init.name options)).
  pose proof (createProjectStructure_outside dir options) as Hs.
  unfold Init.createProject. apply (keeps_get_bind (Run.outside dir)). fold dir.
  keeps_with (outside_refl dir) (outside_trans dir)
    ltac:(first [ exact Hs | outside_prim ]).
Qed.

Lemma createProject_exists (options : Init.ProjectOptions) (w : Proc.world) :
  Fs.exists_ (Fs.join (Proc.cwd w) (Init.name options)) (Proc.files w) = true →
  Init.createProject options w
  = (Proc.Exit 1,
     Proc.set_trace
       (Proc.trace w
        ++ [Proc.Console ("Directory " +:+ Init.name options +:+ " already exists!")]) w).
Proof. intros H. unfold Init.createProject. munfold. cbn. by rewrite H. Qed.

(** The run of the initializer, by the outcome of the name prompt. *)
Lemma initCommand_run (arg : option string) (options : Init.Flags) (user : Init.User)
    (w : Proc.world) :
  let r := Init.initCommand arg options user w in
  ((Init.ask_input (Init.defaultName arg) Init.validate (Init.typed user) w).1
   = Proc.Stalled
   ∧ Run.reports w r.2)
  ∨ ∃ n w1,
      (Init.ask_input (Init.defaultName arg) Init.validate (Init.typed user) w).1
      = Proc.Ret n
      ∧ Init.validate n = Init.Valid
      ∧ Run.reports w w1
      ∧ r = Init.createProject (Init.projectOptions n options user) w1.
Proof.
  cbn. unfold Init.initCommand. munfold. cbn.
  set (w0 := Proc.set_trace _ w).
  assert (Hw0 : Run.reports w w0) by (by apply reports_emit).
  pose proof (ask_input_spec (Init.defaultName arg) (Init.typed user) w0) as [Hr Ho].
  pose proof (ask_input_outcome (Init.defaultName arg) (Init.typed user) w w0) as Hsame.
  destruct (Init.ask_input _ _ _ w0) as [o w1]. cbn in *.
  destruct Ho as [-> | (n & -> & Hn)].
  - left. split; [done|]. by eapply reports_trans.
  - right. exists n, w1. rewrite (valid_truthy _ Hn).
    split_and!; [done | done | by eapply reports_trans | done].
Qed.

(** C2: the name validation of the initializer accepts exactly the strings
    that match [^[a-z0-9-]+$] (so ["my-app-1"] is accepted and ["My App"] is
    rejected); as long as the names entered fail the check the file system
    is not touched, and whatever the initializer changes lies in the
    directory of a name that passed the check. *)
Theorem init_name_validation (input : string) (arg : option string)
    (options : Init.Flags) (user : Init.User) (w : Proc.world) :
  let r := Init.initCommand arg options user w in
  (Init.accepted (Init.validate input) = true ↔ Regex.Matches Init.name_pattern input)
  ∧ Init.accepted (Init.validate "my-app-1") = true
  ∧ Init.accepted (Init.validate "My App") = false
  ∧ (Forall (λ l, Init.accepted
                    (Init.validate (Init.filterInput (Init.defaultName arg) l)) = false)
       (Init.typed user) →
     Proc.files r.2 = Proc.files w ∧ Forall Run.silent (Run.news w r.2))
  ∧ Forall (λ e, ∀ p, Run.target e = Some p →
                 ∃ n, Init.accepted (Init.validate n) = true
                      ∧ Run.under (Fs.join (Proc.cwd w) n) p)
      (Run.news w r.2)
  ∧ (∀ p, (∀ n, Init.accepted (Init.validate n) = true →
                ¬ Run.under (Fs.join (Proc.cwd w) n) p) →
          Fs.lookup p (Proc.files r.2) = Fs.lookup p (Proc.files w)).
Proof.
  intros r. unfold r. clear r. split_and!.
  - apply validate_accepts.
  - reflexivity.
  - reflexivity.
  - intros Hrej.
    pose proof (ask_input_rejected _ _ w Hrej) as Hstall.
    destruct (initCommand_run arg options user w) as [[_ Hr] | (n & w1 & Hn & _)].
    + split; [by apply reports_files | by apply reports_news].
    + rewrite Hstall in Hn. discriminate.
  - destruct (initCommand_run arg options user w) as [[_ Hr] | (n & w1 & _ & Hn & Hr & Hrun)].
    + eapply Forall_impl; [by apply reports_news|].
      intros e [He _] p Hp. by destruct e.
    + apply grows_news with (P := λ e, ∀ p, Run.target e = Some p →
             ∃ n, Init.accepted (Init.validate n) = true
                  ∧ Run.under (Fs.join (Proc.cwd w) n) p).
      eapply grows_trans.
      * eapply reports_grows; [|exact Hr]. intros e [He _] p Hp. by destruct e.
      * rewrite Hrun.
        destruct (createProject_confined (Init.projectOptions n options user) w1)
          as (Hc & t & Ht & HP).
        split; [done|]. exists t. split; [done|].
        eapply Forall_impl; [exact HP|]. intros e He p Hp.
        exists n. split; [by apply validate_valid|].
        apply reports_files in Hr as [_ <-]. by apply He.
  - intros p Hp.
    destruct (initCommand_run arg options user w) as [[_ Hr] | (n & w1 & _ & Hn & Hr & Hrun)].
    + by apply reports_files in Hr as [-> _].
    + rewrite Hrun.
      destruct (createProject_outside (Init.projectOptions n options user) w1) as [_ Ho].
      apply reports_files in Hr as [Hf Hc]. rewrite <- Hf.
      apply Ho. cbn. rewrite Hc. apply Hp. by apply validate_valid.
Qed.

Lemma init_name_validation_witness :
  Proc.files (Init.initCommand (Some "My App") Sample.flags Sample.stubborn Sample.empty_dir).2
  = Proc.files Sample.empty_dir.
Proof.
  apply (init_name_validation "My App" (Some "My App") Sample.flags Sample.stubborn
           Sample.empty_dir).
  repeat constructor.
Defined.

(** C3: when the path of the project already exists, the initializer ends
    the process with status 1 after its message, without having created a
    directory or written a file: the file system is the one it started
    from. *)
Theorem init_existing_directory (arg : option string) (options : Init.Flags)
    (user : Init.User) (w : Proc.world) (n : string) :
  (Init.ask_input (Init.defaultName arg) Init.validate (Init.typed user) w).1 = Proc.Ret n →
  Fs.exists_ (Fs.join (Proc.cwd w) n) (Proc.files w) = true →
  let r := Init.initCommand arg options user w in
  r.1 = Proc.Exit 1
  ∧ Proc.status r.1 = Some 1
  ∧ Proc.files r.2 = Proc.files w
  ∧ Forall Run.silent (Run.news w r.2)
  ∧ last (Run.news w r.2) = Some (Proc.Console ("Directory " +:+ n +:+ " already exists!")).
Proof.
  intros Hask Hex r. unfold r. clear r.
  destruct (initCommand_run arg options user w) as [[Hs _] | (m & w1 & Hm & _ & Hr & Hrun)].
  - rewrite Hask in Hs. discriminate.
  - rewrite Hask in Hm. injection Hm as <-. rewrite Hrun.
    pose proof Hr as [Hf Hc]%reports_files.
    rewrite createProject_exists by (cbn; by rewrite Hc, Hf).
    cbn. destruct Hr as (t & -> & Ht). cbn.
    rewrite (news_app _ _ (t ++ [Proc.Console ("Directory " +:+ n +:+ " already exists!")]))
      by (cbn; by rewrite app_assoc).
    split_and!; try done.
    + apply Forall_app. split; [done|]. by repeat constructor.
    + by rewrite last_snoc.
Qed.

Lemma init_existing_directory_witness :
  (Init.initCommand None Sample.flags Sample.careful Sample.with_project).1 = Proc.Exit 1
  ∧ Proc.files (Init.initCommand None Sample.flags Sample.careful Sample.with_project).2
    = Proc.files Sample.with_project.
Proof.
  pose proof (init_existing_directory None Sample.flags Sample.careful
                Sample.with_project "my-app-1" eq_refl eq_refl) as H.
  split; apply H.
Defined.

(** *** What a run that returns has put *)

Lemma put_same (p : string) (n : Fs.node) (f : Fs.fs) :
  Fs.lookup p f = Some n → Fs.put p n f = f.
Proof.
  induction f as [|[q m] f IH]; simpl; [done|].
  destruct (String.eqb p q) eqn:Hpq.
  - by intros [= ->].
  - intros H. by rewrite IH.
Qed.

Lemma put_all_app (l1 l2 : list (string * Fs.node)) (f : Fs.fs) :
  Fs.put_all (l1 ++ l2) f = Fs.put_all l2 (Fs.put_all l1 f).
Proof. apply fold_left_app. Qed.

Lemma puts_ret {A : Type} (a : A) : Run.puts [] (mret a).
Proof. by intros w _. Qed.

Lemma puts_bind {A B : Type} (l1 l2 : list (string * Fs.node)) (m : Proc.M A)
    (k : A → Proc.M B) :
  Run.puts l1 m → (∀ a, Run.puts l2 (k a)) → Run.puts (l1 ++ l2) (m ≫= k).
Proof.
  intros Hm Hk w. specialize (Hm w). rewrite put_all_app.
  unfold mbind, proc_bind, Proc.bind. destruct (m w) as [[a|e|c|] w']; cbn in *; try done.
  intros Hr. rewrite <- Hm by done. by apply Hk.
Qed.

Lemma puts_ensureDirSync (p : string) : Run.puts [(p, Fs.Dir)] (Proc.ensureDirSync p).
Proof.
  intros w. unfold Proc.ensureDirSync. repeat case_match; cbn; try done.
  intros _. by rewrite put_same.
Qed.

Lemma puts_writeFileSync (p : string) (c : Fs.content) :
  Run.puts [(p, Fs.File c)] (Proc.writeFileSync p c).
Proof. intros w. unfold Proc.writeFileSync. by repeat case_match. Qed.

Lemma puts_eq {A : Type} (l l' : list (string * Fs.node)) (m : Proc.M A) :
  Run.puts l m → l = l' → Run.puts l' m.
Proof. by intros H <-. Qed.

Lemma createProjectStructure_puts (dir : string) (options : Init.ProjectOptions) :
  Run.puts (Init.scaffold dir options) (Init.createProjectStructure dir options).
Proof.
  unfold Init.createProjectStructure, Proc.writeJsonSync.
  cbn [Init.ensureDirs Init.dirs].
  eapply puts_eq.
  - repeat first
      [ eapply puts_bind; [|intros ?]
      | apply puts_ensureDirSync
      | apply puts_writeFileSync
      | apply puts_ret ].
  - reflexivity.
Qed.

Lemma join_eqb (dir a b : string) :
  String.eqb (Fs.join dir a) (Fs.join dir b) = String.eqb a b.
Proof.
  unfold Fs.join. induction dir as [|c dir IH]; [reflexivity|].
  rewrite !string_app_cons. simpl. by rewrite Ascii.eqb_refl.
Qed.

Lemma eqb_ne (p q : string) : p ≠ q → String.eqb p q = false.
Proof. apply string_eqb_false. Qed.

(** C7: scaffolding with the TypeScript flag set and cleared, from the same
    world and with otherwise the same options: the dependencies of the two
    manifests differ exactly by the two type-definition packages and the
    compiler package, the rest of the manifest is the same, the starter
    component is written under the extension and with the text of the flag,
    and every other path holds the same in both file systems. *)
Theorem scaffold_typescript_flag (dir : string) (options : Init.ProjectOptions)
    (w : Proc.world) :
  let ts := Init.with_typescript true options in
  let js := Init.with_typescript false options in
  let rt := Init.createProjectStructure dir ts w in
  let rj := Init.createProjectStructure dir js w in
  Run.returns rt.1 → Run.returns rj.1 →
  Fs.lookup (Fs.join dir "package.json") (Proc.files rt.2)
    = Some (Fs.File (Fs.Doc (Init.packageJson ts)))
  ∧ Fs.lookup (Fs.join dir "package.json") (Proc.files rj.2)
    = Some (Fs.File (Fs.Doc (Init.packageJson js)))
  ∧ Init.dependencySet (Init.packageJson ts)
    = Init.dependencySet (Init.packageJson js)
      ∪ {[ "@types/react"; "@types/react-dom"; "typescript" ]}
  ∧ Init.dependencySet (Init.packageJson js)
    ∩ {[ "@types/react"; "@types/react-dom"; "typescript" ]} = ∅
  ∧ (∀ k, k ≠ "devDependencies" →
          Json.get k (Init.packageJson ts) = Json.get k (Init.packageJson js))
  ∧ Fs.lookup (Fs.join dir "src/App.tsx") (Proc.files rt.2)
    = Some (Fs.File (Fs.Text (Js.trim (Init.appContent ts))))
  ∧ Fs.lookup (Fs.join dir "src/App.jsx") (Proc.files rj.2)
    = Some (Fs.File (Fs.Text (Js.trim (Init.appContent js))))
  ∧ (∀ p, p ≠ Fs.join dir "package.json" → p ≠ Fs.join dir "src/App.tsx" →
          p ≠ Fs.join dir "src/App.jsx" →
          Fs.lookup p (Proc.files rt.2) = Fs.lookup p (Proc.files rj.2)).
Proof.
  intros ts js rt rj Ht Hj.
  pose proof (createProjectStructure_puts dir ts w Ht) as Et.
  pose proof (createProjectStructure_puts dir js w Hj) as Ej.
  fold rt in Et. fold rj in Ej. rewrite Et, Ej. clear Et Ej Ht Hj rt rj.
  unfold Init.scaffold, Fs.put_all. cbn [map Init.dirs app fold_left fst snd
    Init.fileExtension Init.useTypeScript ts js Init.with_typescript].
  split_and!.
  - rewrite !lookup_put, !join_eqb. reflexivity.
  - rewrite !lookup_put, !join_eqb. reflexivity.
  - vm_compute. exact eq_refl.
  - vm_compute. exact eq_refl.
  - intros k Hk. unfold Init.packageJson, Json.obj, Json.get.
    cbn [list_to_map foldr fst snd]. rewrite !lookup_insert.
    repeat case_decide; done.
  - rewrite !lookup_put, !join_eqb. reflexivity.
  - rewrite !lookup_put, !join_eqb. reflexivity.
  - intros p Hp Ht Hj.
    change ("src/App." +:+ "tsx") with "src/App.tsx".
    change ("src/App." +:+ "jsx") with "src/App.jsx".
    rewrite !lookup_put.
    rewrite (eqb_ne _ _ Hp), (eqb_ne _ _ Ht), (eqb_ne _ _ Hj). reflexivity.
Qed.

Lemma scaffold_typescript_flag_witness :
  Fs.lookup "/work/my-app-1/README.md"
    (Proc.files (Init.createProjectStructure "/work/my-app-1"
       (Init.with_typescript true (Init.projectOptions "my-app-1" Sample.flags Sample.careful))
       Sample.empty_dir).2)
  = Fs.lookup "/work/my-app-1/README.md"
    (Proc.files (Init.createProjectStructure "/work/my-app-1"
       (Init.with_typescript false (Init.projectOptions "my-app-1" Sample.flags Sample.careful))
       Sample.empty_dir).2).
Proof.
  destruct (scaffold_typescript_flag "/work/my-app-1"
              (Init.projectOptions "my-app-1" Sample.flags Sample.careful)
              Sample.empty_dir I I) as (_ & _ & _ & _ & _ & _ & _ & H).
  apply H; discriminate.
Defined.

(** ** The compiler adapter *)

#[local] Arguments Fs.join : simpl never.
#[local] Arguments Fs.entries : simpl never.
#[local] Arguments Js.endsWith : simpl never.
#[local] Arguments List.filter : simpl never.

Lemma truthy_join (a b : string) : Js.truthy (Fs.join a b) = true.
Proof. unfold Fs.join. by destruct a. Qed.

Lemma findContract_one (dir f : string) (w : Proc.world) :
  Fs.lookup dir (Proc.files w) = Some Fs.Dir →
  List.filter (λ f, Js.endsWith f ".compact") (Fs.entries dir (Proc.files w)) = [f] →
  Contract.findContract dir w = (Proc.Ret (Fs.join dir f), w).
Proof.
  intros Hdir Hone. unfold Contract.findContract. munfold. unfold Fs.exists_.
  rewrite Hdir. cbn. rewrite Hdir. cbn. rewrite Hone. reflexivity.
Qed.

(** C4: compiling without a file argument.  When [src/contracts] is a
    directory: with no entry that ends in [.compact] the command fails with
    the message that none was found and status 1; with one such entry it
    takes that file and reports nothing about the choice, as if the file had
    been given; with several it takes the first of the listing and reports
    how many it found and which one it compiles.  When there is no
    [src/contracts] the command fails with the message that the directory
    was not found. *)
Theorem compile_discovery (options : Contract.CompileOptions) (w : Proc.world) :
  let dir := Fs.join (Proc.cwd w) "src/contracts" in
  let candidates :=
    List.filter (λ f, Js.endsWith f ".compact") (Fs.entries dir (Proc.files w)) in
  (Fs.lookup dir (Proc.files w) = Some Fs.Dir →
   match candidates with
   | [] =>
       Contract.compileContract None options w
       = (Proc.Exit 1,
          Proc.set_trace
            (Proc.trace w
             ++ [ Proc.Spinner Proc.Start "Compiling Midnight contract...";
                  Proc.Spinner Proc.Fail "Compilation failed";
                  Proc.ConsoleError "Error: No .compact files found in src/contracts/" ]) w)
   | [f] =>
       Contract.findContract dir w = (Proc.Ret (Fs.join dir f), w)
       ∧ Contract.compileContract None options w
         = Contract.compileContract (Some (Fs.join dir f)) options w
   | f :: _ :: _ =>
       Contract.findContract dir w
       = (Proc.Ret (Fs.join dir f),
          Proc.set_trace
            (Proc.trace w
             ++ [ Proc.Spinner Proc.Info
                    ("Found " +:+ Js.show_nat (length candidates)
                     +:+ " contracts, compiling " +:+ f) ]) w)
   end)
  ∧ (Fs.lookup dir (Proc.files w) = None →
     Contract.compileContract None options w
     = (Proc.Exit 1,
        Proc.set_trace
          (Proc.trace w
           ++ [ Proc.Spinner Proc.Start "Compiling Midnight contract...";
                Proc.Spinner Proc.Fail "Compilation failed";
                Proc.ConsoleError
                  ("Error: " +:+ "No contracts directory found. Run " +:+ Js.dq
                   +:+ "midnight init" +:+ Js.dq +:+ " first.") ]) w)).
Proof.
  intros dir candidates. split.
  - intros Hdir.
    destruct candidates as [|f [|g rest]] eqn:Hc; subst candidates; unfold dir in *; clear dir.
    + unfold Contract.compileContract, Contract.findContract. munfold.
      unfold Fs.exists_. cbn.
      rewrite Hdir. cbn. rewrite Hdir. cbn. rewrite Hc. cbn.
      unfold Proc.set_trace. cbn. by rewrite <- !app_assoc.
    + split; [by apply findContract_one|].
      unfold Contract.compileContract. munfold. cbn.
      rewrite (findContract_one _ f) by done. by rewrite truthy_join.
    + unfold Contract.findContract. munfold. unfold Fs.exists_.
      rewrite Hdir. cbn. rewrite Hdir. cbn. rewrite Hc. reflexivity.
  - intros Hdir. unfold dir in *. clear dir candidates.
    unfold Contract.compileContract, Contract.findContract. munfold.
    unfold Fs.exists_. cbn. rewrite Hdir. cbn.
    unfold Proc.set_trace. cbn. by rewrite <- !app_assoc.
Qed.

Lemma compile_discovery_witness :
  Contract.findContract "/work/my-app-1/src/contracts" Sample.in_project
  = (Proc.Ret "/work/my-app-1/src/contracts/Counter.compact", Sample.in_project).
Proof.
  exact (proj1 (proj1 (compile_discovery Sample.compile_options Sample.in_project) eq_refl)).
Defined.

(** ** Watch mode *)


Lemma execs_app (t t' : list Proc.event) :
  Run.execs (t ++ t') = Run.execs t ++ Run.execs t'.
Proof. apply omap_app. Qed.

Lemma set_trace_twice (t t' : list Proc.event) (w : Proc.world) :
  Proc.set_trace t' (Proc.set_trace t w) = Proc.set_trace t' w.
Proof. reflexivity. Qed.






(** ** The proof-server manager *)

Section Runtime.
Context (p : string).

Lemma runtime_refl (w : Proc.world) : Run.runtime p w w.
Proof. unfold Run.runtime. split_and!; auto. Qed.

Lemma runtime_trans (w1 w2 w3 : Proc.world) :
  Run.runtime p w1 w2 → Run.runtime p w2 w3 → Run.runtime p w1 w3.
Proof.
  unfold Run.runtime. intros (Hl & Hi & Hd & He & Hc) (Hl' & Hi' & Hd' & He' & Hc').
  split_and!; try congruence.
  destruct Hc' as [Hc'|(Hup & n & Hn & Hc')].
  - destruct Hc as [Hc|Hc]; [left; congruence | right; by rewrite Hc'].
  - right. split; [congruence|]. exists n. split; [done|].
    rewrite Hc'. unfold ProofServer.published. by rewrite He.
Qed.

(** A world that differs from [w] in its trace only. *)
Ltac runtime_same := unfold Run.runtime; cbn; split_and!; auto.

Lemma runtime_emit (e : Proc.event) : Run.keeps (Run.runtime p) (Proc.emit e).
Proof. intros w. runtime_same. Qed.

Lemma runtime_execSync (cmd : string) : Run.keeps (Run.runtime p) (Proc.execSync cmd).
Proof. intros w. unfold Proc.execSync. case_match; runtime_same. Qed.

Lemma runtime_curlHealth (q : string) :
  Run.keeps (Run.runtime p) (ProofServer.curlHealth q).
Proof. intros w. unfold ProofServer.curlHealth. case_match; runtime_same. Qed.

Lemma runtime_dockerVersion : Run.keeps (Run.runtime p) ProofServer.dockerVersion.
Proof. intros w. unfold ProofServer.dockerVersion. case_match; runtime_same. Qed.

Lemma runtime_dockerInfo : Run.keeps (Run.runtime p) ProofServer.dockerInfo.
Proof. intros w. unfold ProofServer.dockerInfo. case_match; runtime_same. Qed.

Lemma runtime_launch (t : list Proc.event) (w w' : Proc.world) :
  ProofServer.launch p (Proc.set_trace t w) = Some w' → Run.runtime p w w'.
Proof.
  unfold ProofServer.launch, ProofServer.dockerUp. intros H.
  repeat case_match; simplify_eq.
  unfold Run.runtime. cbn in *. split_and!; try done. right.
  repeat match goal with H : _ && _ = true |- _ => apply andb_true_iff in H as [? ?] end.
  split; [by apply andb_true_iff | eauto].
Qed.

Lemma runtime_dockerRun (d : bool) : Run.keeps (Run.runtime p) (ProofServer.dockerRun d p).
Proof.
  intros w. unfold ProofServer.dockerRun. case_match; [runtime_same|].
  destruct (ProofServer.launch _ _) as [w2|] eqn:Hl; cbn; [|runtime_same].
  by apply runtime_launch in Hl.
Qed.

Lemma runtime_spawnRun : Run.keeps (Run.runtime p) (ProofServer.spawnRun p).
Proof.
  intros w. unfold ProofServer.spawnRun.
  destruct (ProofServer.launch _ _) as [w2|] eqn:Hl; cbn; [|runtime_same].
  by apply runtime_launch in Hl.
Qed.

End Runtime.

Ltac runtime_prim :=
  first [ apply runtime_emit | apply runtime_execSync | apply runtime_curlHealth
        | apply runtime_dockerVersion | apply runtime_dockerInfo
        | apply runtime_dockerRun | apply runtime_spawnRun ].

Lemma startProofServer_runtime (options : ProofServer.ProofServerOptions) :
  Run.keeps (Run.runtime (default "6300" (Js.or_else (ProofServer.port options) None)))
    (ProofServer.startProofServer options).
Proof.
  unfold ProofServer.startProofServer.
  set (p := default "6300" (Js.or_else (ProofServer.port options) None)).
  keeps_with (runtime_refl p) (runtime_trans p) runtime_prim.
Qed.

Lemma container_name_truthy :
  Js.truthy (Js.trim ("midnight-proof-server" +:+ Init.nl)) = true.
Proof. reflexivity. Qed.

Lemma answering_6300 (w : Proc.world) :
  ProofServer.answering "6300" w
  = bool_decide (6300%N ∈ Proc.listeners w)
    || (bool_decide (Proc.container w = Some 6300%N) && Proc.server_healthy w).
Proof. reflexivity. Qed.

Lemma dockerUp_set_trace (t : list Proc.event) (w : Proc.world) :
  ProofServer.dockerUp (Proc.set_trace t w) = ProofServer.dockerUp w.
Proof. reflexivity. Qed.

Lemma answering_set_trace (p : string) (t : list Proc.event) (w : Proc.world) :
  ProofServer.answering p (Proc.set_trace t w) = ProofServer.answering p w.
Proof. reflexivity. Qed.

#[local] Arguments ProofServer.answering : simpl never.
#[local] Arguments ProofServer.dockerUp : simpl never.
#[local] Arguments Js.trim : simpl never.

(** The run of [status] when the container runs and port 6300 is silent. *)
Lemma checkStatus_silent_port (w : Proc.world) :
  ProofServer.dockerUp w = true →
  Proc.container w ≠ None →
  ProofServer.answering "6300" w = false →
  ProofServer.checkStatus w
  = (Proc.Ret (),
     Proc.set_trace
       (Proc.trace w
        ++ [ Proc.Spinner Proc.Start "Checking proof server status...";
             Proc.Exec ("docker ps --filter name=midnight-proof-server --format "
                        +:+ Js.dq +:+ "{{.Names}}" +:+ Js.dq);
             Proc.Exec "curl -s http://localhost:6300/health";
             Proc.Spinner Proc.Warn "Proof server container is running but not responding" ])
       w).
Proof.
  intros Hup Hc Ha.
  unfold ProofServer.checkStatus, ProofServer.dockerPs, ProofServer.curlHealth.
  munfold. cbn. rewrite !dockerUp_set_trace, Hup. cbn.
  destruct (Proc.container w) as [q|] eqn:Hq; [|done].
  rewrite container_name_truthy. cbn. rewrite !answering_set_trace, Ha. cbn.
  unfold Proc.set_trace. cbn. by rewrite <- !app_assoc.
Qed.

Lemma checkStatus_execs (w : Proc.world) :
  Forall (λ cmd, cmd ∈ Run.status_commands)
    (Run.execs (Run.news w (ProofServer.checkStatus w).2)).
Proof.
  unfold ProofServer.checkStatus, ProofServer.dockerPs, ProofServer.curlHealth.
  mrun; (erewrite news_app; [|cbn; rewrite <- ?app_assoc; reflexivity]);
    cbn; repeat (apply Forall_cons; split); try apply Forall_nil;
    unfold Run.status_commands; set_solver.
Qed.

Lemma checkStatus_curl (w : Proc.world) (cmd : string) :
  cmd ∈ Run.execs (Run.news w (ProofServer.checkStatus w).2) →
  Js.startsWith "curl" cmd = true →
  cmd = "curl -s http://localhost:6300/health".
Proof.
  intros Hin Hcurl.
  pose proof (checkStatus_execs w) as Hall.
  rewrite Forall_forall in Hall. apply Hall in Hin. clear Hall.
  unfold Run.status_commands in Hin.
  apply elem_of_cons in Hin as [->|Hin]; [by vm_compute in Hcurl|].
  apply elem_of_cons in Hin as [->|Hin]; [done|].
  apply elem_of_cons in Hin as [->|Hin]; [by vm_compute in Hcurl|].
  by apply elem_of_nil in Hin.
Qed.

(** C10: [status] probes the health endpoint of port 6300 and of no other
    port, in every world.  So when [start] has brought up the container on
    a host port other than 6300, the port its option names, and nothing
    else answers on port 6300, [status] finds the container running and
    reports that it does not respond, whether the server is healthy or not. *)
Theorem status_probes_fixed_port (options : ProofServer.ProofServerOptions)
    (w : Proc.world) (q : N) :
  let w1 := (ProofServer.startProofServer options w).2 in
  Proc.container w = None →
  Proc.container w1 = Some q →
  q ≠ 6300%N →
  6300%N ∉ Proc.listeners w →
  (∃ n, Js.read_nat (default "6300" (Js.or_else (ProofServer.port options) None)) = Some n
        ∧ q = ProofServer.published n w)
  ∧ ProofServer.checkStatus w1
    = (Proc.Ret (),
       Proc.set_trace
         (Proc.trace w1
          ++ [ Proc.Spinner Proc.Start "Checking proof server status...";
               Proc.Exec ("docker ps --filter name=midnight-proof-server --format "
                          +:+ Js.dq +:+ "{{.Names}}" +:+ Js.dq);
               Proc.Exec "curl -s http://localhost:6300/health";
               Proc.Spinner Proc.Warn
                 "Proof server container is running but not responding" ])
         w1)
  ∧ (∀ w' cmd, cmd ∈ Run.execs (Run.news w' (ProofServer.checkStatus w').2) →
               Js.startsWith "curl" cmd = true →
               cmd = "curl -s http://localhost:6300/health").
Proof.
  intros w1 Hnone Hq Hne Hfree.
  destruct (startProofServer_runtime options w) as (Hl & Hi & Hd & He & Hc).
  fold w1 in Hl, Hi, Hd, He, Hc.
  destruct Hc as [Hc|(Hup & n & Hn & Hc)]; [congruence|].
  split_and!.
  - exists n. split; [done|]. congruence.
  - apply checkStatus_silent_port.
    + unfold ProofServer.dockerUp. by rewrite Hi, Hd.
    + by rewrite Hq.
    + rewrite answering_6300, Hl, Hq.
      rewrite bool_decide_eq_false_2 by done.
      rewrite bool_decide_eq_false_2 by congruence. done.
  - apply checkStatus_curl.
Qed.

Lemma status_probes_fixed_port_witness :
  (ProofServer.checkStatus
     (ProofServer.startProofServer Sample.start_options Sample.empty_dir).2).1
  = Proc.Ret ().
Proof.
  destruct (status_probes_fixed_port Sample.start_options Sample.empty_dir 7000%N
              eq_refl eq_refl) as (_ & H & _).
  - discriminate.
  - apply not_elem_of_empty.
  - by rewrite H.
Defined.

(** C6, for [proof-server status]: when the container runtime cannot be
    asked, the command reports the failure and returns, so that the process
    ends with status 0; [proof-server start] ends with status 1 in the same
    world. *)
Theorem status_failure_exits_zero (options : ProofServer.ProofServerOptions)
    (w : Proc.world) :
  ProofServer.dockerUp w = false →
  let r := ProofServer.checkStatus w in
  Proc.status r.1 = Some 0
  ∧ Run.news w r.2
    = [ Proc.Spinner Proc.Start "Checking proof server status...";
        Proc.Exec ("docker ps --filter name=midnight-proof-server --format "
                   +:+ Js.dq +:+ "{{.Names}}" +:+ Js.dq);
        Proc.Spinner Proc.Fail "Failed to check status";
        Proc.ConsoleError
          ("Error: " +:+ "Command failed: "
           +:+ "docker ps --filter name=midnight-proof-server --format "
           +:+ Js.dq +:+ "{{.Names}}" +:+ Js.dq) ]
  ∧ Proc.status (ProofServer.startProofServer options w).1 = Some 1.
Proof.
  intros Hup. cbn zeta. split_and!.
  - unfold ProofServer.checkStatus, ProofServer.dockerPs. munfold. cbn.
    rewrite !dockerUp_set_trace, Hup. reflexivity.
  - unfold ProofServer.checkStatus, ProofServer.dockerPs. munfold. cbn.
    rewrite !dockerUp_set_trace, Hup. cbn.
    erewrite news_app; [|cbn; rewrite <- ?app_assoc; reflexivity]. reflexivity.
  - unfold ProofServer.startProofServer, ProofServer.dockerVersion, ProofServer.dockerInfo.
    munfold. cbn. destruct (Proc.docker_installed w) eqn:Hi; cbn; [|done].
    rewrite !dockerUp_set_trace, Hup. reflexivity.
Qed.

Lemma status_failure_exits_zero_witness :
  Proc.status (ProofServer.checkStatus Sample.no_docker).1 = Some 0
  ∧ Proc.status (ProofServer.startProofServer Sample.start_options Sample.no_docker).1 = Some 1.
Proof.
  destruct (status_failure_exits_zero Sample.start_options Sample.no_docker eq_refl)
    as (H1 & _ & H2).
  by split.
Defined.

(** ** The deployment orchestrator *)

Lemma untouched_refl (w : Proc.world) : Run.untouched w w.
Proof. by split. Qed.

Lemma untouched_trans (w1 w2 w3 : Proc.world) :
  Run.untouched w1 w2 → Run.untouched w2 w3 → Run.untouched w1 w3.
Proof. intros [H1 H2] [H3 H4]. split; congruence. Qed.

Lemma untouched_emit (e : Proc.event) : Run.keeps Run.untouched (Proc.emit e).
Proof. by intros w. Qed.

Lemma untouched_execSync (cmd : string) : Run.keeps Run.untouched (Proc.execSync cmd).
Proof. intros w. unfold Proc.execSync. by case_match. Qed.

Lemma untouched_curlHealth (p : string) : Run.keeps Run.untouched (ProofServer.curlHealth p).
Proof. intros w. unfold ProofServer.curlHealth. by case_match. Qed.

Lemma untouched_random_below (n : Z) : Run.keeps Run.untouched (Proc.random_below n).
Proof. intros w. unfold Proc.random_below. by case_match. Qed.

Lemma untouched_get_bind {A : Type} (k : Proc.world → Proc.M A) :
  (∀ w, Run.keeps Run.untouched (k w)) → Run.keeps Run.untouched (Proc.get ≫= k).
Proof. intros Hk w. apply Hk. Qed.

Ltac untouched_prim :=
  first [ apply untouched_emit | apply untouched_execSync | apply untouched_curlHealth
        | apply untouched_random_below
        | match goal with
          | |- Run.keeps _ (Proc.get ≫= _) => apply untouched_get_bind; intros ?
          end ].

Ltac untouched_tac := keeps_with untouched_refl untouched_trans untouched_prim.

Lemma randomHex_untouched (n : nat) (acc : string) :
  Run.keeps Run.untouched (Deploy.randomHex n acc).
Proof.
  revert acc. induction n as [|n IH]; intros acc; cbn [Deploy.randomHex].
  - untouched_tac.
  - keeps_with untouched_refl untouched_trans ltac:(first [ apply IH | untouched_prim ]).
Qed.

Lemma prepare_untouched (options : Deploy.DeployOptions) :
  Run.keeps Run.untouched (Deploy.prepare options).
Proof. unfold Deploy.prepare. untouched_tac. Qed.

Lemma connect_untouched : Run.keeps Run.untouched Deploy.connect.
Proof. unfold Deploy.connect. untouched_tac. Qed.

Lemma deploymentInfo_untouched (net : Json.json) :
  Run.keeps Run.untouched (Deploy.deploymentInfo net).
Proof.
  unfold Deploy.deploymentInfo, Deploy.generateMockAddress, Deploy.generateMockTxHash.
  keeps_with untouched_refl untouched_trans
    ltac:(first [ apply randomHex_untouched | untouched_prim ]).
Qed.

Lemma display_untouched (info : Json.json) : Run.keeps Run.untouched (Deploy.display info).
Proof. unfold Deploy.display. untouched_tac. Qed.

(** *** Runs that return *)

Lemma bind_returns {A B : Type} (m : Proc.M A) (k : A → Proc.M B) (w : Proc.world) :
  Run.returns ((m ≫= k) w).1 →
  ∃ a, (m w).1 = Proc.Ret a ∧ (m ≫= k) w = k a (m w).2.
Proof.
  unfold mbind, proc_bind, Proc.bind.
  destruct (m w) as [[a|e|c|] w']; cbn; try done. eauto.
Qed.

Lemma try_catch_returns {A : Type} (m : Proc.M A) (h : string → Proc.M A)
    (w : Proc.world) :
  (∀ e w', ¬ Run.returns (h e w').1) →
  Run.returns (Proc.try_catch m h w).1 →
  Run.returns (m w).1 ∧ Proc.try_catch m h w = m w.
Proof.
  intros Hh. unfold Proc.try_catch.
  destruct (m w) as [[a|e|c|] w'] eqn:Hm; cbn; try done.
  intros H. by apply Hh in H.
Qed.

Lemma prepare_returns (options : Deploy.DeployOptions) (w : Proc.world)
    (net : Json.json) (contractFile : string) :
  (Deploy.prepare options w).1 = Proc.Ret (net, contractFile) →
  ∃ config,
    Fs.lookup
      (Fs.resolve (Proc.cwd w)
         (default "midnight.config.json" (Js.or_else (Deploy.configPath options) None)))
      (Proc.files w)
    = Some (Fs.File (Fs.Doc config))
    ∧ Deploy.resolveNetwork options config = Proc.Ok net
    ∧ Deploy.resolveContract options config = Proc.Ok contractFile
    ∧ Fs.exists_ (Fs.resolve (Proc.cwd w) contractFile) (Proc.files w) = true.
Proof.
  unfold Deploy.prepare. munfold. cbn.
  destruct (Fs.exists_ _ _) eqn:Hex; cbn; [|done].
  destruct (Fs.lookup _ _) as [[|[s|config]]|] eqn:Hl; cbn; try done.
  destruct (Deploy.resolveNetwork options config) as [net'|e] eqn:Hn; cbn; [|done].
  destruct (Deploy.resolveContract options config) as [cf|e] eqn:Hc; cbn; [|done].
  destruct (Fs.exists_ (Fs.resolve _ cf) _) eqn:Hex'; cbn; [|done].
  intros [= <- <-]. eauto.
Qed.

Lemma resolveNetwork_flag (options : Deploy.DeployOptions) (config : Json.json) :
  Deploy.network options ≠ "" →
  Deploy.resolveNetwork options config = Proc.Ok (Json.JStr (Deploy.network options)).
Proof.
  intros H. unfold Deploy.resolveNetwork.
  by destruct (Deploy.network options).
Qed.

#[local] Arguments Fs.resolve : simpl never.
#[local] Arguments Deploy.resolveNetwork : simpl never.
#[local] Arguments Deploy.resolveContract : simpl never.

Lemma failure_report_silent (options : Deploy.DeployOptions) (msg : string) :
  Forall Run.silent (Deploy.failure_report options msg).
Proof.
  unfold Deploy.failure_report.
  destruct (default false (Deploy.verbose options)); by repeat constructor.
Qed.

(** C5: a deploy whose configuration file does not exist, or whose compiled
    contract does not exist at the path it resolves, ends with status 1
    after reporting the error; it has run no command, waited for no
    deployment and written nothing, and the file system is the one it
    started from. *)
Theorem deploy_fails_early (options : Deploy.DeployOptions) (w : Proc.world)
    (config : Json.json) (contractFile : string) :
  let r := Deploy.deployCommand options w in
  (Fs.exists_ (Deploy.configFile options w) (Proc.files w) = false →
   r.1 = Proc.Exit 1
   ∧ Proc.files r.2 = Proc.files w
   ∧ Forall Run.silent (Run.news w r.2)
   ∧ Run.news w r.2
     = [ Proc.Console "Deploying Midnight contract...";
         Proc.Spinner Proc.Start "Preparing deployment..." ]
       ++ Deploy.failure_report options
            ("Configuration file not found: " +:+ Deploy.configFile options w))
  ∧ (Fs.lookup (Deploy.configFile options w) (Proc.files w)
       = Some (Fs.File (Fs.Doc config)) →
     Deploy.resolveContract options config = Proc.Ok contractFile →
     Fs.exists_ (Fs.resolve (Proc.cwd w) contractFile) (Proc.files w) = false →
     r.1 = Proc.Exit 1
     ∧ Proc.files r.2 = Proc.files w
     ∧ Forall Run.silent (Run.news w r.2)
     ∧ Run.news w r.2
       = [ Proc.Console "Deploying Midnight contract...";
           Proc.Spinner Proc.Start "Preparing deployment..." ]
         ++ match Deploy.resolveNetwork options config with
            | Proc.Ok _ =>
                [ Proc.Spinner Proc.Status "Checking contract..." ]
                ++ Deploy.failure_report options
                     ("Compiled contract not found at " +:+ contractFile
                      +:+ ". Run 'npm run compile-contract' first.")
            | Proc.Err e => Deploy.failure_report options e
            end).
Proof.
  intros r. unfold r. clear r. split.
  - intros Hex. unfold Deploy.configFile in *.
    unfold Deploy.deployCommand, Deploy.prepare, Deploy.failure_report. munfold. cbn.
    rewrite Hex. cbn.
    destruct (default false (Deploy.verbose options)); cbn;
      (erewrite news_app; [|cbn; rewrite <- ?app_assoc; reflexivity]);
      split_and!; try done; by repeat constructor.
  - intros Hconfig Hcontract Hex. unfold Deploy.configFile in *.
    unfold Deploy.deployCommand, Deploy.prepare, Deploy.failure_report. munfold.
    unfold Fs.exists_ in *. cbn. rewrite Hconfig. cbn. rewrite Hconfig. cbn.
    destruct (Deploy.resolveNetwork options config) as [net|e]; cbn.
    + rewrite Hcontract. cbn. rewrite Hex. cbn.
      destruct (default false (Deploy.verbose options)); cbn;
        (erewrite news_app; [|cbn; rewrite <- ?app_assoc; reflexivity]);
        split_and!; try done; by repeat constructor.
    + destruct (default false (Deploy.verbose options)); cbn;
        (erewrite news_app; [|cbn; rewrite <- ?app_assoc; reflexivity]);
        split_and!; try done; by repeat constructor.
Qed.

Lemma deploy_fails_early_witness :
  (Deploy.deployCommand Sample.to_testnet Sample.empty_dir).1 = Proc.Exit 1
  ∧ (Deploy.deployCommand Sample.to_testnet Sample.in_project).1 = Proc.Exit 1.
Proof.
  split.
  - apply (proj1 (deploy_fails_early Sample.to_testnet Sample.empty_dir
                    Json.JNull "") eq_refl).
  - apply (proj2 (deploy_fails_early Sample.to_testnet Sample.in_project
                    Init.midnightConfig "build/contract.wasm") eq_refl eq_refl eq_refl).
Defined.

(** ** The run of a deploy *)

#[local] Arguments Deploy.deploymentInfo : simpl never.
#[local] Arguments Deploy.prepare : simpl never.

(** Reading the events of an evaluated run off its trace. *)
Ltac read_news :=
  erewrite news_app; [|cbn; rewrite <- ?app_assoc; reflexivity].

Ltac find_event := repeat first [apply list_elem_of_here | apply list_elem_of_further].

Lemma hex_digit (i : Z) :
  0 <= i < 16 →
  ∃ c, String.get (Z.to_nat i) Deploy.hexChars = Some c ∧ More.is_hex c = true.
Proof.
  intros Hi. assert (Hk : (Z.to_nat i < 16)%nat) by lia.
  generalize dependent (Z.to_nat i). intros k Hk.
  do 16 (destruct k as [|k]; [eexists; split; reflexivity|]). lia.
Qed.

Lemma random_below_spec (n : Z) (w : Proc.world) :
  0 < n →
  ∃ i, Proc.random_below n w = (Proc.Ret i, Proc.set_random (drop 1 (Proc.random w)) w)
       ∧ 0 <= i < n.
Proof.
  intros Hn. unfold Proc.random_below. destruct (Proc.random w) as [|r rest] eqn:Hr.
  - exists 0. split; [|lia]. f_equal. destruct w. cbn in *. by subst.
  - exists (r mod n). split; [done|]. by apply Z.mod_pos_bound.
Qed.

Lemma every_snoc (p : ascii → bool) (s : string) (c : ascii) :
  Js.every p (s +:+ String c "") = Js.every p s && p c.
Proof. rewrite every_app. cbn. by rewrite andb_true_r. Qed.

Lemma string_length_app (s t : string) :
  String.length (s +:+ t) = (String.length s + String.length t)%nat.
Proof. induction s as [|a s IH]; [done|]. rewrite string_app_cons. cbn. by rewrite IH. Qed.

Lemma randomHex_spec (n : nat) (acc : string) (w : Proc.world) :
  ∃ h, Deploy.randomHex n acc w
       = (Proc.Ret (acc +:+ h), Proc.set_random (drop n (Proc.random w)) w)
       ∧ String.length h = n
       ∧ Js.every More.is_hex h = true.
Proof.
  revert acc w. induction n as [|n IH]; intros acc w.
  - exists "". rewrite string_app_nil_r. split_and!; try done.
    cbn. f_equal. by destruct w.
  - cbn [Deploy.randomHex].
    destruct (random_below_spec (Z.of_nat (String.length Deploy.hexChars)) w)
      as (i & Hi & Hrange); [done|].
    destruct (hex_digit i Hrange) as (c & Hc & Hhex).
    unfold mbind, proc_bind, Proc.bind. rewrite Hi, Hc.
    destruct (IH (acc +:+ String c "") (Proc.set_random (drop 1 (Proc.random w)) w))
      as (h & Hrun & Hlen & Hall).
    exists (String c h). rewrite Hrun. split_and!.
    + f_equal; [by rewrite string_app_assoc|].
      unfold Proc.set_random. cbn. by rewrite drop_drop.
    + cbn. by rewrite Hlen.
    + cbn. by rewrite Hhex, Hall.
Qed.

(** The record of a deployment, and the draws it takes. *)
Lemma deploymentInfo_run (net : Json.json) (w : Proc.world) :
  ∃ info a h b,
    Deploy.deploymentInfo net w
    = (Proc.Ret info, Proc.set_random (drop 105 (Proc.random w)) w)
    ∧ info = Json.obj [ ("network", net);
                        ("contractAddress", Json.JStr ("mn_contract_" +:+ a));
                        ("transactionHash", Json.JStr ("0x" +:+ h));
                        ("blockNumber", Json.JNum b);
                        ("timestamp", Json.JStr (Proc.clock w)) ]
    ∧ String.length a = 40%nat ∧ Js.every More.is_hex a = true
    ∧ String.length h = 64%nat ∧ Js.every More.is_hex h = true
    ∧ 0 <= b < 1000000.
Proof.
  unfold Deploy.deploymentInfo, Deploy.generateMockAddress, Deploy.generateMockTxHash.
  destruct (randomHex_spec 40 "mn_contract_" w) as (a & Ha & Hla & Hxa).
  set (w1 := Proc.set_random (drop 40 (Proc.random w)) w) in *.
  destruct (randomHex_spec 64 "0x" w1) as (h & Hh & Hlh & Hxh).
  set (w2 := Proc.set_random (drop 64 (Proc.random w1)) w1) in *.
  destruct (random_below_spec 1000000 w2) as (b & Hb & Hrange); [done|].
  unfold mbind, proc_bind, Proc.bind. rewrite Ha, Hh, Hb. cbn.
  eexists _, a, h, b. split_and!; try done; try lia.
  f_equal. unfold Proc.set_random. cbn. f_equal.
  rewrite !drop_drop. f_equal.
Qed.

Lemma prepare_ok (options : Deploy.DeployOptions) (w : Proc.world)
    (config net : Json.json) (contractFile : string) :
  Fs.lookup (Deploy.configFile options w) (Proc.files w) = Some (Fs.File (Fs.Doc config)) →
  Deploy.resolveNetwork options config = Proc.Ok net →
  Deploy.resolveContract options config = Proc.Ok contractFile →
  Fs.exists_ (Fs.resolve (Proc.cwd w) contractFile) (Proc.files w) = true →
  ∀ t, Deploy.prepare options (Proc.set_trace t w)
       = (Proc.Ret (net, contractFile),
          Proc.set_trace (t ++ [Proc.Spinner Proc.Status "Checking contract..."]) w).
Proof.
  intros Hconfig Hnet Hcontract Hex t. unfold Deploy.configFile in *.
  unfold Deploy.prepare. munfold. unfold Fs.exists_ in *. cbn.
  rewrite Hconfig. cbn. rewrite Hconfig. cbn. rewrite Hnet. cbn.
  rewrite Hcontract. cbn. by rewrite Hex.
Qed.

Lemma connect_run (w : Proc.world) (t : list Proc.event) :
  let curl := "curl -s " +:+ ProofServer.healthUrl "6300" in
  let start := "midnight proof-server start" in
  Deploy.connect (Proc.set_trace t w)
  = if More.probed w then (Proc.Ret (), Proc.set_trace (t ++ [Proc.Exec curl]) w)
    else
      let t' := t ++ [ Proc.Exec curl;
                       Proc.Spinner Proc.Warn "Proof server not running. Starting it now...";
                       Proc.Exec start ] in
      if bool_decide (start ∈ Proc.failing w)
      then (Proc.Throw ("Command failed: " +:+ start), Proc.set_trace t' w)
      else (Proc.Ret (), Proc.set_trace t' w).
Proof.
  intros curl start. unfold Deploy.connect, ProofServer.curlHealth, More.probed.
  munfold. cbn. rewrite answering_set_trace. fold curl.
  destruct (ProofServer.answering "6300" w && negb (bool_decide (curl ∈ Proc.failing w)));
    [done|].
  cbn. rewrite <- !app_assoc. cbn. rewrite !set_trace_twice. reflexivity.
Qed.

Lemma set_trace_random (t : list Proc.event) (r : list Z) (w : Proc.world) :
  Proc.set_trace t (Proc.set_random r w) = Proc.set_random r (Proc.set_trace t w).
Proof. reflexivity. Qed.

Lemma deploymentInfo_record (net : Json.json) (w : Proc.world) (t : list Proc.event) :
  ∃ info, Deploy.deploymentInfo net (Proc.set_trace t w)
          = (Proc.Ret info,
             Proc.set_random (drop 105 (Proc.random w)) (Proc.set_trace t w))
          ∧ More.record net w info.
Proof.
  destruct (deploymentInfo_run net (Proc.set_trace t w)) as (info & a & h & b & E & H).
  exists info. split; [exact E|]. by exists a, h, b.
Qed.

(** *** Values whose numbers are doubles *)

Lemma exact_obj (m : gmap string Json.json) :
  Json.exact (Json.JObj m) = true ↔ map_Forall (λ _ v, Json.exact v = true) m.
Proof.
  change (Json.exact (Json.JObj m))
    with (map_fold (λ (_ : string) v acc, Json.exact v && acc) true m).
  induction m as [|k v m Hk IH] using map_ind.
  - rewrite map_fold_empty. split; [intros _; apply map_Forall_empty | done].
  - rewrite map_fold_insert_L; [| |done].
    + rewrite andb_true_iff, map_Forall_insert by done. by rewrite IH.
    + intros j1 j2 z1 z2 y _ _ _. by destruct (Json.exact z1), (Json.exact z2).
Qed.

Lemma exact_set (k : string) (v : Json.json) (m : gmap string Json.json) :
  Json.exact (Json.JObj m) = true → Json.exact v = true →
  Json.exact (Json.JObj (Json.set k v m)) = true.
Proof.
  intros Hm Hv. unfold Json.set. case_match; [done|].
  apply exact_obj, map_Forall_insert_2; [done|]. by apply exact_obj.
Qed.

Lemma record_exact (N : string) (w : Proc.world) (info : Json.json) :
  More.record (Json.JStr N) w info → Json.exact info = true.
Proof.
  intros (a & h & b & -> & _ & _ & _ & _ & Hb).
  unfold Json.obj. cbn [list_to_map foldr]. apply exact_obj.
  repeat match goal with
         | |- map_Forall _ (<[_:=_]> _) => apply map_Forall_insert_2
         | |- map_Forall _ ∅ => apply map_Forall_empty
         end; try done.
  cbn [Json.exact snd]. unfold Js.is_double. cbv zeta.
  assert ((Z.abs b <? 2 ^ 53) = true) as ->; [|done].
  apply Z.ltb_lt. change (2 ^ 53) with 9007199254740992. lia.
Qed.

(** *** What the assignment to the ledger does *)




Lemma ledger_stored (w : Proc.world) (m : gmap string Json.json) :
  Deploy.ledger w = Some m → More.stored w = Some (Json.JObj m).
Proof.
  unfold Deploy.ledger, More.stored.
  destruct (Fs.lookup _ _) as [[|[s|[| | | |m']]]|]; try done; by intros [= <-].
Qed.

Lemma filed_ledger (key : string) (info : Json.json) (w : Proc.world)
    (m : gmap string Json.json) :
  Deploy.ledger w = Some m →
  More.filed key info w = Some (Json.JObj (Json.set key info m)).
Proof. intros H. unfold More.filed. by rewrite (ledger_stored w m H). Qed.

(** Without an object to assign to, only the key [__proto__] gets through,
    and then the value read is written back. *)
Lemma filed_no_ledger (key : string) (info d' : Json.json) (w : Proc.world) :
  Deploy.ledger w = None → More.filed key info w = Some d' →
  key = "__proto__"
  ∧ Fs.lookup (Deploy.deploymentsPath w) (Proc.files w) = Some (Fs.File (Fs.Doc d'))
  ∧ ∀ m, d' ≠ Json.JObj m.
Proof.
  unfold Deploy.ledger, More.filed, More.stored.
  destruct (Fs.lookup _ _) as [[|[s|[| | | |m']]]|]; try done; cbn;
    intros _; destruct (String.eqb key "__proto__") eqn:E; try done;
    apply String.eqb_eq in E; by intros [= <-].
Qed.

Lemma save_ok (net info d' : Json.json) (w : Proc.world) :
  More.filed (Json.to_string net) info w = Some d' →
  ∀ t r,
    Deploy.save net info (Proc.set_random r (Proc.set_trace t w))
    = (Proc.Ret (),
       Proc.set_files
         (Fs.put (Deploy.deploymentsPath w) (Fs.File (Fs.Doc d')) (Proc.files w))
         (Proc.set_random r
            (Proc.set_trace (t ++ [Proc.WriteFile (Deploy.deploymentsPath w) (Fs.Doc d')])
               w))).
Proof.
  intros Hd t r. unfold Deploy.save. munfold. unfold Fs.exists_. cbn.
  change (Deploy.deploymentsPath (Proc.set_random r (Proc.set_trace t w)))
    with (Deploy.deploymentsPath w).
  unfold More.filed, More.stored in Hd.
  destruct (Fs.lookup _ _) as [[|[s|d]]|] eqn:Hl; try done; cbn in Hd |- *.
  - rewrite Hl. cbn. destruct (Deploy.assign d _ info) as [d''|e]; [|done].
    injection Hd as ->. cbn. by rewrite Hl.
  - injection Hd as <-. cbn. by rewrite Hl.
Qed.

Lemma save_fails (net info : Json.json) (w : Proc.world) :
  More.filed (Json.to_string net) info w = None →
  ∀ t r, ∃ e,
    Deploy.save net info (Proc.set_random r (Proc.set_trace t w))
    = (Proc.Throw e, Proc.set_random r (Proc.set_trace t w)).
Proof.
  intros Hd t r. unfold Deploy.save. munfold. unfold Fs.exists_. cbn.
  change (Deploy.deploymentsPath (Proc.set_random r (Proc.set_trace t w)))
    with (Deploy.deploymentsPath w).
  unfold More.filed, More.stored in Hd.
  destruct (Fs.lookup _ _) as [[|[s|d]]|] eqn:Hl; try done; cbn in Hd |- *;
    rewrite ?Hl; cbn; eauto.
  destruct (Deploy.assign d _ info) as [d''|e]; [done|]. cbn. eauto.
Qed.

#[local] Arguments Deploy.connect : simpl never.
#[local] Arguments Deploy.save : simpl never.

(** The run of a deploy that has found its configuration and its contract:
    it fails where the proof server neither answers nor starts and where
    the record cannot be filed, and returns otherwise. *)
Lemma deployCommand_run (options : Deploy.DeployOptions) (w : Proc.world)
    (config net : Json.json) (contractFile : string) :
  let r := Deploy.deployCommand options w in
  let curl := "curl -s " +:+ ProofServer.healthUrl "6300" in
  let start := "midnight proof-server start" in
  Fs.lookup (Deploy.configFile options w) (Proc.files w) = Some (Fs.File (Fs.Doc config)) →
  Deploy.resolveNetwork options config = Proc.Ok net →
  Deploy.resolveContract options config = Proc.Ok contractFile →
  Fs.exists_ (Fs.resolve (Proc.cwd w) contractFile) (Proc.files w) = true →
  if negb (More.probed w) && bool_decide (start ∈ Proc.failing w)
  then r.1 = Proc.Exit 1
  else
    ∃ info,
      More.record net w info
      ∧ match More.filed (Json.to_string net) info w with
        | None => r.1 = Proc.Exit 1
        | Some d' =>
            ∃ t,
              r = (Proc.Ret (),
                   Proc.set_files
                     (Fs.put (Deploy.deploymentsPath w) (Fs.File (Fs.Doc d'))
                        (Proc.files w))
                     (Proc.set_random (drop 105 (Proc.random w))
                        (Proc.set_trace (Proc.trace w ++ t) w)))
              ∧ Run.execs t = curl :: (if More.probed w then [] else [start])
              ∧ Proc.Sleep 3000 ∈ t
              ∧ filter Proc.mutates t
                = [ Proc.WriteFile (Deploy.deploymentsPath w) (Fs.Doc d') ]
        end.
Proof.
  intros r curl start Hconfig Hnet Hcontract Hex. unfold r. clear r.
  unfold Deploy.deployCommand, Deploy.simulateDeployment, Deploy.display.
  munfold. cbn. rewrite !set_trace_twice.
  rewrite (prepare_ok options w config net contractFile Hconfig Hnet Hcontract Hex).
  cbn. rewrite !set_trace_twice, connect_run. fold start.
  destruct (More.probed w) eqn:Hp; cbn [negb andb];
    [|case_bool_decide as Hs; [cbn; by destruct (default false (Deploy.verbose options))|]];
    cbn; rewrite !set_trace_twice;
    match goal with
    | |- context [Deploy.deploymentInfo net (Proc.set_trace ?T w)] =>
        destruct (deploymentInfo_record net w T) as (info & E & Hinfo); rewrite E
    end;
    cbn; rewrite !set_trace_random, !set_trace_twice; exists info; (split; [done|]);
    destruct (More.filed (Json.to_string net) info w) as [d'|] eqn:Hd.
  all: match goal with
       | Hd : More.filed _ ?i ?w = _
         |- context [Deploy.save ?n ?i (Proc.set_random ?R (Proc.set_trace ?T ?w))] =>
           first [ rewrite (save_ok n i _ w Hd T R)
                 | destruct (save_fails n i w Hd T R) as (e & ->) ]
       end; cbn.
  all: try by destruct (default false (Deploy.verbose options)).
  all: rewrite <- ?app_assoc; cbn; eexists; (split; [reflexivity|]);
       split_and!; try done; find_event.
Qed.

(** A deploy that returns has found its configuration and its contract. *)
Lemma deployCommand_prepared (options : Deploy.DeployOptions) (w : Proc.world) :
  Run.returns (Deploy.deployCommand options w).1 →
  ∃ config net contractFile,
    Fs.lookup (Deploy.configFile options w) (Proc.files w) = Some (Fs.File (Fs.Doc config))
    ∧ Deploy.resolveNetwork options config = Proc.Ok net
    ∧ Deploy.resolveContract options config = Proc.Ok contractFile
    ∧ Fs.exists_ (Fs.resolve (Proc.cwd w) contractFile) (Proc.files w) = true.
Proof.
  intros H. unfold Deploy.deployCommand in H.
  destruct (bind_returns _ _ _ H) as (u1 & _ & E). rewrite E in H. clear E.
  destruct (bind_returns _ _ _ H) as (u2 & _ & E). rewrite E in H. clear E.
  apply try_catch_returns in H as [H _];
    [|intros e w'; munfold; cbn;
      destruct (default false (Deploy.verbose options)); cbn; tauto].
  destruct (bind_returns _ _ _ H) as ([net contractFile] & Ha & _).
  destruct (prepare_returns _ _ _ _ Ha) as (config & Hconfig & Hn & Hc & Hex).
  by exists config, net, contractFile.
Qed.

(** The run of a deploy that returns. *)
Lemma deployCommand_returns (options : Deploy.DeployOptions) (w : Proc.world) :
  let r := Deploy.deployCommand options w in
  Run.returns r.1 →
  ∃ config net info d',
    Fs.lookup (Deploy.configFile options w) (Proc.files w) = Some (Fs.File (Fs.Doc config))
    ∧ Deploy.resolveNetwork options config = Proc.Ok net
    ∧ More.record net w info
    ∧ More.filed (Json.to_string net) info w = Some d'
    ∧ Proc.cwd r.2 = Proc.cwd w
    ∧ Proc.clock r.2 = Proc.clock w
    ∧ Proc.files r.2
      = Fs.put (Deploy.deploymentsPath w) (Fs.File (Fs.Doc d')) (Proc.files w).
Proof.
  intros r H.
  destruct (deployCommand_prepared options w H) as (config & net & cf & Hconfig & Hn & Hc & Hex).
  pose proof (deployCommand_run options w config net cf Hconfig Hn Hc Hex) as Hrun.
  cbv zeta in Hrun. fold r in Hrun.
  destruct (negb (More.probed w) && bool_decide (_ ∈ Proc.failing w));
    [by rewrite Hrun in H|].
  destruct Hrun as (info & Hinfo & Hrun).
  destruct (More.filed (Json.to_string net) info w) as [d'|] eqn:Hd;
    [|by rewrite Hrun in H].
  destruct Hrun as (t & -> & _).
  by exists config, net, info, d'.
Qed.



(** ** The ledger of deployments *)




(** ** The network of a deploy *)




(** * Further properties *)

(** ** The proof-server manager, continued *)

Lemma curl_ok (p : string) (w : Proc.world) :
  ProofServer.answering p w = true →
  "curl -s " +:+ ProofServer.healthUrl p ∉ Proc.failing w →
  ∀ t, ProofServer.curlHealth p (Proc.set_trace t w)
       = (Proc.Ret (),
          Proc.set_trace (t ++ [Proc.Exec ("curl -s " +:+ ProofServer.healthUrl p)]) w).
Proof.
  intros Ha Hf t. unfold ProofServer.curlHealth. cbn.
  rewrite answering_set_trace, Ha, bool_decide_eq_false_2 by done. reflexivity.
Qed.

Lemma curl_silent (p : string) (w : Proc.world) :
  ProofServer.answering p w = false →
  ∀ t, ProofServer.curlHealth p (Proc.set_trace t w)
       = (Proc.Throw ("Command failed: " +:+ "curl -s " +:+ ProofServer.healthUrl p),
          Proc.set_trace (t ++ [Proc.Exec ("curl -s " +:+ ProofServer.healthUrl p)]) w).
Proof.
  intros Ha t. unfold ProofServer.curlHealth. cbn.
  rewrite answering_set_trace, Ha. reflexivity.
Qed.

(** X1: [start] when the health probe of the port is answered: the two
    checks of the container runtime and the probe are all it runs; it
    reports that the server is already running and returns, and the
    container runtime is as it was. *)
Theorem start_already_running (options : ProofServer.ProofServerOptions)
    (w : Proc.world) :
  let p := default "6300" (Js.or_else (ProofServer.port options) None) in
  let r := ProofServer.startProofServer options w in
  ProofServer.dockerUp w = true →
  ProofServer.answering p w = true →
  "curl -s " +:+ ProofServer.healthUrl p ∉ Proc.failing w →
  r.1 = Proc.Ret ()
  ∧ Run.news w r.2
    = [ Proc.Spinner Proc.Start "Starting proof server...";
        Proc.Exec "docker --version";
        Proc.Exec "docker info";
        Proc.Exec ("curl -s " +:+ ProofServer.healthUrl p);
        Proc.Spinner Proc.Warn ("Proof server is already running on port " +:+ p) ]
  ∧ More.same_runtime w r.2.
Proof.
  intros p r Hup Ha Hf. unfold r. clear r.
  pose proof Hup as Hup'. unfold ProofServer.dockerUp in Hup'.
  apply andb_true_iff in Hup' as [Hi Hd].
  unfold ProofServer.startProofServer, ProofServer.dockerVersion, ProofServer.dockerInfo.
  fold p. munfold. cbn. rewrite Hi. cbn. rewrite !dockerUp_set_trace, Hup. cbn.
  rewrite !set_trace_twice, (curl_ok p w Ha Hf). cbn.
  split_and!; [done | by read_news | done].
Qed.

Lemma start_already_running_witness :
  (ProofServer.startProofServer Sample2.default_start Sample2.serving).1 = Proc.Ret ()
  ∧ Proc.container (ProofServer.startProofServer Sample2.default_start Sample2.serving).2
    = Proc.container Sample2.serving.
Proof.
  destruct (start_already_running Sample2.default_start Sample2.serving eq_refl eq_refl)
    as (H1 & _ & H2 & _).
  - apply not_elem_of_empty.
  - by split.
Defined.

(** X2: the two checks [start] makes of the container runtime fail apart:
    without Docker only [docker --version] is run, with Docker and no
    daemon [docker info] is run too; each ends the process with status 1
    under its own message, and nothing is pulled or started. *)
Theorem start_preflight (options : ProofServer.ProofServerOptions) (w : Proc.world) :
  let r := ProofServer.startProofServer options w in
  (Proc.docker_installed w = false →
   r.1 = Proc.Exit 1
   ∧ Run.news w r.2
     = [ Proc.Spinner Proc.Start "Starting proof server...";
         Proc.Exec "docker --version";
         Proc.Spinner Proc.Fail "Failed to start proof server";
         Proc.ConsoleError
           "Error: Docker is not installed. Please install Docker Desktop first." ]
   ∧ More.same_runtime w r.2)
  ∧ (Proc.docker_installed w = true → Proc.docker_daemon w = false →
     r.1 = Proc.Exit 1
     ∧ Run.news w r.2
       = [ Proc.Spinner Proc.Start "Starting proof server...";
           Proc.Exec "docker --version";
           Proc.Exec "docker info";
           Proc.Spinner Proc.Fail "Failed to start proof server";
           Proc.ConsoleError "Error: Docker is not running. Please start Docker Desktop." ]
     ∧ More.same_runtime w r.2).
Proof.
  intros r. unfold r. clear r. split.
  - intros Hi.
    unfold ProofServer.startProofServer, ProofServer.dockerVersion. munfold. cbn.
    rewrite Hi. cbn. split_and!; [done | by read_news | done].
  - intros Hi Hd.
    unfold ProofServer.startProofServer, ProofServer.dockerVersion, ProofServer.dockerInfo.
    munfold. cbn. rewrite Hi. cbn.
    rewrite !dockerUp_set_trace. unfold ProofServer.dockerUp. rewrite Hi, Hd. cbn.
    split_and!; [done | by read_news | done].
Qed.

Lemma start_preflight_witness :
  (ProofServer.startProofServer Sample.start_options Sample.no_docker).1 = Proc.Exit 1
  ∧ (ProofServer.startProofServer Sample.start_options Sample2.daemon_down).1 = Proc.Exit 1.
Proof.
  split.
  - apply (proj1 (start_preflight Sample.start_options Sample.no_docker) eq_refl).
  - apply (proj2 (start_preflight Sample.start_options Sample2.daemon_down) eq_refl eq_refl).
Defined.
Lemma launch_ok (p : string) (n : N) (w : Proc.world) (t : list Proc.event) :
  Js.read_nat p = Some n →
  ProofServer.dockerUp w = true →
  Proc.container w = None →
  (n <= 65535)%N →
  ProofServer.published n w ∉ Proc.listeners w →
  ProofServer.launch p (Proc.set_trace t w)
  = Some (Proc.set_container (Some (ProofServer.published n w)) (Proc.set_trace t w)).
Proof.
  intros Hn Hup Hc Hle Hfree. unfold ProofServer.launch. rewrite Hn.
  rewrite dockerUp_set_trace, Hup. cbn. rewrite Hc.
  rewrite bool_decide_eq_true_2 by done.
  apply N.leb_le in Hle. rewrite Hle.
  change (ProofServer.published n (Proc.set_trace t w)) with (ProofServer.published n w).
  rewrite bool_decide_eq_false_2 by done. reflexivity.
Qed.

(** The run of [start] that brings the container up. *)
Lemma startProofServer_launches (options : ProofServer.ProofServerOptions) (w : Proc.world)
    (n : N) :
  let p := default "6300" (Js.or_else (ProofServer.port options) None) in
  ProofServer.dockerUp w = true →
  ProofServer.answering p w = false →
  Js.read_nat p = Some n →
  Proc.container w = None →
  (n <= 65535)%N →
  ProofServer.published n w ∉ Proc.listeners w →
  (ProofServer.flag (ProofServer.detached options) = true →
   ProofServer.dockerCmd true p ∉ Proc.failing w) →
  ∃ t, ProofServer.startProofServer options w
       = (Proc.Ret (),
          Proc.set_container (Some (ProofServer.published n w))
            (Proc.set_trace (Proc.trace w ++ t) w))
       ∧ ("docker pull midnightnetwork/proof-server:latest" ∈ Proc.failing w →
          Proc.Spinner Proc.Warn "Could not pull latest image, using local version" ∈ t).
Proof.
  intros p Hup Ha Hn Hc Hle Hfree Hcmd.
  pose proof Hup as Hup'. unfold ProofServer.dockerUp in Hup'.
  apply andb_true_iff in Hup' as [Hi Hd].
  unfold ProofServer.startProofServer, ProofServer.dockerVersion, ProofServer.dockerInfo,
    ProofServer.dockerRun, ProofServer.spawnRun.
  fold p. munfold. cbn. rewrite Hi. cbn. rewrite !dockerUp_set_trace, Hup. cbn.
  rewrite !set_trace_twice, (curl_silent p w Ha). cbn.
  destruct (bool_decide ("docker pull midnightnetwork/proof-server:latest" ∈ Proc.failing w))
    eqn:Hpull; cbn;
    destruct (ProofServer.flag (ProofServer.detached options)) eqn:Hdet; cbn;
    rewrite ?(bool_decide_eq_false_2 _ (Hcmd eq_refl));
    rewrite !set_trace_twice, (launch_ok p n w _ Hn Hup Hc Hle Hfree); cbn;
    (eexists; split; [rewrite <- ?app_assoc; reflexivity|]);
    first [ by (intros Hin; apply bool_decide_eq_false in Hpull)
          | (intros _; cbn;
             repeat first [ apply list_elem_of_here | apply list_elem_of_further ]) ].
Qed.

(** X3: [start] when the runtime is up, the port is free and no container
    runs: the container is brought up on the port, attached or detached,
    and [start] returns; a pull of the image that fails is reported with a
    warning and stops nothing. *)
Theorem start_launches (options : ProofServer.ProofServerOptions) (w : Proc.world)
    (n : N) :
  let p := default "6300" (Js.or_else (ProofServer.port options) None) in
  let r := ProofServer.startProofServer options w in
  ProofServer.dockerUp w = true →
  ProofServer.answering p w = false →
  Js.read_nat p = Some n →
  Proc.container w = None →
  (n <= 65535)%N →
  ProofServer.published n w ∉ Proc.listeners w →
  (ProofServer.flag (ProofServer.detached options) = true →
   ProofServer.dockerCmd true p ∉ Proc.failing w) →
  r.1 = Proc.Ret ()
  ∧ Proc.container r.2 = Some (ProofServer.published n w)
  ∧ Proc.files r.2 = Proc.files w
  ∧ Proc.listeners r.2 = Proc.listeners w
  ∧ Proc.failing r.2 = Proc.failing w
  ∧ Proc.server_healthy r.2 = Proc.server_healthy w
  ∧ ProofServer.dockerUp r.2 = true
  ∧ ("docker pull midnightnetwork/proof-server:latest" ∈ Proc.failing w →
     Proc.Spinner Proc.Warn "Could not pull latest image, using local version"
     ∈ Run.news w r.2).
Proof.
  intros p r Hup Ha Hn Hc Hle Hfree Hcmd. unfold r. clear r.
  destruct (startProofServer_launches options w n Hup Ha Hn Hc Hle Hfree Hcmd)
    as (t & E & Hwarn).
  fold p in E. rewrite E. cbn. split_and!; try done.
  intros Hin. rewrite (news_app _ _ t) by done. by apply Hwarn.
Qed.

Lemma start_launches_witness :
  Proc.container (ProofServer.startProofServer Sample.start_options Sample2.offline).2
  = Some 7000%N.
Proof.
  destruct (start_launches Sample.start_options Sample2.offline 7000%N
              eq_refl eq_refl eq_refl eq_refl) as (_ & H & _).
  - discriminate.
  - apply not_elem_of_empty.
  - intros _. unfold Sample2.offline. cbn. rewrite elem_of_singleton. discriminate.
  - exact H.
Defined.

(** The two runs of [stop]. *)
Lemma stopProofServer_stops (w : Proc.world) :
  ProofServer.dockerUp w = true → Proc.container w ≠ None →
  ProofServer.stopProofServer w
  = (Proc.Ret (),
     Proc.set_container None
       (Proc.set_trace
          (Proc.trace w
           ++ [ Proc.Spinner Proc.Start "Stopping proof server...";
                Proc.Exec "docker stop midnight-proof-server";
                Proc.Spinner Proc.Succeed "Proof server stopped" ]) w)).
Proof.
  intros Hup Hc. unfold ProofServer.stopProofServer, ProofServer.dockerStop.
  munfold. cbn. rewrite !dockerUp_set_trace, Hup.
  rewrite bool_decide_eq_true_2 by done. cbn. by rewrite <- !app_assoc.
Qed.

Lemma stopProofServer_idle (w : Proc.world) :
  ProofServer.dockerUp w = false ∨ Proc.container w = None →
  ProofServer.stopProofServer w
  = (Proc.Ret (),
     Proc.set_trace
       (Proc.trace w
        ++ [ Proc.Spinner Proc.Start "Stopping proof server...";
             Proc.Exec "docker stop midnight-proof-server";
             Proc.Spinner Proc.Warn "Proof server is not running" ]) w).
Proof.
  intros H. unfold ProofServer.stopProofServer, ProofServer.dockerStop.
  munfold. cbn. rewrite !dockerUp_set_trace.
  assert (ProofServer.dockerUp w && bool_decide (Proc.container w ≠ None) = false) as ->.
  { destruct H as [->| ->]; [done|]. rewrite bool_decide_eq_false_2 by auto.
    apply andb_false_r. }
  cbn. by rewrite <- !app_assoc.
Qed.

(** X4: [stop] always returns: it stops the container when one runs and
    reports it; when none runs, or the runtime cannot be asked, it warns
    that the server is not running and leaves the container runtime as it
    was.  The file system is never touched. *)
Theorem stop_never_fails (w : Proc.world) :
  let r := ProofServer.stopProofServer w in
  r.1 = Proc.Ret ()
  ∧ Proc.files r.2 = Proc.files w
  ∧ (ProofServer.dockerUp w = true → Proc.container w ≠ None →
     Proc.container r.2 = None
     ∧ Run.news w r.2
       = [ Proc.Spinner Proc.Start "Stopping proof server...";
           Proc.Exec "docker stop midnight-proof-server";
           Proc.Spinner Proc.Succeed "Proof server stopped" ])
  ∧ (ProofServer.dockerUp w = false ∨ Proc.container w = None →
     More.same_runtime w r.2
     ∧ Run.news w r.2
       = [ Proc.Spinner Proc.Start "Stopping proof server...";
           Proc.Exec "docker stop midnight-proof-server";
           Proc.Spinner Proc.Warn "Proof server is not running" ]).
Proof.
  intros r. unfold r. clear r.
  assert (Hcases : (ProofServer.dockerUp w = true ∧ Proc.container w ≠ None)
                   ∨ (ProofServer.dockerUp w = false ∨ Proc.container w = None)).
  { destruct (ProofServer.dockerUp w), (Proc.container w); auto. }
  destruct Hcases as [[Hup Hc]|Hidle].
  - rewrite (stopProofServer_stops w Hup Hc). cbn. split_and!; try done.
    + intros _ _. split; [done | by read_news].
    + intros [Hup'|Hc']; congruence.
  - rewrite (stopProofServer_idle w Hidle). cbn. split_and!; try done.
    + intros Hup Hc. destruct Hidle; congruence.
    + intros _. split; [done | by read_news].
Qed.

Lemma stop_never_fails_witness :
  Proc.container (ProofServer.stopProofServer Sample2.serving).2 = None.
Proof.
  destruct (stop_never_fails Sample2.serving) as (_ & _ & H & _).
  apply H; [reflexivity | discriminate].
Defined.

(** The probe of the default port. *)
Lemma curlHealth_6300 (w : Proc.world) (t : list Proc.event) :
  ProofServer.curlHealth "6300" (Proc.set_trace t w)
  = (if More.probed w then Proc.Ret ()
     else Proc.Throw ("Command failed: " +:+ "curl -s http://localhost:6300/health"),
     Proc.set_trace (t ++ [Proc.Exec "curl -s http://localhost:6300/health"]) w).
Proof.
  unfold ProofServer.curlHealth, More.probed. cbn. rewrite answering_set_trace.
  by destruct (_ && _).
Qed.

(** The three runs of [status] where the container runtime answers. *)
Lemma checkStatus_idle (w : Proc.world) :
  ProofServer.dockerUp w = true → Proc.container w = None →
  ProofServer.checkStatus w
  = (Proc.Ret (),
     Proc.set_trace
       (Proc.trace w
        ++ [ Proc.Spinner Proc.Start "Checking proof server status...";
             Proc.Exec ("docker ps --filter name=midnight-proof-server --format "
                        +:+ Js.dq +:+ "{{.Names}}" +:+ Js.dq);
             Proc.Spinner Proc.Info "Proof server is not running";
             Proc.Console ("Run " +:+ Js.dq +:+ "midnight proof-server start" +:+ Js.dq
                           +:+ " to start the server") ]) w).
Proof.
  intros Hup Hc. unfold ProofServer.checkStatus, ProofServer.dockerPs. munfold. cbn.
  rewrite !dockerUp_set_trace, Hup. cbn. rewrite Hc.
  change (Js.truthy (Js.trim "")) with false. cbn. by rewrite <- !app_assoc.
Qed.

Lemma checkStatus_healthy (w : Proc.world) :
  ProofServer.dockerUp w = true → Proc.container w ≠ None → More.probed w = true →
  ProofServer.checkStatus w
  = (Proc.Ret (),
     Proc.set_trace
       (Proc.trace w
        ++ [ Proc.Spinner Proc.Start "Checking proof server status...";
             Proc.Exec ("docker ps --filter name=midnight-proof-server --format "
                        +:+ Js.dq +:+ "{{.Names}}" +:+ Js.dq);
             Proc.Exec "curl -s http://localhost:6300/health";
             Proc.Spinner Proc.Succeed "Proof server is running and healthy";
             Proc.Exec ("docker ps --filter name=midnight-proof-server --format "
                        +:+ Js.dq +:+ "table {{.Status}}\t{{.Ports}}" +:+ Js.dq);
             Proc.Console "Server Details:";
             Proc.Console ("Up  " +:+ ProofServer.portsColumn w +:+ Init.nl) ]) w).
Proof.
  intros Hup Hc Hp. unfold ProofServer.checkStatus, ProofServer.dockerPs. munfold. cbn.
  rewrite !dockerUp_set_trace, Hup. cbn.
  destruct (Proc.container w) as [q|] eqn:Hq; [|done].
  rewrite container_name_truthy. cbn. rewrite !set_trace_twice, curlHealth_6300, Hp. cbn.
  rewrite !dockerUp_set_trace, Hup. cbn. rewrite Hq. cbn. by rewrite <- !app_assoc.
Qed.

Lemma checkStatus_unresponsive (w : Proc.world) :
  ProofServer.dockerUp w = true → Proc.container w ≠ None → More.probed w = false →
  ProofServer.checkStatus w
  = (Proc.Ret (),
     Proc.set_trace
       (Proc.trace w
        ++ [ Proc.Spinner Proc.Start "Checking proof server status...";
             Proc.Exec ("docker ps --filter name=midnight-proof-server --format "
                        +:+ Js.dq +:+ "{{.Names}}" +:+ Js.dq);
             Proc.Exec "curl -s http://localhost:6300/health";
             Proc.Spinner Proc.Warn
               "Proof server container is running but not responding" ]) w).
Proof.
  intros Hup Hc Hp. unfold ProofServer.checkStatus, ProofServer.dockerPs. munfold. cbn.
  rewrite !dockerUp_set_trace, Hup. cbn.
  destruct (Proc.container w) as [q|] eqn:Hq; [|done].
  rewrite container_name_truthy. cbn. rewrite !set_trace_twice, curlHealth_6300, Hp. cbn.
  by rewrite <- !app_assoc.
Qed.

Lemma probed_true (w : Proc.world) :
  ProofServer.answering "6300" w = true →
  "curl -s http://localhost:6300/health" ∉ Proc.failing w →
  More.probed w = true.
Proof.
  intros Ha Hf. unfold More.probed. rewrite Ha. cbn.
  by rewrite bool_decide_eq_false_2.
Qed.

Lemma probed_false (w : Proc.world) :
  ProofServer.answering "6300" w = false → More.probed w = false.
Proof. intros Ha. unfold More.probed. by rewrite Ha. Qed.

(** X5: what [status] reports when the container runtime answers: no
    container, "not running"; a container and an answer on port 6300,
    "running and healthy", with the details of the container; a container
    and no answer, "running but not responding".  In each case it returns. *)
Theorem status_report (w : Proc.world) :
  let r := ProofServer.checkStatus w in
  ProofServer.dockerUp w = true →
  r.1 = Proc.Ret ()
  ∧ More.same_runtime w r.2
  ∧ Proc.files r.2 = Proc.files w
  ∧ (Proc.container w = None →
     Run.news w r.2
     = [ Proc.Spinner Proc.Start "Checking proof server status...";
         Proc.Exec ("docker ps --filter name=midnight-proof-server --format "
                    +:+ Js.dq +:+ "{{.Names}}" +:+ Js.dq);
         Proc.Spinner Proc.Info "Proof server is not running";
         Proc.Console ("Run " +:+ Js.dq +:+ "midnight proof-server start" +:+ Js.dq
                       +:+ " to start the server") ])
  ∧ (Proc.container w ≠ None →
     ProofServer.answering "6300" w = true →
     "curl -s http://localhost:6300/health" ∉ Proc.failing w →
     Run.news w r.2
     = [ Proc.Spinner Proc.Start "Checking proof server status...";
         Proc.Exec ("docker ps --filter name=midnight-proof-server --format "
                    +:+ Js.dq +:+ "{{.Names}}" +:+ Js.dq);
         Proc.Exec "curl -s http://localhost:6300/health";
         Proc.Spinner Proc.Succeed "Proof server is running and healthy";
         Proc.Exec ("docker ps --filter name=midnight-proof-server --format "
                    +:+ Js.dq +:+ "table {{.Status}}\t{{.Ports}}" +:+ Js.dq);
         Proc.Console "Server Details:";
         Proc.Console ("Up  " +:+ ProofServer.portsColumn w +:+ Init.nl) ])
  ∧ (Proc.container w ≠ None →
     ProofServer.answering "6300" w = false →
     Run.news w r.2
     = [ Proc.Spinner Proc.Start "Checking proof server status...";
         Proc.Exec ("docker ps --filter name=midnight-proof-server --format "
                    +:+ Js.dq +:+ "{{.Names}}" +:+ Js.dq);
         Proc.Exec "curl -s http://localhost:6300/health";
         Proc.Spinner Proc.Warn "Proof server container is running but not responding" ]).
Proof.
  intros r Hup. unfold r. clear r.
  destruct (Proc.container w) as [q|] eqn:Hq.
  - assert (Hc : Proc.container w ≠ None) by (by rewrite Hq).
    destruct (More.probed w) eqn:Hp.
    + rewrite (checkStatus_healthy w Hup Hc Hp). cbn. split_and!; try done.
      * intros _ _ _. by read_news.
      * intros _ Ha. by rewrite (probed_false w Ha) in Hp.
    + rewrite (checkStatus_unresponsive w Hup Hc Hp). cbn. split_and!; try done.
      * intros _ Ha Hf. by rewrite (probed_true w Ha Hf) in Hp.
      * intros _ _. by read_news.
  - rewrite (checkStatus_idle w Hup Hq). cbn. split_and!; try done.
    intros _. by read_news.
Qed.

Lemma status_report_witness :
  (ProofServer.checkStatus Sample2.serving).1 = Proc.Ret ().
Proof. apply (status_report Sample2.serving eq_refl). Defined.

(** X6: [start] on the default port and then [status]: when the server
    in the container answers, [status] reports it running and healthy. *)
Theorem start_then_status (options : ProofServer.ProofServerOptions) (w : Proc.world) :
  let p := default "6300" (Js.or_else (ProofServer.port options) None) in
  let w1 := (ProofServer.startProofServer options w).2 in
  let r := ProofServer.checkStatus w1 in
  ProofServer.dockerUp w = true →
  ProofServer.answering p w = false →
  Js.read_nat p = Some 6300%N →
  Proc.container w = None →
  6300%N ∉ Proc.listeners w →
  (ProofServer.flag (ProofServer.detached options) = true →
   ProofServer.dockerCmd true p ∉ Proc.failing w) →
  Proc.server_healthy w = true →
  "curl -s http://localhost:6300/health" ∉ Proc.failing w →
  r.1 = Proc.Ret ()
  ∧ Proc.Spinner Proc.Succeed "Proof server is running and healthy" ∈ Run.news w1 r.2.
Proof.
  intros p w1 r Hup Ha Hn Hc Hfree Hcmd Hh Hf. unfold r, w1. clear r w1.
  destruct (startProofServer_launches options w 6300%N Hup Ha Hn Hc) as (t & E & _);
    [done | done | done |].
  fold p in E. rewrite E. cbn [fst snd].
  change (ProofServer.published 6300 w) with 6300%N.
  set (w1 := Proc.set_container _ _).
  assert (Hp : More.probed w1 = true).
  { apply probed_true; [|done]. rewrite answering_6300. unfold w1. cbn. rewrite Hh.
    rewrite (bool_decide_eq_true_2 (Some 6300%N = Some 6300%N)) by done.
    apply orb_true_r. }
  rewrite (checkStatus_healthy w1 Hup) by done. cbn [fst snd].
  split; [done|]. erewrite news_app; [|reflexivity].
  repeat first [ apply list_elem_of_here | apply list_elem_of_further ].
Qed.

Lemma start_then_status_witness :
  (ProofServer.checkStatus
     (ProofServer.startProofServer Sample2.default_start Sample.empty_dir).2).1
  = Proc.Ret ().
Proof.
  destruct (start_then_status Sample2.default_start Sample.empty_dir
              eq_refl eq_refl eq_refl eq_refl) as [H _].
  - apply not_elem_of_empty.
  - intros _. apply not_elem_of_empty.
  - reflexivity.
  - apply not_elem_of_empty.
  - exact H.
Defined.

(** X7: [start], then [stop], then [status]: the container is gone and
    [status] reports that the server is not running. *)
Theorem start_stop_status (options : ProofServer.ProofServerOptions) (w : Proc.world)
    (n : N) :
  let p := default "6300" (Js.or_else (ProofServer.port options) None) in
  let w1 := (ProofServer.startProofServer options w).2 in
  let w2 := (ProofServer.stopProofServer w1).2 in
  let r := ProofServer.checkStatus w2 in
  ProofServer.dockerUp w = true →
  ProofServer.answering p w = false →
  Js.read_nat p = Some n →
  Proc.container w = None →
  (n <= 65535)%N →
  ProofServer.published n w ∉ Proc.listeners w →
  (ProofServer.flag (ProofServer.detached options) = true →
   ProofServer.dockerCmd true p ∉ Proc.failing w) →
  Proc.container w2 = None
  ∧ r.1 = Proc.Ret ()
  ∧ Proc.Spinner Proc.Info "Proof server is not running" ∈ Run.news w2 r.2.
Proof.
  intros p w1 w2 r Hup Ha Hn Hc Hle Hfree Hcmd. unfold r, w2, w1. clear r w2 w1.
  destruct (startProofServer_launches options w n Hup Ha Hn Hc Hle Hfree Hcmd)
    as (t & E & _).
  fold p in E. rewrite E. cbn [fst snd].
  rewrite stopProofServer_stops by done. cbn [fst snd].
  rewrite checkStatus_idle by done. cbn [fst snd].
  split_and!; [done | done |]. erewrite news_app; [|reflexivity].
  repeat first [ apply list_elem_of_here | apply list_elem_of_further ].
Qed.

Lemma start_stop_status_witness :
  Proc.container
    (ProofServer.stopProofServer
       (ProofServer.startProofServer Sample.start_options Sample.empty_dir).2).2
  = None.
Proof.
  destruct (start_stop_status Sample.start_options Sample.empty_dir 7000%N
              eq_refl eq_refl eq_refl eq_refl) as [H _].
  - discriminate.
  - apply not_elem_of_empty.
  - intros _. apply not_elem_of_empty.
  - exact H.
Defined.

(** ** The deployment orchestrator, continued *)

(** X8: the mock identifiers are well formed whatever [Math.random]
    returns: the address is [mn_contract_] and 40 hexadecimal digits, the
    transaction hash is [0x] and 64 of them; each digit uses one draw. *)
Theorem mock_identifiers (w : Proc.world) :
  (∃ h, Deploy.generateMockAddress w
        = (Proc.Ret ("mn_contract_" +:+ h), Proc.set_random (drop 40 (Proc.random w)) w)
        ∧ String.length h = 40%nat
        ∧ Js.every More.is_hex h = true)
  ∧ (∃ h, Deploy.generateMockTxHash w
          = (Proc.Ret ("0x" +:+ h), Proc.set_random (drop 64 (Proc.random w)) w)
          ∧ String.length h = 64%nat
          ∧ Js.every More.is_hex h = true).
Proof. split; apply randomHex_spec. Qed.

(** X9: the record of a deployment: it is always built, out of 105 draws;
    it has the five fields, with the network it was given, an address and a
    hash of the two forms, a block number from 0 to 999999 and the time of
    the clock. *)
Theorem deployment_record (net : Json.json) (w : Proc.world) :
  ∃ info a h b,
    Deploy.deploymentInfo net w
    = (Proc.Ret info, Proc.set_random (drop 105 (Proc.random w)) w)
    ∧ Json.keys info
      = {[ "network"; "contractAddress"; "transactionHash"; "blockNumber"; "timestamp" ]}
    ∧ Json.get "network" info = Some net
    ∧ Json.get "contractAddress" info = Some (Json.JStr ("mn_contract_" +:+ a))
    ∧ String.length a = 40%nat ∧ Js.every More.is_hex a = true
    ∧ Json.get "transactionHash" info = Some (Json.JStr ("0x" +:+ h))
    ∧ String.length h = 64%nat ∧ Js.every More.is_hex h = true
    ∧ Json.get "blockNumber" info = Some (Json.JNum b)
    ∧ 0 <= b < 1000000
    ∧ Json.get "timestamp" info = Some (Json.JStr (Proc.clock w)).
Proof.
  destruct (deploymentInfo_run net w) as (info & a & h & b & E & -> & Ha & Hxa & Hh & Hxh & Hb).
  eexists _, a, h, b. split; [exact E|].
  split_and!; try done; lia.
Qed.

(** *** Runs that neither end the process nor stall *)

Lemma settles_bind {A B : Type} (m : Proc.M A) (k : A → Proc.M B) :
  More.settles m → (∀ a, More.settles (k a)) → More.settles (m ≫= k).
Proof.
  intros Hm Hk w. specialize (Hm w). unfold mbind, proc_bind, Proc.bind.
  destruct (m w) as [[a|e|c|] w']; cbn in *; try done. apply Hk.
Qed.

Lemma settles_get_bind {A : Type} (k : Proc.world → Proc.M A) :
  (∀ w, More.settles (k w)) → More.settles (Proc.get ≫= k).
Proof. intros Hk w. apply Hk. Qed.

Lemma settles_try_catch {A : Type} (m : Proc.M A) (h : string → Proc.M A) :
  More.settles m → (∀ e, More.settles (h e)) → More.settles (Proc.try_catch m h).
Proof.
  intros Hm Hh w. specialize (Hm w). unfold Proc.try_catch.
  destruct (m w) as [[a|e|c|] w']; cbn in *; try done. apply Hh.
Qed.

Lemma settles_ret {A : Type} (a : A) : More.settles (mret a : Proc.M A).
Proof. by intros w. Qed.

Lemma settles_throw {A : Type} (msg : string) : More.settles (Proc.throw msg : Proc.M A).
Proof. by intros w. Qed.

Lemma settles_lift {A : Type} (r : Proc.result A) : More.settles (Proc.lift r).
Proof. by destruct r. Qed.

Lemma settles_emit (e : Proc.event) : More.settles (Proc.emit e).
Proof. by intros w. Qed.

Lemma settles_existsSync (p : string) : More.settles (Proc.existsSync p).
Proof. by intros w. Qed.

Lemma settles_readJsonSync (p : string) : More.settles (Proc.readJsonSync p).
Proof. intros w. unfold Proc.readJsonSync. by repeat case_match. Qed.

Lemma settles_writeJsonSync (p : string) (j : Json.json) :
  More.settles (Proc.writeJsonSync p j).
Proof. intros w. unfold Proc.writeJsonSync, Proc.writeFileSync. by repeat case_match. Qed.

Lemma settles_execSync (cmd : string) : More.settles (Proc.execSync cmd).
Proof. intros w. unfold Proc.execSync. by case_match. Qed.

Lemma settles_curlHealth (p : string) : More.settles (ProofServer.curlHealth p).
Proof. intros w. unfold ProofServer.curlHealth. by case_match. Qed.

Lemma settles_deploymentInfo (net : Json.json) : More.settles (Deploy.deploymentInfo net).
Proof.
  intros w. destruct (deploymentInfo_run net w) as (info & a & h & b & E & _).
  by rewrite E.
Qed.

Ltac settles_tac :=
  repeat first
    [ apply settles_emit | apply settles_existsSync | apply settles_readJsonSync
    | apply settles_writeJsonSync | apply settles_execSync | apply settles_curlHealth
    | apply settles_deploymentInfo | apply settles_lift
    | apply settles_ret | apply settles_throw
    | match goal with
      | |- More.settles (Proc.get ≫= _) => apply settles_get_bind; intros ?
      | |- More.settles (_ ≫= _) => apply settles_bind; [|intros ?]
      | |- More.settles (Proc.try_catch _ _) => apply settles_try_catch; [|intros ?]
      | |- More.settles (if ?b then _ else _) => destruct b
      | |- More.settles (match ?x with _ => _ end) => destruct x
      end ].

Lemma prepare_settles (options : Deploy.DeployOptions) :
  More.settles (Deploy.prepare options).
Proof. unfold Deploy.prepare. settles_tac. Qed.

Lemma connect_settles : More.settles Deploy.connect.
Proof. unfold Deploy.connect. settles_tac. Qed.

Lemma save_settles (net info : Json.json) : More.settles (Deploy.save net info).
Proof. unfold Deploy.save. settles_tac. Qed.

(** *** Runs that change the file system only when they return *)

Lemma all_or_nothing_bind {A B : Type} (m : Proc.M A) (k : A → Proc.M B) :
  Run.keeps Run.untouched m → (∀ a, More.all_or_nothing (k a)) →
  More.all_or_nothing (m ≫= k).
Proof.
  intros Hm Hk w. specialize (Hm w). unfold mbind, proc_bind, Proc.bind.
  destruct (m w) as [[a|e|c|] w']; cbn in *; try by right.
  destruct (Hk a w') as [H|H]; [by left|right]. by eapply untouched_trans.
Qed.

Lemma all_or_nothing_try_catch {A : Type} (m : Proc.M A) (h : string → Proc.M A) :
  More.all_or_nothing m → (∀ e, Run.keeps Run.untouched (h e)) →
  More.all_or_nothing (Proc.try_catch m h).
Proof.
  intros Hm Hh w. specialize (Hm w). unfold Proc.try_catch.
  destruct (m w) as [[a|e|c|] w']; cbn in *; try done.
  destruct Hm as [[]|Hm]. right. eapply untouched_trans; [exact Hm|apply Hh].
Qed.

Lemma save_all_or_nothing (net info : Json.json) (e : Proc.event) :
  More.all_or_nothing (Deploy.save net info ≫= λ _, Proc.emit e).
Proof.
  intros w. unfold Deploy.save. munfold. unfold Fs.exists_. cbn.
  destruct (Fs.lookup _ _) as [[|[s|[| | | |m]]]|] eqn:Hl;
    repeat (cbn; rewrite ?Hl); try destruct (String.eqb _ "__proto__");
    repeat (cbn; rewrite ?Hl); first [by left | by right].
Qed.

Lemma deployCommand_all_or_nothing (options : Deploy.DeployOptions) :
  More.all_or_nothing (Deploy.deployCommand options).
Proof.
  unfold Deploy.deployCommand.
  apply all_or_nothing_bind; [apply untouched_emit|intros _].
  apply all_or_nothing_bind; [apply untouched_emit|intros _].
  apply all_or_nothing_try_catch; [|intros e; untouched_tac].
  apply all_or_nothing_bind; [apply prepare_untouched|intros [net cf]].
  apply all_or_nothing_bind; [apply untouched_emit|intros _].
  apply all_or_nothing_bind; [apply connect_untouched|intros _].
  apply all_or_nothing_bind; [apply untouched_emit|intros _].
  apply all_or_nothing_bind; [apply untouched_emit|intros _].
  apply all_or_nothing_bind; [apply untouched_emit|intros _].
  apply all_or_nothing_bind; [apply deploymentInfo_untouched|intros info].
  apply all_or_nothing_bind; [apply display_untouched|intros _].
  apply save_all_or_nothing.
Qed.

Lemma deploy_outcome (options : Deploy.DeployOptions) (w : Proc.world) :
  (Deploy.deployCommand options w).1 = Proc.Ret ()
  ∨ (Deploy.deployCommand options w).1 = Proc.Exit 1.
Proof.
  unfold Deploy.deployCommand.
  match goal with
  | |- context [Proc.try_catch ?body ?h] =>
      assert (Hs : More.settles body);
      [|set (b := body) in *; clearbody b]
  end.
  { settles_tac; first [apply prepare_settles | apply connect_settles | apply save_settles
                       | idtac]. all: try (unfold Deploy.simulateDeployment; settles_tac). }
  munfold. cbn. unfold Proc.try_catch.
  match goal with |- context [b ?w'] => specialize (Hs w'); destruct (b w') as [[[]|e|c|] w''] end;
    cbn in *; try done; [by left|right].
  by destruct (default false (Deploy.verbose options)).
Qed.

(** A ledger that is no object does not always make a deploy fail: to the
    network [__proto__], a deploy that finds the ledger [5] returns, and has
    written [5] again. *)
Lemma deploy_proto_on_number :
  let r := Deploy.deployCommand Sample2.to_proto Sample2.number_ledger in
  Deploy.ledger Sample2.number_ledger = None
  ∧ r.1 = Proc.Ret ()
  ∧ Proc.files r.2 = Proc.files Sample2.number_ledger.
Proof. by vm_compute. Qed.

(** X10: a deploy ends in one of two ways, whatever it is given and
    whatever it finds: it returns, or it ends the process with status 1, and
    then the file system is the one it started from.  In both cases no path
    other than [deployments.json] of the working directory has changed.  A
    ledger that is not a JSON object is left as it is, and it makes the
    deploy fail, unless the network is [__proto__]: the value of the flag is
    the network when it is not empty. *)
Theorem deploy_atomic (options : Deploy.DeployOptions) (w : Proc.world) :
  let r := Deploy.deployCommand options w in
  (r.1 = Proc.Ret () ∨ r.1 = Proc.Exit 1)
  ∧ (r.1 = Proc.Exit 1 → Proc.files r.2 = Proc.files w)
  ∧ Proc.cwd r.2 = Proc.cwd w
  ∧ (∀ p, p ≠ Deploy.deploymentsPath w →
          Fs.lookup p (Proc.files r.2) = Fs.lookup p (Proc.files w))
  ∧ (Deploy.ledger w = None → Proc.files r.2 = Proc.files w)
  ∧ (Deploy.ledger w = None →
     Deploy.network options ≠ "" → Deploy.network options ≠ "__proto__" →
     r.1 = Proc.Exit 1).
Proof.
  intros r.
  pose proof (deploy_outcome options w) as Hout.
  pose proof (deployCommand_all_or_nothing options w) as Haon.
  fold r in Hout, Haon.
  assert (Hret : Run.returns r.1 →
                 ∃ net info d',
                   (Deploy.network options ≠ "" → net = Json.JStr (Deploy.network options))
                   ∧ More.filed (Json.to_string net) info w = Some d'
                   ∧ Proc.cwd r.2 = Proc.cwd w
                   ∧ Proc.files r.2
                     = Fs.put (Deploy.deploymentsPath w) (Fs.File (Fs.Doc d'))
                         (Proc.files w)).
  { intros H.
    destruct (deployCommand_returns options w H)
      as (config & net & info & d' & _ & Hn & _ & Hd & Hc & _ & Hf).
    fold r in Hc, Hf. exists net, info, d'. split_and!; try done.
    intros Hne. rewrite resolveNetwork_flag in Hn by done. by injection Hn as <-. }
  clearbody r. split_and!.
  - done.
  - intros E. destruct Haon as [H|[H _]]; [by rewrite E in H|done].
  - destruct Haon as [H|[_ H]]; [|done]. by destruct (Hret H) as (net & info & d' & _ & _ & Hc & _).
  - intros p Hp. destruct Haon as [H|[H _]]; [|by rewrite H].
    destruct (Hret H) as (net & info & d' & _ & _ & _ & Hf). rewrite Hf.
    by apply lookup_put_ne.
  - intros Hl. destruct Haon as [H|[H _]]; [|done].
    destruct (Hret H) as (net & info & d' & _ & Hd & _ & Hf). rewrite Hf.
    destruct (filed_no_ledger _ info d' w Hl Hd) as (_ & Hlookup & _).
    by apply put_same.
  - intros Hl Hne Hproto. destruct Hout as [E|E]; [|done].
    destruct Hret as (net & info & d' & Hnet & Hd & _); [by rewrite E|].
    rewrite (Hnet Hne) in Hd. cbn [Json.to_string] in Hd.
    by destruct (filed_no_ledger _ info d' w Hl Hd) as (? & _).
Qed.

Lemma deploy_atomic_witness :
  (Deploy.deployCommand Sample.to_testnet Sample2.broken_ledger).1 = Proc.Exit 1
  ∧ Proc.files (Deploy.deployCommand Sample.to_testnet Sample2.broken_ledger).2
    = Proc.files Sample2.broken_ledger.
Proof.
  pose proof (deploy_atomic Sample.to_testnet Sample2.broken_ledger)
    as (_ & _ & _ & _ & H & E).
  split; [apply E; [reflexivity | discriminate | discriminate] | apply H; reflexivity].
Defined.

(** X11: what is enough for a deploy to go through: the configuration is a
    JSON document in which the network resolves to a name and the contract
    file resolves, the contract file exists, the ledger is absent or a JSON
    object (without arrays, its numbers doubles), and the proof server
    answers the probe or the command that starts it succeeds.  Then the
    deploy returns; it has run the probe and, after a failed probe, the
    start command and nothing else; it has waited for the deployment, used
    105 random draws, and the one thing it has written is the ledger: the
    one it read with the record assigned to the name of the network, which
    files the record unless the name is [__proto__]. *)
Theorem deploy_succeeds (options : Deploy.DeployOptions) (w : Proc.world)
    (config : Json.json) (N contractFile : string) (m : gmap string Json.json) :
  let r := Deploy.deployCommand options w in
  let curl := "curl -s " +:+ ProofServer.healthUrl "6300" in
  let start := "midnight proof-server start" in
  Fs.lookup (Deploy.configFile options w) (Proc.files w) = Some (Fs.File (Fs.Doc config)) →
  Deploy.resolveNetwork options config = Proc.Ok (Json.JStr N) →
  Deploy.resolveContract options config = Proc.Ok contractFile →
  Fs.exists_ (Fs.resolve (Proc.cwd w) contractFile) (Proc.files w) = true →
  Deploy.ledger w = Some m →
  Json.exact (Json.JObj m) = true →
  (More.probed w = false → start ∉ Proc.failing w) →
  ∃ info,
    More.record (Json.JStr N) w info
    ∧ r.1 = Proc.Ret ()
    ∧ Run.execs (Run.news w r.2) = curl :: (if More.probed w then [] else [start])
    ∧ Proc.Sleep 3000 ∈ Run.news w r.2
    ∧ filter Proc.mutates (Run.news w r.2)
      = [ Proc.WriteFile (Deploy.deploymentsPath w)
            (Fs.Doc (Json.JObj (Json.set N info m))) ]
    ∧ Proc.files r.2
      = Fs.put (Deploy.deploymentsPath w)
          (Fs.File (Fs.Doc (Json.JObj (Json.set N info m))))
          (Proc.files w)
    ∧ Json.exact (Json.JObj (Json.set N info m)) = true
    ∧ (N ≠ "__proto__" → Json.set N info m = <[N := info]> m)
    ∧ Proc.random r.2 = drop 105 (Proc.random w).
Proof.
  intros r curl start Hconfig Hnet Hcontract Hex Hm Hexact Hstart.
  pose proof (deployCommand_run options w config (Json.JStr N) contractFile
                Hconfig Hnet Hcontract Hex) as Hrun.
  cbv zeta in Hrun. fold r curl start in Hrun.
  assert (negb (More.probed w) && bool_decide (start ∈ Proc.failing w) = false) as Hok.
  { destruct (More.probed w); [done|]. cbn. apply bool_decide_eq_false_2. by apply Hstart. }
  rewrite Hok in Hrun. destruct Hrun as (info & Hinfo & Hrun).
  cbn [Json.to_string] in Hrun. rewrite (filed_ledger N info w m Hm) in Hrun.
  destruct Hrun as (t & -> & Hx & Hs & Hw).
  exists info. cbn [fst snd]. rewrite (news_app w _ t) by done.
  split_and!; try done.
  - apply exact_set; [done|]. by eapply record_exact.
  - intros HN. unfold Json.set. by rewrite (eqb_ne _ _ HN).
Qed.

Lemma deploy_succeeds_witness :
  (Deploy.deployCommand Sample.to_testnet Sample2.stopped).1 = Proc.Ret ()
  ∧ Run.execs (Run.news Sample2.stopped
                 (Deploy.deployCommand Sample.to_testnet Sample2.stopped).2)
    = [ "curl -s http://localhost:6300/health"; "midnight proof-server start" ].
Proof.
  destruct (deploy_succeeds Sample.to_testnet Sample2.stopped
              Init.midnightConfig "testnet"
              "build/contract.wasm" ∅ eq_refl eq_refl eq_refl eq_refl eq_refl eq_refl)
    as (info & _ & H & E & _).
  - intros _. apply not_elem_of_empty.
  - split; [exact H | exact E].
Defined.

(** X12: a deploy that finds its configuration and its contract, whose probe
    of the proof server fails and whose command to start it fails too, ends
    with status 1 after reporting the failed command; it has not waited for
    a deployment and has written nothing. *)
Theorem deploy_start_fails (options : Deploy.DeployOptions) (w : Proc.world)
    (config net : Json.json) (contractFile : string) :
  let r := Deploy.deployCommand options w in
  let curl := "curl -s " +:+ ProofServer.healthUrl "6300" in
  let start := "midnight proof-server start" in
  Fs.lookup (Deploy.configFile options w) (Proc.files w) = Some (Fs.File (Fs.Doc config)) →
  Deploy.resolveNetwork options config = Proc.Ok net →
  Deploy.resolveContract options config = Proc.Ok contractFile →
  Fs.exists_ (Fs.resolve (Proc.cwd w) contractFile) (Proc.files w) = true →
  More.probed w = false →
  start ∈ Proc.failing w →
  r.1 = Proc.Exit 1
  ∧ Run.news w r.2
    = [ Proc.Console "Deploying Midnight contract...";
        Proc.Spinner Proc.Start "Preparing deployment...";
        Proc.Spinner Proc.Status "Checking contract...";
        Proc.Spinner Proc.Status "Connecting to network...";
        Proc.Exec curl;
        Proc.Spinner Proc.Warn "Proof server not running. Starting it now...";
        Proc.Exec start ]
      ++ Deploy.failure_report options ("Command failed: " +:+ start)
  ∧ Proc.files r.2 = Proc.files w
  ∧ Proc.random r.2 = Proc.random w.
Proof.
  intros r curl start Hconfig Hnet Hcontract Hex Hp Hstart. unfold r. clear r.
  unfold Deploy.deployCommand, Deploy.simulateDeployment, Deploy.display,
    Deploy.failure_report.
  munfold. cbn. rewrite !set_trace_twice.
  rewrite (prepare_ok options w config net contractFile Hconfig Hnet Hcontract Hex).
  cbn. rewrite !set_trace_twice, connect_run, Hp. fold start.
  rewrite bool_decide_eq_true_2 by done. cbn.
  destruct (default false (Deploy.verbose options)); cbn; read_news; by split_and!.
Qed.

Lemma deploy_start_fails_witness :
  (Deploy.deployCommand Sample.to_testnet Sample2.unstartable).1 = Proc.Exit 1.
Proof.
  destruct (deploy_start_fails Sample.to_testnet Sample2.unstartable
              Init.midnightConfig (Json.JStr "testnet")
              "build/contract.wasm" eq_refl eq_refl eq_refl eq_refl eq_refl)
    as (H & _).
  - unfold Sample2.unstartable. cbn. by apply elem_of_singleton.
  - exact H.
Defined.

(** ** The options of the command line of a deploy *)

(** X13: on the command line only [--network] and [--verbose] reach a
    deploy: [--contract] and [--config] are stored under names the action
    does not read.  So two command lines that agree on the former two run the
    same deploy, the configuration is always [midnight.config.json] of the
    working directory, and without that file the deploy fails whatever
    [--config] names. *)
Theorem deploy_ignores_paths (args args' : Deploy.CommandLine) (w : Proc.world) :
  Deploy.arg_network args = Deploy.arg_network args' →
  Deploy.arg_verbose args = Deploy.arg_verbose args' →
  Deploy.deployCommand (Deploy.parse args) w = Deploy.deployCommand (Deploy.parse args') w
  ∧ Deploy.configFile (Deploy.parse args) w
    = Fs.resolve (Proc.cwd w) "midnight.config.json"
  ∧ (Fs.exists_ (Fs.resolve (Proc.cwd w) "midnight.config.json") (Proc.files w) = false →
     (Deploy.deployCommand (Deploy.parse args) w).1 = Proc.Exit 1).
Proof.
  intros Hn Hv. split_and!.
  - unfold Deploy.parse. by rewrite Hn, Hv.
  - reflexivity.
  - intros Hex. unfold Deploy.deployCommand, Deploy.prepare. munfold. cbn.
    rewrite Hex. cbn. by destruct (Deploy.arg_verbose args).
Qed.

Lemma deploy_ignores_paths_witness :
  Deploy.deployCommand (Deploy.parse Sample2.paths_given) Sample.compiled
  = Deploy.deployCommand (Deploy.parse Sample.mainnet_given) Sample.compiled.
Proof.
  destruct (deploy_ignores_paths Sample2.paths_given Sample.mainnet_given Sample.compiled
              eq_refl eq_refl) as (H & _).
  exact H.
Defined.

(** ** The contract compiler, continued *)

Lemma or_else_given (f : string) : f ≠ "" → Js.or_else (Some f) None = Some f.
Proof. by destruct f. Qed.

Lemma listOutput_run (names : list string) (w : Proc.world) :
  Contract.listOutput names w
  = (Proc.Ret (),
     Proc.set_trace (Proc.trace w ++ map (λ f, Proc.Console ("  " +:+ f)) names) w).
Proof.
  revert w. induction names as [|f names IH]; intros w.
  - cbn. f_equal. destruct w. unfold Proc.set_trace. cbn. by rewrite app_nil_r.
  - cbn [Contract.listOutput]. munfold. rewrite IH. cbn. f_equal.
    unfold Proc.set_trace. cbn. by rewrite <- app_assoc.
Qed.

(** X14: compiling a file given on the command line fails early, with status
    1 and the file system as it was: when the file does not exist nothing is
    run at all, and when the compiler does not answer [--version] that probe
    is the only command run and the output directory is not made. *)
Theorem compile_fails_early (f : string) (options : Contract.CompileOptions)
    (w : Proc.world) :
  let r := Contract.compileContract (Some f) options w in
  let version := Contract.compactc w +:+ " --version" in
  f ≠ "" →
  (Fs.exists_ (Fs.resolve (Proc.cwd w) f) (Proc.files w) = false →
   r.1 = Proc.Exit 1
   ∧ Proc.files r.2 = Proc.files w
   ∧ Run.news w r.2
     = [ Proc.Spinner Proc.Start "Compiling Midnight contract...";
         Proc.Spinner Proc.Fail "Compilation failed";
         Proc.ConsoleError ("Error: " +:+ "Contract file not found: " +:+ f) ])
  ∧ (Fs.exists_ (Fs.resolve (Proc.cwd w) f) (Proc.files w) = true →
     version ∈ Proc.failing w →
     r.1 = Proc.Exit 1
     ∧ Proc.files r.2 = Proc.files w
     ∧ Run.news w r.2
       = [ Proc.Spinner Proc.Start "Compiling Midnight contract...";
           Proc.Spinner Proc.Status ("Compiling " +:+ Fs.basename f +:+ "...");
           Proc.Exec version;
           Proc.Spinner Proc.Fail "Compilation failed";
           Proc.ConsoleError
             ("Error: " +:+ "Compact compiler not found. Please install it and set COMPACT_HOME environment variable.") ]).
Proof.
  intros r version Hf. unfold r. clear r. split.
  - intros Hex. unfold Contract.compileContract. rewrite (or_else_given f Hf).
    munfold. cbn. rewrite Hex. cbn. read_news. by split_and!.
  - intros Hex Hv. unfold Contract.compileContract. rewrite (or_else_given f Hf).
    munfold. cbn. rewrite Hex. cbn. fold version.
    rewrite bool_decide_eq_true_2 by done. cbn. read_news. by split_and!.
Qed.

Lemma compile_fails_early_witness :
  (Contract.compileContract (Some "missing.compact") Sample.compile_options
     Sample.in_project).1 = Proc.Exit 1.
Proof.
  destruct (compile_fails_early "missing.compact" Sample.compile_options Sample.in_project)
    as [H _]; [discriminate|].
  apply H. reflexivity.
Defined.

Lemma compactc_set_trace (t : list Proc.event) (w : Proc.world) :
  Contract.compactc (Proc.set_trace t w) = Contract.compactc w.
Proof. reflexivity. Qed.

Lemma execs_listing (names : list string) :
  Run.execs (map (λ f, Proc.Console ("  " +:+ f)) names) = [].
Proof. by induction names. Qed.

Lemma mutates_listing (names : list string) :
  filter Proc.mutates (map (λ f, Proc.Console ("  " +:+ f)) names) = [].
Proof. by induction names. Qed.

(** Making directories where no file is in the way: they are directories
    afterwards, what was there is there, and no other path has changed. *)
Lemma mkdirs_spec (qs : list string) (f : Fs.fs) :
  More.no_file qs f = true →
  ∃ made, Fs.mkdirs qs f = Some made
          ∧ (∀ q, q ∈ qs → Fs.lookup q made = Some Fs.Dir)
          ∧ (∀ p n, Fs.lookup p f = Some n → Fs.lookup p made = Some n)
          ∧ (∀ p, p ∉ qs → Fs.lookup p made = Fs.lookup p f).
Proof.
  revert f. induction qs as [|q qs IH]; intros f Hqs.
  - exists f. split_and!; try done. by intros q Hq%elem_of_nil.
  - cbn in Hqs. apply andb_true_iff in Hqs as [Hq Hqs]. cbn [Fs.mkdirs].
    destruct (Fs.lookup q f) as [[|c]|] eqn:Hl; [|done|].
    + destruct (IH f Hqs) as (made & E & Hdirs & Hold & Hother).
      exists made. split_and!; try done.
      * intros q' [->|Hq']%elem_of_cons; [by apply Hold | by apply Hdirs].
      * intros p [Hp Hp']%not_elem_of_cons. by apply Hother.
    + destruct (IH (Fs.put q Fs.Dir f)) as (made & E & Hdirs & Hold & Hother).
      { unfold More.no_file in *. apply forallb_forall. intros q' Hq'.
        rewrite forallb_forall in Hqs. specialize (Hqs q' Hq').
        rewrite lookup_put. by destruct (String.eqb q' q). }
      exists made. split_and!; try done.
      * intros q' [->|Hq']%elem_of_cons; [|by apply Hdirs].
        apply Hold. by rewrite lookup_put_eq.
      * intros p n Hp. apply Hold. rewrite lookup_put_ne; [done|]. congruence.
      * intros p [Hp Hp']%not_elem_of_cons. rewrite Hother by done.
        by apply lookup_put_ne.
Qed.

Lemma mkdirsSync_run (p : string) (w : Proc.world) :
  More.unobstructed p (Proc.files w) = true →
  ∃ made,
    Proc.mkdirsSync p w
    = (Proc.Ret (),
       Proc.set_files made (Proc.set_trace (Proc.trace w ++ [Proc.EnsureDir p]) w))
    ∧ Fs.lookup p made = Some Fs.Dir
    ∧ (∀ q, q ∈ Fs.above p → Fs.lookup q made = Some Fs.Dir)
    ∧ (∀ q n, Fs.lookup q (Proc.files w) = Some n → Fs.lookup q made = Some n)
    ∧ (∀ q, q ∉ Fs.above p ++ [p] → Fs.lookup q made = Fs.lookup q (Proc.files w)).
Proof.
  intros H. destruct (mkdirs_spec _ _ H) as (made & E & Hdirs & Hold & Hother).
  exists made. unfold Proc.mkdirsSync. rewrite E. split_and!; try done.
  - apply Hdirs, elem_of_app. right. apply list_elem_of_here.
  - intros q Hq. apply Hdirs, elem_of_app. by left.
Qed.

#[local] Arguments Proc.mkdirsSync : simpl never.

(** X15: compiling a file that exists, given by a path in normal form, with
    a compiler that answers, where no file lies at the output directory or
    above it.  The one call the command makes on the file system is the one
    that ensures the output directory, whether the compiler then succeeds or
    not; what the compiler writes is not followed.  In watch mode nothing is
    compiled at the start: the version probe is the only command run, the
    file is watched and the command returns; the output directory and the
    directories above it exist then, what was there is there, and no other
    path has changed.  Otherwise the compiler is run once after the probe,
    on the file as it was given and the output directory as an absolute path
    in normal form, and the command returns when the compiler succeeds and
    ends with status 1 when it fails. *)
Theorem compile_runs (f : string) (options : Contract.CompileOptions) (w : Proc.world) :
  let r := Contract.compileContract (Some f) options w in
  let outputDir :=
    Fs.path_resolve (Proc.cwd w)
      (default "build" (Js.or_else (Contract.output options) None)) in
  let version := Contract.compactc w +:+ " --version" in
  let cmd := Contract.compactc w +:+ " " +:+ f +:+ " -o " +:+ outputDir in
  f ≠ "" →
  Fs.path_resolve (Proc.cwd w) f = Fs.resolve (Proc.cwd w) f →
  Fs.exists_ (Fs.resolve (Proc.cwd w) f) (Proc.files w) = true →
  version ∉ Proc.failing w →
  More.unobstructed outputDir (Proc.files w) = true →
  filter Proc.mutates (Run.news w r.2) = [ Proc.EnsureDir outputDir ]
  ∧ (if Contract.flag (Contract.watch options)
     then r.1 = Proc.Ret ()
          ∧ Run.execs (Run.news w r.2) = [version]
          ∧ Proc.WatchFile f ∈ Run.news w r.2
          ∧ Fs.lookup outputDir (Proc.files r.2) = Some Fs.Dir
          ∧ (∀ q, q ∈ Fs.above outputDir → Fs.lookup q (Proc.files r.2) = Some Fs.Dir)
          ∧ (∀ p n, Fs.lookup p (Proc.files w) = Some n →
                    Fs.lookup p (Proc.files r.2) = Some n)
          ∧ (∀ p, p ∉ Fs.above outputDir ++ [outputDir] →
                  Fs.lookup p (Proc.files r.2) = Fs.lookup p (Proc.files w))
     else Run.execs (Run.news w r.2) = [version; cmd]
          ∧ (cmd ∈ Proc.failing w → r.1 = Proc.Exit 1)
          ∧ (cmd ∉ Proc.failing w → r.1 = Proc.Ret ())).
Proof.
  intros r outputDir version cmd Hf _ Hex Hv Hout. unfold r. clear r.
  unfold Contract.compileContract. rewrite (or_else_given f Hf).
  munfold. cbn. rewrite Hex. cbn. fold version.
  rewrite bool_decide_eq_false_2 by done. cbn. fold outputDir.
  match goal with
  | |- context [Proc.mkdirsSync outputDir ?W] =>
      destruct (mkdirsSync_run outputDir W Hout) as (made & E & Hdir & Habove & Hold & Hother);
      rewrite E; clear E
  end.
  cbn. rewrite !set_trace_twice, <- ?app_assoc. cbn.
  destruct (Contract.flag (Contract.watch options)); cbn.
  - read_news. split_and!; try done. find_event.
  - unfold Contract.compileCmd. rewrite !compactc_set_trace. fold cmd.
    case_bool_decide as Hc; cbn.
    + read_news. by split_and!.
    + rewrite Hdir. cbn. rewrite listOutput_run. cbn.
      read_news. rewrite !filter_app, !execs_app, execs_listing, mutates_listing.
      by split_and!.
Qed.

Lemma compile_runs_witness :
  (Contract.compileContract (Some "src/contracts/Counter.compact") Sample.compile_options
     Sample.in_project).1 = Proc.Ret ()
  ∧ Fs.lookup "/work/my-app-1/out"
      (Proc.files
         (Contract.compileContract (Some "src/contracts/Counter.compact")
            Sample2.nested_output Sample.in_project).2)
    = Some Fs.Dir.
Proof.
  split.
  - destruct (compile_runs "src/contracts/Counter.compact" Sample.compile_options
                Sample.in_project) as (_ & _ & _ & H);
      [discriminate | reflexivity | reflexivity | apply not_elem_of_empty | reflexivity |].
    apply H, not_elem_of_empty.
  - destruct (compile_runs "src/contracts/Counter.compact" Sample2.nested_output
                Sample.in_project) as (_ & _ & _ & _ & _ & H & _);
      [discriminate | reflexivity | reflexivity | apply not_elem_of_empty | reflexivity |].
    apply H. vm_compute. apply list_elem_of_further, list_elem_of_further, list_elem_of_here.
Defined.

(** ** The test runner *)

Lemma vacant_lookup (dir : string) (f : Fs.fs) (p : string) :
  More.vacant dir f = true → Run.under dir p → Fs.lookup p f = None.
Proof.
  intros Hv Hp. induction f as [|[q n] f IH]; [done|].
  cbn in Hv. apply andb_true_iff in Hv as [Hq Hv]. cbn.
  destruct (String.eqb p q) eqn:E; [|by apply IH].
  apply String.eqb_eq in E as <-. apply negb_true_iff in Hq.
  unfold More.underb in Hq. apply orb_false_iff in Hq as [Hq1 Hq2].
  destruct Hp as [->|Hp]; [by rewrite String.eqb_refl in Hq1 | congruence].
Qed.

Lemma vacant_fresh (dir : string) (w : Proc.world) :
  More.vacant dir (Proc.files w) = true → More.fresh dir w.
Proof. intros Hv p Hp. by apply (vacant_lookup dir). Qed.

#[local] Arguments Test.testCmd : simpl never.
#[local] Arguments Test.sampleTest : simpl never.

Lemma sample_ne (testDir : string) : Fs.join testDir "Counter.test.ts" ≠ testDir.
Proof.
  unfold Fs.join. intros E.
  apply (f_equal String.length) in E. rewrite !string_length_app in E.
  cbn in E. lia.
Qed.

(** Ensuring the tests directory: nothing is done where it exists; where
    nothing lies at or below it, the directory and the sample test are
    made. *)
Lemma ensureTests_run (testDir : string) (w : Proc.world) :
  let sample := Fs.join testDir "Counter.test.ts" in
  let text := Fs.Text (Js.trim Test.sampleTest) in
  (Fs.exists_ testDir (Proc.files w) = true ∨ More.fresh testDir w) →
  Test.ensureTests testDir w
  = (Proc.Ret (),
     if Fs.exists_ testDir (Proc.files w) then w
     else Proc.set_files
            (Fs.put sample (Fs.File text) (Fs.put testDir Fs.Dir (Proc.files w)))
            (Proc.set_trace
               (Proc.trace w
                ++ [ Proc.Spinner Proc.Warn "No tests directory found. Creating one...";
                     Proc.EnsureDir testDir; Proc.WriteFile sample text ]) w))
  ∧ Fs.exists_ testDir (Proc.files (Test.ensureTests testDir w).2) = true.
Proof.
  intros sample text Hdir. unfold Test.ensureTests. munfold. cbn.
  fold sample text. unfold Fs.exists_ in *.
  destruct (Fs.lookup testDir (Proc.files w)) as [n|] eqn:Hl; cbn; [by rewrite Hl|].
  destruct Hdir as [|Hfresh]; [done|].
  rewrite Hl. cbn.
  assert (Hs : Fs.lookup sample (Fs.put testDir Fs.Dir (Proc.files w)) = None).
  { rewrite lookup_put_ne by apply sample_ne. apply Hfresh, under_join. }
  rewrite Hs. cbn. rewrite <- !app_assoc. cbn.
  split; [done|]. rewrite lookup_put_ne, lookup_put_eq; [done|].
  intros E. symmetry in E. by apply sample_ne in E.
Qed.

Lemma testCommand_run (options : Test.TestOptions) (w : Proc.world) :
  let r := Test.testCommand options w in
  let testDir := Fs.join (Proc.cwd w) "tests" in
  let sample := Fs.join testDir "Counter.test.ts" in
  let cmd := Test.testCmd options in
  (Fs.exists_ testDir (Proc.files w) = true ∨ More.fresh testDir w) →
  r.1 = (if bool_decide (cmd ∈ Proc.failing w) then Proc.Exit 1 else Proc.Ret ())
  ∧ Run.execs (Run.news w r.2) = [cmd]
  ∧ filter Proc.mutates (Run.news w r.2)
    = (if Fs.exists_ testDir (Proc.files w) then []
       else [ Proc.EnsureDir testDir;
              Proc.WriteFile sample (Fs.Text (Js.trim Test.sampleTest)) ]).
Proof.
  intros r testDir sample cmd Hdir. unfold r. clear r.
  unfold Test.testCommand. munfold. cbn. fold testDir cmd.
  match goal with
  | |- context [Test.ensureTests testDir ?W] =>
      destruct (ensureTests_run testDir W) as [E _]; [exact Hdir|]; rewrite E; clear E
  end.
  cbn. fold sample.
  destruct (Fs.exists_ testDir (Proc.files w)); cbn; rewrite <- ?app_assoc; cbn;
    (case_bool_decide as Hc; cbn;
     [ destruct (negb (Test.flag (Test.verbose options)))
     | destruct (Test.flag (Test.coverage options)) ];
     cbn; read_news; by split_and!).
Qed.

(** X16: the test command, started where [tests] exists or where nothing
    lies at or below it: it runs the test runner once, with the flags of its
    options, and no other command; it returns when the runner succeeds and
    ends with status 1 when it fails.  Of its own it makes no call on the
    file system where [tests] exists, and otherwise makes the directory and
    then the sample test, also when the runner fails afterwards.  What the
    runner writes, such as the coverage report, is not followed. *)
Theorem test_run (options : Test.TestOptions) (w : Proc.world) :
  let r := Test.testCommand options w in
  let testDir := Fs.join (Proc.cwd w) "tests" in
  let sample := Fs.join testDir "Counter.test.ts" in
  let cmd := Test.testCmd options in
  (Fs.exists_ testDir (Proc.files w) = true
   ∨ More.vacant testDir (Proc.files w) = true) →
  r.1 = (if bool_decide (cmd ∈ Proc.failing w) then Proc.Exit 1 else Proc.Ret ())
  ∧ Run.execs (Run.news w r.2) = [cmd]
  ∧ filter Proc.mutates (Run.news w r.2)
    = (if Fs.exists_ testDir (Proc.files w) then []
       else [ Proc.EnsureDir testDir;
              Proc.WriteFile sample (Fs.Text (Js.trim Test.sampleTest)) ])
  ∧ cmd = "npx jest"
          +:+ (if Test.flag (Test.watch options) then " --watch" else "")
          +:+ (if Test.flag (Test.coverage options) then " --coverage" else "")
          +:+ (if Test.flag (Test.verbose options) then " --verbose" else "").
Proof.
  intros r testDir sample cmd Hdir.
  assert (Hdir' : Fs.exists_ testDir (Proc.files w) = true ∨ More.fresh testDir w)
    by (destruct Hdir; [by left | right; by apply vacant_fresh]).
  destruct (testCommand_run options w Hdir') as (H1 & H2 & H3).
  by split_and!.
Qed.

Lemma test_run_witness :
  (Test.testCommand Sample2.test_options Sample.empty_dir).1 = Proc.Ret ()
  ∧ Run.execs (Run.news Sample.empty_dir
                 (Test.testCommand Sample2.test_options Sample.empty_dir).2)
    = [ "npx jest --coverage" ].
Proof.
  destruct (test_run Sample2.test_options Sample.empty_dir) as (H & E & _).
  - right. reflexivity.
  - split; [exact H | exact E].
Defined.

(** X17: the sample test is made once.  Once the tests directory has been
    ensured it exists, and ensuring it again does nothing at all; and a test
    command started in whatever state of the same working directory in which
    [tests] exists, as the state after an earlier test command is unless the
    runner has removed the directory, makes no call on the file system and
    runs the runner once. *)
Theorem test_twice (options' : Test.TestOptions) (w w' : Proc.world) :
  let testDir := Fs.join (Proc.cwd w) "tests" in
  let e := Test.ensureTests testDir w in
  let r' := Test.testCommand options' w' in
  (Fs.exists_ testDir (Proc.files w) = true
   ∨ More.vacant testDir (Proc.files w) = true) →
  e.1 = Proc.Ret ()
  ∧ Fs.exists_ testDir (Proc.files e.2) = true
  ∧ Test.ensureTests testDir e.2 = (Proc.Ret (), e.2)
  ∧ (Proc.cwd w' = Proc.cwd w →
     Fs.exists_ testDir (Proc.files w') = true →
     filter Proc.mutates (Run.news w' r'.2) = []
     ∧ Run.execs (Run.news w' r'.2) = [Test.testCmd options']).
Proof.
  intros testDir e r' Hdir.
  assert (Hdir' : Fs.exists_ testDir (Proc.files w) = true ∨ More.fresh testDir w)
    by (destruct Hdir; [by left | right; by apply vacant_fresh]).
  destruct (ensureTests_run testDir w Hdir') as [E Hex]. fold e in E, Hex.
  split_and!.
  - by rewrite E.
  - exact Hex.
  - destruct (ensureTests_run testDir e.2) as [E' _]; [by left|].
    by rewrite E', Hex.
  - intros Hcwd Hex'.
    destruct (testCommand_run options' w') as (_ & Hx & Hm).
    { left. by rewrite Hcwd. }
    fold r' in Hx, Hm. rewrite Hcwd in Hm. fold testDir in Hm. rewrite Hex' in Hm.
    by split.
Qed.

Lemma test_twice_witness :
  Test.ensureTests "/work/tests" (Test.ensureTests "/work/tests" Sample.empty_dir).2
  = (Proc.Ret (), (Test.ensureTests "/work/tests" Sample.empty_dir).2)
  ∧ filter Proc.mutates
      (Run.news (Test.testCommand Sample2.test_options Sample.empty_dir).2
         (Test.testCommand Sample2.test_options
            (Test.testCommand Sample2.test_options Sample.empty_dir).2).2)
    = [].
Proof.
  destruct (test_twice Sample2.test_options Sample.empty_dir
              (Test.testCommand Sample2.test_options Sample.empty_dir).2)
    as (_ & _ & H & H').
  - right. reflexivity.
  - split; [exact H|]. apply H'; reflexivity.
Defined.

(** ** The sizes of the output files *)

Lemma hundredths_bounds (bytes unit : N) :
  (0 < unit)%N →
  let n := Format.hundredths bytes unit in
  (2 * unit * n <= 200 * bytes + unit < 2 * unit * (n + 1))%N.
Proof.
  intros Hu n. unfold n, Format.hundredths.
  pose proof (N.div_mod (200 * bytes + unit) (2 * unit) ltac:(lia)) as Hd.
  pose proof (N.mod_lt (200 * bytes + unit) (2 * unit) ltac:(lia)) as Hm.
  generalize dependent ((200 * bytes + unit) / (2 * unit))%N.
  generalize dependent ((200 * bytes + unit) mod (2 * unit))%N.
  intros r Hr q Hq. nia.
Qed.

(** X18: the size shown for an output file: below 1024 bytes the number of
    bytes itself; from there to below 1024 * 1024 bytes a number of
    hundredths of a kilobyte, and above that of a megabyte, which is the
    nearest one to the size, the larger of two, and at least [1.00]; so the
    sizes just below a megabyte are shown as [1024.00 KB]. *)
Theorem formatBytes_cases (bytes : N) :
  ((bytes < 1024)%N →
   Format.formatBytes bytes = Js.show_nat (N.to_nat bytes) +:+ " B")
  ∧ ((1024 <= bytes < 1024 * 1024)%N →
     ∃ n, Format.formatBytes bytes = Format.fixed2 n +:+ " KB"
          ∧ (100 <= n <= 102400)%N
          ∧ (2048 * n <= 200 * bytes + 1024 < 2048 * (n + 1))%N
          ∧ ((1048571 <= bytes)%N → n = 102400%N))
  ∧ ((1024 * 1024 <= bytes)%N →
     ∃ n, Format.formatBytes bytes = Format.fixed2 n +:+ " MB"
          ∧ (100 <= n)%N
          ∧ (2097152 * n <= 200 * bytes + 1048576 < 2097152 * (n + 1))%N).
Proof.
  unfold Format.formatBytes. split_and!.
  - intros H. apply N.ltb_lt in H. by rewrite H.
  - intros [H1 H2]. apply N.ltb_ge in H1. apply N.ltb_lt in H2. rewrite H1, H2.
    apply N.ltb_ge in H1. apply N.ltb_lt in H2.
    pose proof (hundredths_bounds bytes 1024 eq_refl) as Hb. cbn zeta in Hb.
    exists (Format.hundredths bytes 1024). split_and!; try done; lia.
  - intros H. assert (H1 : (1024 <= bytes)%N) by lia.
    apply N.ltb_ge in H1, H. rewrite H1, H. apply N.ltb_ge in H.
    pose proof (hundredths_bounds bytes (1024 * 1024) eq_refl) as Hb. cbn zeta in Hb.
    exists (Format.hundredths bytes (1024 * 1024)). split_and!; try done; lia.
Qed.

Lemma formatBytes_cases_witness :
  Format.formatBytes 1536 = "1.50 KB" ∧ Format.formatBytes 1048575 = "1024.00 KB".
Proof.
  split.
  - destruct (formatBytes_cases 1536) as (_ & H & _).
    destruct H as (n & E & _ & Hn & _); [lia|].
    assert (n = 150%N) as -> by lia. exact E.
  - destruct (formatBytes_cases 1048575) as (_ & H & _).
    destruct H as (n & E & _ & _ & Hn); [lia|].
    rewrite (Hn ltac:(lia)) in E. exact E.
Defined.

(** ** The initializer, continued *)

#[local] Arguments Init.createProjectStructure : simpl never.

Lemma lookup_put_all_notin (l : list (string * Fs.node)) (p : string) (f : Fs.fs) :
  p ∉ l.*1 → Fs.lookup p (Fs.put_all l f) = Fs.lookup p f.
Proof.
  revert f. induction l as [|[q n] l IH]; intros f Hp; [done|].
  cbn in Hp. apply not_elem_of_cons in Hp as [Hq Hp].
  cbn. rewrite IH by done. by apply lookup_put_ne.
Qed.

Lemma string_app_inv_head (s t u : string) : s +:+ t = s +:+ u → t = u.
Proof.
  induction s as [|a s IH]; [done|]. rewrite !string_app_cons. intros [= H]. by apply IH.
Qed.

Lemma join_inj (dir a b : string) : Fs.join dir a = Fs.join dir b → a = b.
Proof. unfold Fs.join. intros H%string_app_inv_head. by injection H. Qed.

Lemma join_ne_dir (dir a : string) : Fs.join dir a ≠ dir.
Proof.
  unfold Fs.join. intros E. apply (f_equal String.length) in E.
  rewrite !string_length_app in E. cbn in E. lia.
Qed.

Lemma set_same (w : Proc.world) :
  Proc.set_files (Proc.files w) (Proc.set_trace (Proc.trace w) w) = w.
Proof. by destruct w. Qed.

Lemma creates_ret {A : Type} (a : A) : More.creates [] (Proc.ret a).
Proof. intros w _. cbn. by rewrite app_nil_r, set_same. Qed.

Lemma creates_ensureDirSync (p : string) :
  More.creates [(p, Fs.Dir)] (Proc.ensureDirSync p).
Proof.
  intros w Hp. unfold Proc.ensureDirSync.
  rewrite (Hp p) by (cbn; apply list_elem_of_here). by cbn.
Qed.

Lemma creates_writeFileSync (p : string) (c : Fs.content) :
  More.creates [(p, Fs.File c)] (Proc.writeFileSync p c).
Proof.
  intros w Hp. unfold Proc.writeFileSync.
  rewrite (Hp p) by (cbn; apply list_elem_of_here). by cbn.
Qed.

Lemma creates_bind {A B : Type} (l1 l2 : list (string * Fs.node)) (m : Proc.M A)
    (k : A → Proc.M B) :
  More.creates l1 m → (∀ a, More.creates l2 (k a)) →
  (∀ p, p ∈ l1.*1 → p ∉ l2.*1) →
  More.creates (l1 ++ l2) (m ≫= k).
Proof.
  intros Hm Hk Hd w Hw.
  destruct (Hm w) as [Hr Hf].
  { intros p Hp. apply Hw. rewrite fmap_app. apply elem_of_app. by left. }
  unfold mbind, proc_bind, Proc.bind.
  destruct (m w) as [[a|e|c|] w'] eqn:E; cbn in *; try done.
  destruct (Hk a w') as [Hr' Hf'].
  { intros p Hp. rewrite Hf. cbn. rewrite lookup_put_all_notin.
    - apply Hw. rewrite fmap_app. apply elem_of_app. by right.
    - intros Hp1. by apply (Hd p). }
  split; [done|]. rewrite Hf', Hf. cbn. rewrite put_all_app, map_app, app_assoc.
  reflexivity.
Qed.

Lemma creates_eq {A : Type} (l l' : list (string * Fs.node)) (m : Proc.M A) :
  More.creates l m → l = l' → More.creates l' m.
Proof. by intros H <-. Qed.

(** Two lists of paths below the same directory share no path. *)
Ltac apart :=
  let p := fresh "p" in let Hp := fresh "Hp" in let Hq := fresh "Hq" in
  intros p Hp Hq; cbn in Hp, Hq;
  repeat (apply elem_of_cons in Hp as [->|Hp]);
  try (by apply elem_of_nil in Hp);
  repeat (apply elem_of_cons in Hq as [Hq|Hq];
          [apply join_inj in Hq; vm_compute in Hq; discriminate|]);
  by apply elem_of_nil in Hq.

Ltac creates_tac :=
  lazymatch goal with
  | |- More.creates _ (_ ≫= _) =>
      eapply creates_bind; [creates_tac | intros ?; creates_tac | apart]
  | |- More.creates _ (Proc.ensureDirSync _) => apply creates_ensureDirSync
  | |- More.creates _ (Proc.writeFileSync _ _) => apply creates_writeFileSync
  | |- More.creates _ (Proc.ret _) => apply creates_ret
  | |- More.creates _ (mret _) => apply creates_ret
  end.

Lemma createProjectStructure_creates (dir : string) (options : Init.ProjectOptions) :
  More.creates (Init.scaffold dir options) (Init.createProjectStructure dir options).
Proof.
  unfold Init.createProjectStructure, Proc.writeJsonSync.
  cbn [Init.ensureDirs Init.dirs].
  eapply creates_eq; [creates_tac | reflexivity].
Qed.

#[local] Arguments Fs.put_all : simpl never.

Lemma scaffold_below (dir : string) (options : Init.ProjectOptions) (p : string) :
  p ∈ (Init.scaffold dir options).*1 → ∃ x, p = Fs.join dir x.
Proof.
  unfold Init.scaffold. cbn. intros Hp.
  repeat (apply elem_of_cons in Hp as [->|Hp]; [eauto|]).
  by apply elem_of_nil in Hp.
Qed.

Lemma put_all_cons (p : string) (n : Fs.node) (l : list (string * Fs.node)) (f : Fs.fs) :
  Fs.put_all ((p, n) :: l) f = Fs.put_all l (Fs.put p n f).
Proof. reflexivity. Qed.

Lemma mutates_call_of (l : list (string * Fs.node)) :
  filter Proc.mutates (map Run.call_of l) = map Run.call_of l.
Proof. induction l as [|[p [|c]] l IH]; [done|..]; cbn; by f_equal. Qed.

Lemma execs_call_of (l : list (string * Fs.node)) : Run.execs (map Run.call_of l) = [].
Proof. by induction l as [|[p [|c]] l IH]. Qed.

Lemma mutates_cons (e : Proc.event) (t : list Proc.event) :
  filter Proc.mutates (e :: t)
  = if Proc.mutates e then e :: filter Proc.mutates t else filter Proc.mutates t.
Proof. by destruct e. Qed.

Lemma execs_cons (e : Proc.event) (t : list Proc.event) :
  Run.execs (e :: t)
  = match e with Proc.Exec cmd => cmd :: Run.execs t | _ => Run.execs t end.
Proof. by destruct e. Qed.

Lemma silent_quiet (t : list Proc.event) :
  Forall Run.silent t → filter Proc.mutates t = [] ∧ Run.execs t = [].
Proof.
  induction 1 as [|e t [Hm Hx] _ [IH1 IH2]]; [done|].
  split.
  - rewrite filter_cons_False; [done|]. rewrite Hm. by intros [].
  - destruct e; cbn in *; done.
Qed.

#[local] Arguments Init.scaffold : simpl never.

(** The project is made where nothing lies at or below its directory; a
    failing [npm install] ends the command and leaves the project. *)
Lemma createProject_fresh (options : Init.ProjectOptions) (w : Proc.world) :
  let dir := Fs.join (Proc.cwd w) (Init.name options) in
  let r := Init.createProject options w in
  let made := (dir, Fs.Dir) :: Init.scaffold dir options in
  More.fresh dir w →
  Proc.files r.2 = Fs.put_all made (Proc.files w)
  ∧ r.1 = (if Init.installDependencies options
              && bool_decide ("npm install" ∈ Proc.failing w)
           then Proc.Exit 1 else Proc.Ret ())
  ∧ Fs.lookup dir (Proc.files r.2) = Some Fs.Dir
  ∧ filter Proc.mutates (Run.news w r.2) = map Run.call_of made
  ∧ Run.execs (Run.news w r.2)
    = (if Init.installDependencies options then ["npm install"] else []).
Proof.
  intros dir r made Hfresh. unfold r, made. clear r made.
  assert (Hdir : Fs.lookup dir (Proc.files w) = None) by (apply Hfresh; by left).
  assert (Hlast : Fs.lookup dir
                    (Fs.put_all ((dir, Fs.Dir) :: Init.scaffold dir options) (Proc.files w))
                  = Some Fs.Dir).
  { rewrite put_all_cons, lookup_put_all_notin, lookup_put_eq; [done|].
    intros (x & Hx)%scaffold_below. symmetry in Hx. by apply join_ne_dir in Hx. }
  unfold Init.createProject. munfold. unfold Fs.exists_. cbn. fold dir.
  rewrite Hdir. cbn. rewrite Hdir. cbn.
  match goal with
  | |- context [Init.createProjectStructure dir options ?W] =>
      destruct (createProjectStructure_creates dir options W) as [Hr Hf];
      [|destruct (Init.createProjectStructure dir options W) as [[[]|e|c|] w'] eqn:E]
  end; try (cbn in Hr, Hf); try done.
  - intros p Hp. destruct (scaffold_below _ _ _ Hp) as (x & ->). cbn.
    rewrite lookup_put_ne by apply join_ne_dir. apply Hfresh, under_join.
  - subst w'. rewrite put_all_cons in Hlast |- *. cbn [map].
    change (Run.call_of (dir, Fs.Dir)) with (Proc.EnsureDir dir).
    destruct (Init.installDependencies options); cbn; [case_bool_decide; cbn|];
      rewrite <- ?app_assoc; cbn; read_news;
      rewrite !mutates_cons, !execs_cons, filter_app, execs_app, mutates_call_of,
        execs_call_of;
      by split_and!.
Qed.

Lemma join_dir_eqb (dir x : string) : String.eqb (Fs.join dir x) dir = false.
Proof. apply eqb_ne, join_ne_dir. Qed.

(** Looking a path of the project up among the nodes put below [dir]. *)
Ltac lookup_puts :=
  unfold Fs.put_all; cbn [fold_left fst snd];
  repeat (rewrite lookup_put;
          first [ rewrite join_dir_eqb
                | rewrite join_eqb;
                  match goal with
                  | |- context [String.eqb ?a ?b] =>
                      let v := eval vm_compute in (String.eqb a b) in
                      change (String.eqb a b) with v
                  end ];
          cbv iota).

Lemma initCommand_fresh (arg : option string) (flags : Init.Flags) (user : Init.User)
    (w : Proc.world) (n : string) :
  let options := Init.projectOptions n flags user in
  let dir := Fs.join (Proc.cwd w) n in
  let r := Init.initCommand arg flags user w in
  let made := (dir, Fs.Dir) :: Init.scaffold dir options in
  (Init.ask_input (Init.defaultName arg) Init.validate (Init.typed user) w).1 = Proc.Ret n →
  More.vacant dir (Proc.files w) = true →
  Proc.files r.2 = Fs.put_all made (Proc.files w)
  ∧ r.1 = (if Init.installDependencies options
              && bool_decide ("npm install" ∈ Proc.failing w)
           then Proc.Exit 1 else Proc.Ret ())
  ∧ Fs.lookup dir (Proc.files r.2) = Some Fs.Dir
  ∧ Proc.cwd r.2 = Proc.cwd w
  ∧ filter Proc.mutates (Run.news w r.2) = map Run.call_of made
  ∧ Run.execs (Run.news w r.2)
    = (if Init.installDependencies options then ["npm install"] else []).
Proof.
  intros options dir r made Hask Hvacant. unfold r, made. clear r made.
  destruct (initCommand_run arg flags user w) as [[Hs _] | (m & w1 & Hm & _ & Hr & Hrun)].
  { rewrite Hask in Hs. discriminate. }
  rewrite Hask in Hm. injection Hm as <-. rewrite Hrun. fold options.
  pose proof Hr as [Hf Hc]%reports_files.
  assert (Hfail : Proc.failing w1 = Proc.failing w) by (by destruct Hr as (t & -> & _)).
  pose proof (createProject_outside options w1) as [Hcwd _].
  destruct (createProject_fresh options w1) as (H1 & H2 & H3 & H4 & H5).
  { cbn. rewrite Hc. intros p Hp. rewrite Hf. by apply (vacant_fresh dir w). }
  change (Init.name options) with n in H1, H3, H4.
  rewrite Hc in H1, H3, H4. fold dir in H1, H3, H4. rewrite Hf in H1. rewrite Hfail in H2.
  assert (Hnews : ∃ t, Forall Run.silent t
                       ∧ Run.news w (Init.createProject options w1).2
                         = t ++ Run.news w1 (Init.createProject options w1).2).
  { destruct Hr as (t & -> & Ht). exists t. split; [done|].
    destruct (createProject_confined options (Proc.set_trace (Proc.trace w ++ t) w))
      as (_ & t' & Et & _).
    cbn in Et. unfold Run.news. rewrite Et. cbn.
    by rewrite drop_app_length, <- app_assoc, drop_app_length. }
  destruct Hnews as (t & Ht & ->). destruct (silent_quiet t Ht) as [Hq1 Hq2].
  rewrite filter_app, execs_app, Hq1, Hq2. cbn [app].
  split_and!; try done. rewrite <- Hc. exact Hcwd.
Qed.

(** X19: the initializer, where the name it is given is accepted and nothing
    lies at or below the directory of that name.  The calls it makes on the
    file system are those that make the directory and then the six
    directories and the six files of the project, in this order, and no
    other; the one command it runs is [npm install], where the dependencies
    are to be installed, and what that command writes is not followed.  It
    returns, unless [npm install] fails: then it ends with status 1, after
    the project has been made.  Where the dependencies are not to be
    installed, the file system it leaves is the one it found with the
    project put; the contract in it is [Counter.compact], and the file
    [main.compact], which the manifest names in its script
    [compile-contract], does not exist, nor is it ever written. *)
Theorem init_creates (arg : option string) (flags : Init.Flags) (user : Init.User)
    (w : Proc.world) (n : string) :
  let options := Init.projectOptions n flags user in
  let dir := Fs.join (Proc.cwd w) n in
  let r := Init.initCommand arg flags user w in
  let made := (dir, Fs.Dir) :: Init.scaffold dir options in
  (Init.ask_input (Init.defaultName arg) Init.validate (Init.typed user) w).1 = Proc.Ret n →
  More.vacant dir (Proc.files w) = true →
  filter Proc.mutates (Run.news w r.2) = map Run.call_of made
  ∧ Run.execs (Run.news w r.2)
    = (if Init.installDependencies options then ["npm install"] else [])
  ∧ r.1 = (if Init.installDependencies options
              && bool_decide ("npm install" ∈ Proc.failing w)
           then Proc.Exit 1 else Proc.Ret ())
  ∧ (Init.installDependencies options = false →
     Proc.files r.2 = Fs.put_all made (Proc.files w)
     ∧ Fs.exists_ (Fs.join dir "src/contracts/Counter.compact") (Proc.files r.2) = true
     ∧ Fs.exists_ (Fs.join dir "src/contracts/main.compact") (Proc.files r.2) = false)
  ∧ (∀ c, Proc.WriteFile (Fs.join dir "src/contracts/main.compact") c ∉ Run.news w r.2)
  ∧ Json.get "scripts" (Init.packageJson options)
      ≫= Json.get "compile-contract"
    = Some (Json.JStr "compactc src/contracts/main.compact -o build/").
Proof.
  intros options dir r made Hask Hvacant.
  destruct (initCommand_fresh arg flags user w n Hask Hvacant)
    as (Hf & Hr & _ & _ & Hm & Hx).
  fold r dir options made in Hf, Hr, Hm, Hx. split_and!; try done.
  - intros _. split_and!; [done|..].
    + rewrite Hf. unfold made, Fs.exists_, Init.scaffold. cbn [map Init.dirs app].
      by lookup_puts.
    + rewrite Hf. unfold made, Fs.exists_, Init.scaffold. cbn [map Init.dirs app].
      lookup_puts. rewrite (vacant_fresh dir w Hvacant); [done | apply under_join].
  - intros c Hc.
    assert (Hin : Proc.WriteFile (Fs.join dir "src/contracts/main.compact") c
                  ∈ filter Proc.mutates (Run.news w r.2))
      by (by apply list_elem_of_filter).
    rewrite Hm in Hin. unfold made, Init.scaffold in Hin.
    cbn [map Init.dirs app Run.call_of fst snd] in Hin.
    repeat (apply elem_of_cons in Hin as [Hin|Hin];
            [ first [ discriminate Hin
                    | injection Hin as Hin _; apply join_inj in Hin;
                      vm_compute in Hin; discriminate Hin ] |]).
    by apply elem_of_nil in Hin.
Qed.

Lemma init_creates_witness :
  Fs.exists_ "/work/my-app-1/src/contracts/main.compact"
    (Proc.files (Init.initCommand None Sample.flags Sample.careful Sample.empty_dir).2)
  = false
  ∧ Run.execs
      (Run.news Sample.empty_dir
         (Init.initCommand None Sample.flags Sample.careful Sample.empty_dir).2)
    = [].
Proof.
  destruct (init_creates None Sample.flags Sample.careful Sample.empty_dir "my-app-1"
              eq_refl eq_refl) as (_ & Hx & _ & H & _).
  destruct H as (_ & _ & H); [reflexivity|].
  split; [exact H | exact Hx].
Defined.

(** X20: the initializer does not make a project twice: after a run that has
    made the project, a second run for the same name, with whatever flags
    and answers, ends with status 1 and leaves the file system as the first
    run left it. *)
Theorem init_twice (arg arg' : option string) (flags flags' : Init.Flags)
    (user user' : Init.User) (w : Proc.world) (n : string) :
  let r := Init.initCommand arg flags user w in
  let r' := Init.initCommand arg' flags' user' r.2 in
  (Init.ask_input (Init.defaultName arg) Init.validate (Init.typed user) w).1 = Proc.Ret n →
  (Init.ask_input (Init.defaultName arg') Init.validate (Init.typed user') w).1
  = Proc.Ret n →
  More.vacant (Fs.join (Proc.cwd w) n) (Proc.files w) = true →
  r'.1 = Proc.Exit 1
  ∧ Proc.files r'.2 = Proc.files r.2
  ∧ last (Run.news r.2 r'.2) = Some (Proc.Console ("Directory " +:+ n +:+ " already exists!")).
Proof.
  intros r r' Hask Hask' Hvacant. unfold r'. clear r'.
  destruct (initCommand_fresh arg flags user w n Hask Hvacant) as (_ & _ & Hdir & Hcwd & _).
  fold r in Hdir, Hcwd.
  rewrite (ask_input_outcome _ _ w r.2) in Hask'.
  destruct (initCommand_run arg' flags' user' r.2)
    as [[Hs _] | (m & w1 & Hm & _ & Hr & Hrun)].
  { rewrite Hask' in Hs. discriminate. }
  rewrite Hask' in Hm. injection Hm as <-. rewrite Hrun.
  pose proof Hr as [Hf Hc]%reports_files.
  rewrite createProject_exists
    by (cbn; unfold Fs.exists_; by rewrite Hc, Hf, Hcwd, Hdir).
  cbn. destruct Hr as (t & -> & Ht). cbn.
  rewrite (news_app _ _ (t ++ [Proc.Console ("Directory " +:+ n +:+ " already exists!")]))
    by (cbn; by rewrite app_assoc).
  split_and!; try done. by rewrite last_snoc.
Qed.

Lemma init_twice_witness :
  (Init.initCommand None Sample.flags Sample.careful
     (Init.initCommand None Sample.flags Sample.careful Sample.empty_dir).2).1
  = Proc.Exit 1.
Proof.
  destruct (init_twice None None Sample.flags Sample.flags Sample.careful Sample.careful
              Sample.empty_dir "my-app-1" eq_refl eq_refl eq_refl) as (H & _).
  exact H.
Defined.

(** *** The directory listing of a project that has just been made *)

Lemma strip_prefix_app (p s t : string) :
  Fs.strip_prefix (p +:+ s) (p +:+ t) = Fs.strip_prefix s t.
Proof.
  induction p as [|a p IH]; [done|].
  rewrite !string_app_cons. cbn. by rewrite Ascii.eqb_refl.
Qed.

Lemma strip_prefix_startsWith (p s q x : string) :
  Fs.strip_prefix (p +:+ s) q = Some x → Js.startsWith p q = true.
Proof.
  revert q. induction p as [|a p IH]; intros q; [by destruct q|].
  rewrite string_app_cons. destruct q as [|b q]; cbn; [done|].
  destruct (Ascii.eqb a b); [apply IH | done].
Qed.

Lemma strip_prefix_longer (p s : string) :
  Fs.strip_prefix (p +:+ String "/" s) p = None.
Proof. induction p as [|a p IH]; [done|]. rewrite string_app_cons. cbn. by rewrite Ascii.eqb_refl. Qed.

Lemma entry_of_join (dir a b : string) :
  Fs.entry_of (Fs.join dir a) (Fs.join dir b) = Fs.entry_of a b.
Proof.
  unfold Fs.entry_of, Fs.join. rewrite !string_app_assoc.
  by rewrite strip_prefix_app, (strip_prefix_app "/").
Qed.

Lemma entry_of_dir (dir a : string) : Fs.entry_of (Fs.join dir a) dir = None.
Proof.
  unfold Fs.entry_of, Fs.join. rewrite !string_app_assoc.
  change ("/" +:+ a +:+ "/") with (String "/" (a +:+ "/")).
  by rewrite strip_prefix_longer.
Qed.

Lemma entries_vacant (dir a : string) (f : Fs.fs) :
  More.vacant dir f = true → Fs.entries (Fs.join dir a) f = [].
Proof.
  unfold Fs.entries. induction f as [|[q n] f IH]; [done|].
  cbn. intros [Hq Hf]%andb_true_iff. rewrite IH by done.
  apply negb_true_iff, orb_false_iff in Hq as [_ Hq].
  unfold Fs.entry_of, Fs.join. rewrite !string_app_assoc, <- (string_app_assoc dir).
  destruct (Fs.strip_prefix _ q) as [x|] eqn:E; [|done].
  apply strip_prefix_startsWith in E. congruence.
Qed.

Lemma put_fresh (p : string) (n : Fs.node) (f : Fs.fs) :
  Fs.lookup p f = None → Fs.put p n f = f ++ [(p, n)].
Proof.
  induction f as [|[q m] f IH]; [done|]. cbn.
  destruct (String.eqb p q); [done|]. intros H. by rewrite IH.
Qed.

Lemma entries_put (dir p : string) (n : Fs.node) (f : Fs.fs) :
  Fs.lookup p f = None →
  Fs.entries dir (Fs.put p n f)
  = Fs.entries dir f ++ match Fs.entry_of dir p with Some x => [x] | None => [] end.
Proof.
  intros H. rewrite (put_fresh _ _ _ H). unfold Fs.entries. rewrite omap_app. cbn.
  by destruct (Fs.entry_of dir p).
Qed.

Ltac eval_entry :=
  repeat match goal with
         | |- context [Fs.entry_of ?a ?b] =>
             let v := eval vm_compute in (Fs.entry_of a b) in
             change (Fs.entry_of a b) with v
         end.

Lemma scaffold_contracts (dir : string) (options : Init.ProjectOptions) (f : Fs.fs) :
  More.vacant dir f = true →
  Fs.entries (Fs.join dir "src/contracts")
    (Fs.put_all ((dir, Fs.Dir) :: Init.scaffold dir options) f)
  = [ "Counter.compact" ].
Proof.
  intros Hv.
  assert (Hfresh : ∀ x, Fs.lookup (Fs.join dir x) f = None).
  { intros x. apply (vacant_lookup dir); [done | apply under_join]. }
  assert (Hdir : Fs.lookup dir f = None).
  { apply (vacant_lookup dir); [done | by left]. }
  unfold Init.scaffold, Fs.put_all. cbn [map Init.dirs app fold_left fst snd].
  repeat (rewrite entries_put by (lookup_puts; first [apply Hfresh | apply Hdir])).
  rewrite entries_vacant by done.
  rewrite !entry_of_join, entry_of_dir. eval_entry. reflexivity.
Qed.

(** X21: in a project that the initializer has just made, compiling without
    a file argument finds the one contract of the project,
    [src/contracts/Counter.compact], and reports nothing about the choice;
    and a deploy, whatever its command line, finds the configuration of the
    project and then fails with status 1, because no compiled contract is at
    [build/contract.wasm]. *)
Theorem init_then_commands (arg : option string) (flags : Init.Flags) (user : Init.User)
    (w project : Proc.world) (n : string) (args : Deploy.CommandLine) :
  let dir := Fs.join (Proc.cwd w) n in
  let r := Init.initCommand arg flags user w in
  let d := Deploy.deployCommand (Deploy.parse args) project in
  (Init.ask_input (Init.defaultName arg) Init.validate (Init.typed user) w).1 = Proc.Ret n →
  More.vacant dir (Proc.files w) = true →
  Proc.cwd project = dir →
  Proc.files project = Proc.files r.2 →
  Contract.findContract (Fs.join dir "src/contracts") project
  = (Proc.Ret (Fs.join (Fs.join dir "src/contracts") "Counter.compact"), project)
  ∧ d.1 = Proc.Exit 1
  ∧ Proc.ConsoleError
      ("Error: " +:+ "Compiled contract not found at " +:+ "build/contract.wasm"
       +:+ ". Run 'npm run compile-contract' first.")
    ∈ Run.news project d.2.
Proof.
  intros dir r d Hask Hvacant Hcwd Hfiles. unfold d. clear d.
  destruct (initCommand_fresh arg flags user w n Hask Hvacant) as (Hf & _ & _ & _).
  fold r dir in Hf. rewrite Hf in Hfiles. clear Hf.
  assert (Hfresh : ∀ x, Fs.lookup (Fs.join dir x) (Proc.files w) = None).
  { intros x. apply (vacant_lookup dir); [done | apply under_join]. }
  set (made := Fs.put_all _ _) in Hfiles.
  assert (Hl : Fs.lookup (Fs.join dir "src/contracts") made = Some Fs.Dir).
  { unfold made, Init.scaffold. cbn [map Init.dirs app]. by lookup_puts. }
  assert (He : Fs.entries (Fs.join dir "src/contracts") made = ["Counter.compact"]).
  { by apply scaffold_contracts. }
  assert (Hconfig : Fs.lookup (Fs.join dir "midnight.config.json") made
                    = Some (Fs.File (Fs.Doc Init.midnightConfig))).
  { unfold made, Init.scaffold. cbn [map Init.dirs app]. by lookup_puts. }
  assert (Hwasm : Fs.lookup (Fs.join dir "build/contract.wasm") made = None).
  { unfold made, Init.scaffold. cbn [map Init.dirs app]. lookup_puts. apply Hfresh. }
  clearbody made. split.
  - unfold Contract.findContract. munfold. unfold Fs.exists_. cbn.
    rewrite Hfiles, Hl. cbn. rewrite Hfiles, Hl. cbn. rewrite He. reflexivity.
  - assert (Hc : Fs.lookup (Deploy.configFile (Deploy.parse args) project)
                   (Proc.files project)
                 = Some (Fs.File (Fs.Doc Init.midnightConfig))).
    { rewrite Hfiles. unfold Deploy.configFile. rewrite Hcwd. exact Hconfig. }
    assert (Hx : Fs.exists_ (Fs.resolve (Proc.cwd project) "build/contract.wasm")
                   (Proc.files project) = false).
    { rewrite Hfiles, Hcwd. unfold Fs.exists_.
      change (Fs.resolve dir "build/contract.wasm") with (Fs.join dir "build/contract.wasm").
      by rewrite Hwasm. }
    assert (Hn : ∃ net, Deploy.resolveNetwork (Deploy.parse args) Init.midnightConfig
                        = Proc.Ok net).
    { unfold Deploy.resolveNetwork. destruct (Js.truthy _); eauto. }
    destruct Hn as (net & Hn).
    assert (Hr : Deploy.resolveContract (Deploy.parse args) Init.midnightConfig
                 = Proc.Ok "build/contract.wasm") by reflexivity.
    revert Hc Hn Hr. generalize Init.midnightConfig. intros config Hc Hn Hr.
    unfold Deploy.configFile in Hc. cbn in Hc.
    unfold Deploy.deployCommand, Deploy.prepare. munfold.
    unfold Fs.exists_ in *. cbn. rewrite Hc. cbn. rewrite Hc. cbn.
    rewrite Hn. cbn. rewrite Hr. cbn. rewrite Hx. cbn.
    destruct (Deploy.arg_verbose args); cbn; read_news; split; try done; find_event.
Qed.

Lemma init_then_commands_witness :
  (Deploy.deployCommand (Deploy.parse Sample.mainnet_given) Sample.in_project).1
  = Proc.Exit 1.
Proof.
  destruct (init_then_commands None Sample.flags Sample.careful Sample.empty_dir
              Sample.in_project "my-app-1" Sample.mainnet_given
              eq_refl eq_refl eq_refl eq_refl) as (_ & H & _).
  exact H.
Defined.

(** X22: what the command line of [init] can ask for: [--typescript] has the
    default [true], so the project is a TypeScript project with and without
    the flag, and the dependencies are installed unless [--no-install] is
    given; the two confirm prompts are never shown, so of the answers of the
    user only the name and the template count. *)
Theorem init_command_line (args : InitCli.CommandLine) (user user' : Init.User)
    (n : string) :
  let options := Init.projectOptions n (InitCli.parse args) user in
  Init.picked user = Init.picked user' →
  options = Init.projectOptions n (InitCli.parse args) user'
  ∧ Init.useTypeScript options = true
  ∧ Init.fileExtension options = "tsx"
  ∧ Init.installDependencies options = negb (InitCli.opt_no_install args).
Proof.
  intros options Hp. unfold options, Init.projectOptions, Init.answer_template.
  rewrite Hp. unfold Init.fileExtension. cbn.
  by destruct (InitCli.opt_typescript args), (InitCli.opt_no_install args).
Qed.

Lemma init_command_line_witness :
  Init.useTypeScript
    (Init.projectOptions "my-app-1" (InitCli.parse Sample2.plain_line) Sample.careful)
  = true.
Proof.
  destruct (init_command_line Sample2.plain_line Sample.careful Sample.stubborn "my-app-1"
              eq_refl) as (_ & H & _).
  exact H.
Defined.

(** ** The other commands *)

(** X23: [logs] never fails: it spawns [docker logs] for the container, with
    [-f] when it is to follow, and returns; where the container runtime is
    not installed it reports that no logs are available, and still returns.
    Neither the file system nor the container runtime is touched. *)
Theorem logs_never_fail (follow : option bool) (w : Proc.world) :
  let r := ProofServer.viewLogs follow w in
  let spawned :=
    Proc.Spawn "docker"
      (["logs"] ++ (if default false follow then ["-f"] else [])
       ++ ["midnight-proof-server"]) in
  r.1 = Proc.Ret ()
  ∧ Proc.files r.2 = Proc.files w
  ∧ More.same_runtime w r.2
  ∧ Run.news w r.2
    = [ Proc.Console "Proof server logs:"; spawned ]
      ++ (if Proc.docker_installed w then []
          else [ Proc.ConsoleError "No logs available. Is the proof server running?" ]).
Proof.
  intros r spawned. unfold r, spawned, ProofServer.viewLogs, ProofServer.flag.
  munfold. cbn.
  destruct (Proc.docker_installed w) eqn:Hd; cbn; read_news;
    (split_and!; try done; unfold More.same_runtime; cbn; by rewrite ?Hd).
Qed.

(** X24: [verify] consults nothing: for every address it waits two seconds,
    reports that the contract is verified and returns; the two waits are all
    that reaches outside the process: it runs no command, writes nothing, and
    leaves the file system and the container runtime as they were. *)
Theorem verify_consults_nothing (address : string) (w : Proc.world) :
  let r := Contract.verifyContract address w in
  r.1 = Proc.Ret ()
  ∧ Proc.files r.2 = Proc.files w
  ∧ More.same_runtime w r.2
  ∧ filter Proc.external (Run.news w r.2) = [ Proc.Sleep 1000; Proc.Sleep 1000 ]
  ∧ filter Proc.mutates (Run.news w r.2) = []
  ∧ last (Run.news w r.2) = Some (Proc.Console "  Status: Verified").
Proof.
  intros r. unfold r, Contract.verifyContract. munfold. cbn. read_news.
  by split_and!.
Qed.
